(** * Feedback alignment notebook: a shallow embedding of its cells

    The notebook [Feedback Alignment.ipynb] is a sequence of cells run on
    one kernel.  Its variables are the kernel's global names, so the
    embedding keeps them in a finite map from names to values and writes
    every cell as a program of a small state-and-exception monad over that
    map.  Floating-point numbers are read as real numbers ([R]): rounding,
    overflow to [inf] and [nan] are outside the model, and where a property
    depends on them (the saturation of [sigma]) the float64 operation is
    written over primitive floats.  Integers are [Z]; a two-dimensional
    array is a shape together with its entries.
    The random draws ([np.random], the shuffle of [train_test_split], the
    order in which a [DataLoader] yields its samples) are inputs of the
    cells that make them. *)

From Stdlib Require Import PrimFloat.
From Stdlib Require Import Reals Lra ZArith.
From stdpp Require Import gmap strings list.

Local Open Scope R_scope.

(** ** Finite sums of reals *)

(** [rsum n f] is [f 0 + ... + f (n-1)]. *)
Fixpoint rsum (n : nat) (f : nat → R) : R :=
  match n with
  | O => 0
  | S k => rsum k f + f k
  end.

(** ** Arrays *)

(** A two-dimensional [numpy] array of floats: its shape and its entries.
    Only the entries inside the shape are meaningful. *)
Record ndarray : Type := NdArray {
  nrows : nat;
  ncols : nat;
  ent : nat → nat → R
}.

(** A one-dimensional array of floats (the bias vectors [b0] and [b]). *)
Record vec : Type := Vec {
  vlen : nat;
  vent : nat → R
}.

(** A contiguous [torch] tensor of floats: its shape and its flat buffer. *)
Record tensor : Type := Tensor {
  tshape : list nat;
  tbuf : nat → R
}.

(** Two arrays are the same array when shape and entries inside the shape
    agree. *)
Definition same_array (a b : ndarray) : Prop :=
  nrows a = nrows b ∧ ncols a = ncols b ∧
  ∀ i j, (i < nrows a)%nat → (j < ncols a)%nat → ent a i j = ent b i j.

(** [a.T] *)
Definition transpose (a : ndarray) : ndarray :=
  NdArray (ncols a) (nrows a) (λ i j, ent a j i).

(** Column [j] of [a], as an array with one column. *)
Definition column (j : nat) (a : ndarray) : ndarray :=
  NdArray (nrows a) 1 (λ i _, ent a i j).

(** [a[:, st:en]], for [st <= en <= ncols a]. *)
Definition slice_cols (st en : nat) (a : ndarray) : ndarray :=
  NdArray (nrows a) (en - st) (λ i j, ent a i (st + j)%nat).

(** [a[idx]]: the rows of [a] picked by the index list [idx]. *)
Definition take_rows (idx : list nat) (a : ndarray) : ndarray :=
  NdArray (length idx) (ncols a) (λ i j, ent a (nth i idx O) j).

(** The array of shape [(r, c)] whose every entry is [x]. *)
Definition full (r c : nat) (x : R) : ndarray := NdArray r c (λ _ _, x).

(** Applying [f] to every entry. *)
Definition map_array (f : R → R) (a : ndarray) : ndarray :=
  NdArray (nrows a) (ncols a) (λ i j, f (ent a i j)).

(** The sum of all entries of the entrywise image under [f]. *)
Definition sum_entries (f : R → R) (a : ndarray) : R :=
  rsum (nrows a) (λ i, rsum (ncols a) (λ j, f (ent a i j))).

(** ** Exceptions and values *)

Inductive exn : Type :=
  | NameError
  | TypeError
  | ValueError
  | ZeroDivisionError
  | IndexError
  | RuntimeError.

(** One sample of an image dataset: the pixels of the image (a flat buffer
    of [1 * 28 * 28] floats) and its class label. *)
Record sample : Type := Sample {
  pixels : nat → R;
  label : Z
}.

(** A [torch.utils.data.DataLoader]: the dataset it reads, its batch size
    and whether it shuffles. *)
Record loader : Type := Loader {
  dataset : list sample;
  loader_batch_size : Z;
  loader_shuffle : bool
}.

(** The values the names of the notebook are bound to. *)
Inductive val : Type :=
  | VInt (n : Z)                  (* a Python int *)
  | VFloat (r : R)                (* a Python or numpy float *)
  | VArr (a : ndarray)            (* a 2-D float array *)
  | VVec (v : vec)                (* a 1-D float array *)
  | VIntVec (l : list Z)          (* a 1-D integer array *)
  | VArrs (l : list ndarray)      (* a Python list of 2-D arrays *)
  | VTensor (t : tensor)          (* a float tensor *)
  | VIntTensor (l : list Z)       (* a 1-D integer tensor *)
  | VLoader (d : loader).         (* a DataLoader *)

(** What a computation returns: a value, or the exception it raised. *)
Definition res (A : Type) : Type := (exn + A)%type.

Definition res_map {A B : Type} (f : A → B) (r : res A) : res B :=
  match r with
  | inl e => inl e
  | inr a => inr (f a)
  end.

(** ** The operators of Python and [numpy] on these values

    Every operator is defined on the kinds of operands that the cells of the
    notebook produce (numbers, 2-D arrays, lists of 2-D arrays) with the
    exception [numpy] or Python raises for them; other operand kinds, which
    no cell produces, are answered with [TypeError]. *)

(** One axis of [numpy]'s broadcasting rule: equal lengths, or one of them
    is 1. *)
Definition bdim (a b : nat) : option nat :=
  if (a =? b)%nat then Some a
  else if (a =? 1)%nat then Some b
  else if (b =? 1)%nat then Some a
  else None.

(** The index read along an axis of length [n] that is broadcast. *)
Definition bidx (n i : nat) : nat := if (n =? 1)%nat then O else i.

(** The entrywise [op] of [a] and [b] broadcast to the shape [(r, c)]. *)
Definition zip_array (r c : nat) (op : R → R → R) (a b : ndarray) : ndarray :=
  NdArray r c (λ i j,
    op (ent a (bidx (nrows a) i) (bidx (ncols a) j))
       (ent b (bidx (nrows b) i) (bidx (ncols b) j))).

Definition broadcast2 (op : R → R → R) (a b : ndarray) : res ndarray :=
  match bdim (nrows a) (nrows b), bdim (ncols a) (ncols b) with
  | Some r, Some c => inr (zip_array r c op a b)
  | _, _ => inl ValueError
  end.

(** [+], [-] and [*]: integer, float, scalar with array, array with array. *)
Definition py_arith (opZ : Z → Z → Z) (opR : R → R → R) (a b : val) : res val :=
  match a, b with
  | VInt x, VInt y => inr (VInt (opZ x y))
  | VInt x, VFloat y => inr (VFloat (opR (IZR x) y))
  | VFloat x, VInt y => inr (VFloat (opR x (IZR y)))
  | VFloat x, VFloat y => inr (VFloat (opR x y))
  | VInt x, VArr m => inr (VArr (map_array (opR (IZR x)) m))
  | VFloat x, VArr m => inr (VArr (map_array (opR x) m))
  | VArr m, VInt y => inr (VArr (map_array (λ t, opR t (IZR y)) m))
  | VArr m, VFloat y => inr (VArr (map_array (λ t, opR t y) m))
  | VArr m, VArr n => res_map VArr (broadcast2 opR m n)
  | _, _ => inl TypeError
  end.

Definition py_add : val → val → res val := py_arith Z.add Rplus.
Definition py_sub : val → val → res val := py_arith Z.sub Rminus.
Definition py_mul : val → val → res val := py_arith Z.mul Rmult.

(** [a / b].  Between Python numbers a zero divisor raises; with an array
    on either side the division is [numpy]'s and does not raise. *)
Definition py_truediv (a b : val) : res val :=
  match a, b with
  | VInt x, VInt y =>
      if (y =? 0)%Z then inl ZeroDivisionError else inr (VFloat (IZR x / IZR y))
  | VFloat x, VInt y =>
      if (y =? 0)%Z then inl ZeroDivisionError else inr (VFloat (x / IZR y))
  | VInt x, VFloat y =>
      if Req_dec_T y 0 then inl ZeroDivisionError else inr (VFloat (IZR x / y))
  | VFloat x, VFloat y =>
      if Req_dec_T y 0 then inl ZeroDivisionError else inr (VFloat (x / y))
  | VInt x, VArr m => inr (VArr (map_array (Rdiv (IZR x)) m))
  | VFloat x, VArr m => inr (VArr (map_array (Rdiv x) m))
  | VArr m, VInt y => inr (VArr (map_array (λ t, t / IZR y) m))
  | VArr m, VFloat y => inr (VArr (map_array (λ t, t / y) m))
  | VArr m, VArr n => res_map VArr (broadcast2 Rdiv m n)
  | _, _ => inl TypeError
  end.

(** [a % b] on Python numbers (the sign follows the divisor). *)
Definition float_mod (x y : R) : R := x - y * IZR (Int_part (x / y)).

Definition py_mod (a b : val) : res val :=
  match a, b with
  | VInt x, VInt y =>
      if (y =? 0)%Z then inl ZeroDivisionError else inr (VInt (x mod y))
  | VInt x, VFloat y =>
      if Req_dec_T y 0 then inl ZeroDivisionError
      else inr (VFloat (float_mod (IZR x) y))
  | VFloat x, VInt y =>
      if (y =? 0)%Z then inl ZeroDivisionError
      else inr (VFloat (float_mod x (IZR y)))
  | VFloat x, VFloat y =>
      if Req_dec_T y 0 then inl ZeroDivisionError
      else inr (VFloat (float_mod x y))
  | _, _ => inl TypeError
  end.

(** [-a] *)
Definition py_neg (a : val) : res val :=
  match a with
  | VInt x => inr (VInt (- x))
  | VFloat x => inr (VFloat (- x))
  | VArr m => inr (VArr (map_array Ropp m))
  | _ => inl TypeError
  end.

(** [int(a)]: truncation towards zero. *)
Definition trunc (x : R) : Z :=
  if Rle_dec 0 x then Int_part x else (- Int_part (- x))%Z.

Definition py_int (a : val) : res Z :=
  match a with
  | VInt x => inr x
  | VFloat x => inr (trunc x)
  | _ => inl TypeError
  end.

(** The truth value of a number, as [if a:] takes it. *)
Definition py_truth (a : val) : res bool :=
  match a with
  | VInt x => inr (negb (x =? 0)%Z)
  | VFloat x => inr (if Req_dec_T x 0 then false else true)
  | _ => inl TypeError
  end.

(** [a @ b]: the matrix product, for arrays whose inner dimensions agree. *)
Definition mm (m n : ndarray) : ndarray :=
  NdArray (nrows m) (ncols n) (λ i j, rsum (ncols m) (λ k, ent m i k * ent n k j)).

Definition matmul (a b : val) : res val :=
  match a, b with
  | VArr m, VArr n =>
      if (ncols m =? nrows n)%nat then inr (VArr (mm m n)) else inl ValueError
  | _, _ => inl TypeError
  end.

(** [a.T] *)
Definition attr_T (a : val) : res val :=
  match a with
  | VArr m => inr (VArr (transpose m))
  | VVec v => inr (VVec v)
  | _ => inl TypeError
  end.

(** [a.shape[k]] *)
Definition shape_at (k : nat) (a : val) : res val :=
  match a with
  | VArr m =>
      match k with
      | O => inr (VInt (Z.of_nat (nrows m)))
      | S O => inr (VInt (Z.of_nat (ncols m)))
      | _ => inl IndexError
      end
  | VVec v =>
      match k with
      | O => inr (VInt (Z.of_nat (vlen v)))
      | _ => inl IndexError
      end
  | _ => inl TypeError
  end.

(** [len(a)] *)
Definition py_len (a : val) : res nat :=
  match a with
  | VArrs l => inr (length l)
  | VArr m => inr (nrows m)
  | VVec v => inr (vlen v)
  | VIntVec l => inr (length l)
  | _ => inl TypeError
  end.

(** A Python index into a sequence of length [n]: negative indices count
    from the end. *)
Definition py_index (n : nat) (i : Z) : option nat :=
  if ((0 <=? i) && (i <? Z.of_nat n))%Z then Some (Z.to_nat i)
  else if ((- Z.of_nat n <=? i) && (i <? 0))%Z then Some (Z.to_nat (i + Z.of_nat n))
  else None.

(** [a[i]] on a list of arrays. *)
Definition subscript (a i : val) : res val :=
  match a, i with
  | VArrs l, VInt k =>
      match py_index (length l) k with
      | Some n =>
          match l !! n with
          | Some m => inr (VArr m)
          | None => inl IndexError
          end
      | None => inl IndexError
      end
  | _, _ => inl TypeError
  end.

(** [np.exp(a)] *)
Definition np_exp (a : val) : res val :=
  match a with
  | VInt x => inr (VFloat (exp (IZR x)))
  | VFloat x => inr (VFloat (exp x))
  | VArr m => inr (VArr (map_array exp m))
  | _ => inl TypeError
  end.

(** [np.square(a)] *)
Definition np_square (a : val) : res val :=
  match a with
  | VInt x => inr (VInt (x * x))
  | VFloat x => inr (VFloat (x * x))
  | VArr m => inr (VArr (map_array (λ t, t * t) m))
  | _ => inl TypeError
  end.

(** [np.linalg.norm(a)]: the absolute value of a number, the Frobenius norm
    of a 2-D array. *)
Definition np_linalg_norm (a : val) : res val :=
  match a with
  | VInt x => inr (VFloat (Rabs (IZR x)))
  | VFloat x => inr (VFloat (Rabs x))
  | VArr m => inr (VFloat (sqrt (sum_entries (λ t, t * t) m)))
  | _ => inl TypeError
  end.

(** [np.ones_like(a)] *)
Definition np_ones_like (a : val) : res val :=
  match a with
  | VInt _ => inr (VInt 1)
  | VFloat _ => inr (VFloat 1)
  | VArr m => inr (VArr (full (nrows m) (ncols m) 1))
  | _ => inl TypeError
  end.

(** [np.split(ary, sections, axis=1)] with a number for [sections], after
    [numpy]'s [split] and [array_split]: the column count must leave no
    remainder modulo [sections]; the number of parts is [int(sections)],
    and the parts are cut at the running sums of their sizes. *)
Fixpoint cut_cols (st : nat) (sizes : list nat) (a : ndarray) : list ndarray :=
  match sizes with
  | [] => []
  | sz :: rest => slice_cols st (st + sz) a :: cut_cols (st + sz) rest a
  end.

Definition section_sizes (total parts : nat) : list nat :=
  (repeat (S (total / parts)) (total mod parts)
     ++ repeat (total / parts) (parts - total mod parts))%nat.

Definition array_split (a : ndarray) (sections : val) : res val :=
  match py_int sections with
  | inl e => inl e
  | inr k =>
      if (k <=? 0)%Z then inl ValueError
      else inr (VArrs (cut_cols 0 (section_sizes (ncols a) (Z.to_nat k)) a))
  end.

Definition np_split (ary sections : val) : res val :=
  match ary with
  | VArr a =>
      match py_mod (VInt (Z.of_nat (ncols a))) sections with
      | inl e => inl e
      | inr r =>
          match py_truth r with
          | inl e => inl e
          | inr true => inl ValueError
          | inr false => array_split a sections
          end
      end
  | _ => inl TypeError
  end.

(** [np.concatenate(l, axis=1)] of two arrays and of a list, used to state
    what [np_split] returns. *)
Definition hstack2 (a b : ndarray) : ndarray :=
  NdArray (nrows a) (ncols a + ncols b)
    (λ i j, if (j <? ncols a)%nat then ent a i j else ent b i (j - ncols a)%nat).

Fixpoint hstack (r : nat) (l : list ndarray) : ndarray :=
  match l with
  | [] => NdArray r 0 (λ _ _, 0)
  | a :: rest => hstack2 a (hstack r rest)
  end.

(** [np.eye(n)] and [a[l]] for an integer array [l] of row indices. *)
Definition np_eye (n : nat) : ndarray :=
  NdArray n n (λ i j, if (i =? j)%nat then 1 else 0).

Fixpoint py_indices (n : nat) (l : list Z) : option (list nat) :=
  match l with
  | [] => Some []
  | i :: rest =>
      match py_index n i, py_indices n rest with
      | Some k, Some ks => Some (k :: ks)
      | _, _ => None
      end
  end.

Definition index_rows (a : ndarray) (l : val) : res val :=
  match l with
  | VIntVec idx =>
      match py_indices (nrows a) idx with
      | Some ks => inr (VArr (take_rows ks a))
      | None => inl IndexError
      end
  | _ => inl TypeError
  end.

(** [sklearn]'s [train_test_split(x, y, test_size=0.25, shuffle=True)] on
    two arrays of samples in rows.  [perm] is the permutation of the row
    indices that its random generator draws; the first [ceil(0.25 * n)]
    of them are the test rows, the others the training rows.  Returns
    [(x_train, x_test, y_train, y_test)]. *)
Definition train_test_split (perm : list nat) (x y : val)
    : res (val * val * val * val) :=
  match x, y with
  | VArr a, VArr b =>
      let n := nrows a in
      let n_test := ((n + 3) / 4)%nat in
      let n_train := (n - n_test)%nat in
      if negb (nrows b =? n)%nat then inl ValueError
      else if (n_train =? 0)%nat then inl ValueError
      else
        let ind_test := take n_test perm in
        let ind_train := take n_train (drop n_test perm) in
        inr (VArr (take_rows ind_train a), VArr (take_rows ind_test a),
             VArr (take_rows ind_train b), VArr (take_rows ind_test b))
  | _, _ => inl TypeError
  end.

(** [t.view(-1, c).numpy()] for a float tensor [t]. *)
Definition numel (t : tensor) : nat := foldr Nat.mul 1%nat (tshape t).

Definition view_numpy (c : nat) (t : val) : res val :=
  match t with
  | VTensor t =>
      if ((c =? 0) || negb (numel t mod c =? 0))%nat then inl RuntimeError
      else inr (VArr (NdArray (numel t / c) c (λ i j, tbuf t (i * c + j)%nat)))
  | _ => inl TypeError
  end.

(** [t.numpy()] for an integer tensor, and [np.reshape(l, newshape=-1)] for
    a 1-D integer array. *)
Definition int_numpy (t : val) : res val :=
  match t with
  | VIntTensor l => inr (VIntVec l)
  | _ => inl TypeError
  end.

Definition reshape_flat (a : val) : res val :=
  match a with
  | VIntVec l => inr (VIntVec l)
  | VVec v => inr (VVec v)
  | _ => inl TypeError
  end.

(** ** The kernel state and the monad of cells *)

(** A printed line: the text before the value and the value formatted. *)
Record line : Type := Line { line_text : string; line_value : val }.

(** The state of the kernel: the global names and what was printed. *)
Record state : Type := State {
  globals : gmap string val;
  stdout : list line
}.

(** Running a piece of a cell from a state either returns a result and the
    new state, or raises an exception in the state reached by then. *)
Inductive outcome (A : Type) : Type :=
  | Ok (a : A) (s : state)
  | Raise (e : exn) (s : state).
Arguments Ok {A} a s.
Arguments Raise {A} e s.

Definition M (A : Type) : Type := state → outcome A.

Definition run {A : Type} (m : M A) (s : state) : outcome A := m s.

Definition final {A : Type} (o : outcome A) : state :=
  match o with
  | Ok _ s => s
  | Raise _ s => s
  end.

#[global] Instance M_ret : MRet M := λ A a s, Ok a s.

#[global] Instance M_bind : MBind M := λ A B f m s,
  match m s with
  | Ok a s' => f a s'
  | Raise e s' => Raise e s'
  end.

Definition raise {A : Type} (e : exn) : M A := λ s, Raise e s.

Definition lift {A : Type} (r : res A) : M A :=
  match r with
  | inl e => raise e
  | inr a => mret a
  end.

(** Reading a name, binding a name, printing. *)
Definition Var (x : string) : M val := λ s,
  match globals s !! x with
  | Some v => Ok v s
  | None => Raise NameError s
  end.

Definition rebind (x : string) (v : val) (s : state) : state :=
  State (<[x := v]> (globals s)) (stdout s).

Definition store (x : string) (v : val) : M unit := λ s, Ok tt (rebind x v s).

Definition emit (l : line) : M unit := λ s,
  Ok tt (State (globals s) (stdout s ++ [l])).

(** Expressions evaluate their operands from left to right. *)
Definition op1 {A : Type} (f : val → res A) (e : M val) : M A :=
  v ← e; lift (f v).

Definition op2 {A : Type} (f : val → val → res A) (e1 e2 : M val) : M A :=
  a ← e1; b ← e2; lift (f a b).

Definition Const (v : val) : M val := mret v.
Definition Assign (x : string) (e : M val) : M unit := v ← e; store x v.
Definition Print (text : string) (e : M val) : M unit :=
  v ← e; emit (Line text v).

(** [for x in l: body] and [for x in range(n): body]. *)
Fixpoint for_each {A : Type} (l : list A) (body : A → M unit) : M unit :=
  match l with
  | [] => mret tt
  | a :: rest => body a;; for_each rest body
  end.

Definition for_range (x : string) (n : nat) (body : M unit) : M unit :=
  for_each (seq 0 n) (λ k, store x (VInt (Z.of_nat k));; body).

(** [if e: body] *)
Definition If (e : M bool) (body : M unit) : M unit :=
  c ← e; if c : bool then body else mret tt.

(** [a == b] between integers. *)
Definition py_eq (a b : val) : res bool :=
  match a, b with
  | VInt x, VInt y => inr (x =? y)%Z
  | _, _ => inl TypeError
  end.

(** The operators as they are written in expressions. *)
Abbreviation Add := (op2 py_add).
Abbreviation Sub := (op2 py_sub).
Abbreviation Mul := (op2 py_mul).
Abbreviation Div := (op2 py_truediv).
Abbreviation Mod := (op2 py_mod).
Abbreviation Eq := (op2 py_eq).
Abbreviation Matmul := (op2 matmul).
Abbreviation Neg := (op1 py_neg).
Abbreviation Tr := (op1 attr_T).
Abbreviation Shape k := (op1 (shape_at k)).
Abbreviation Subscript := (op2 subscript).
Abbreviation Float r := (Const (VFloat r)).
Abbreviation Int n := (Const (VInt n)).

(** [range(n)] for a number [n]: how many values it runs through. *)
Definition py_range (n : val) : res nat :=
  match n with
  | VInt k => inr (Z.to_nat k)
  | _ => inl TypeError
  end.

(** ** The linear experiment *)

(** The random numbers one run of the linear experiment draws: the entries
    of [T], [x_data], [W0], [b0], [W], [b] and [B], and the permutation of
    the samples that [train_test_split] shuffles with. *)
Record draws : Type := Draws {
  draw_T : nat → nat → R;
  draw_x : nat → nat → R;
  draw_W0 : nat → nat → R;
  draw_b0 : nat → R;
  draw_W : nat → nat → R;
  draw_b : nat → R;
  draw_B : nat → nat → R;
  draw_perm : list nat
}.

(** [np.random.randn(r, n)] with drawn entries [f]. *)
Definition np_random_randn (f : nat → nat → R) (r : nat) (n : val) : res val :=
  match n with
  | VInt k => if (k <? 0)%Z then inl ValueError
              else inr (VArr (NdArray r (Z.to_nat k) f))
  | _ => inl TypeError
  end.

(** [np.random.uniform(lo, hi, (r, c))] and [np.random.uniform(lo, hi, n)]
    with drawn entries [f]: the bounds are evaluated, the array has the
    shape asked for. *)
Definition uniform2 (lo hi : M val) (r c : nat) (f : nat → nat → R) : M val :=
  _ ← lo; _ ← hi; Const (VArr (NdArray r c f)).

Definition uniform1 (lo hi : M val) (n : nat) (f : nat → R) : M val :=
  _ ← lo; _ ← hi; Const (VVec (Vec n f)).

(** Cell "linear function, inputs, and output generation". *)
Definition data_generation (d : draws) : M unit :=
  Assign "num_inputs" (Int 100);;
  Assign "T" (uniform2 (Float (-1)) (Float 1) 10 30 (draw_T d));;
  Assign "x_data" (op1 (np_random_randn (draw_x d) 30) (Var "num_inputs"));;
  Assign "y_data" (Matmul (Var "T") (Var "x_data")).

(** Cell "Weights and biases random initalization". *)
Definition weights_init (d : draws) : M unit :=
  Assign "a" (Float (1 / 100));;
  Assign "W0" (uniform2 (Neg (Var "a")) (Var "a") 20 30 (draw_W0 d));;
  Assign "b0" (uniform1 (Neg (Var "a")) (Var "a") 20 (draw_b0 d));;
  Assign "W" (uniform2 (Neg (Var "a")) (Var "a") 10 20 (draw_W d));;
  Assign "b" (uniform1 (Neg (Var "a")) (Var "a") 10 (draw_b d));;
  Assign "a" (Float (1 / 2));;
  Assign "B" (uniform2 (Neg (Var "a")) (Var "a") 20 10 (draw_B d)).

(** Cell "Training and Test dataset preparation". *)
Definition dataset_preparation (d : draws) : M unit :=
  r ← op2 (train_test_split (draw_perm d)) (Tr (Var "x_data")) (Tr (Var "y_data"));
  store "x_train" r.1.1.1;; store "x_test" r.1.1.2;;
  store "y_train" r.1.2;; store "y_test" r.2;;
  x_train ← Tr (Var "x_train"); x_test ← Tr (Var "x_test");
  y_train ← Tr (Var "y_train"); y_test ← Tr (Var "y_test");
  store "x_train" x_train;; store "x_test" x_test;;
  store "y_train" y_train;; store "y_test" y_test.

(** Cell "Hyperparameters". *)
Definition hyperparameters : M unit :=
  Assign "eta" (Float (1 / 10));;
  Assign "num_epochs" (Int 1000);;
  Assign "batch_size" (Int 20);;
  Assign "num_batches" (Div (Shape 1 (Var "x_train")) (Var "batch_size")).

(** Cell "Creating batches". *)
Definition creating_batches : M unit :=
  xb ← op2 np_split (Var "x_train") (Var "num_batches");
  yb ← op2 np_split (Var "y_train") (Var "num_batches");
  store "x_train_batches" xb;; store "y_train_batches" yb.

(** The body of the mini-batch loop of the linear training cell. *)
Definition linear_batch : M unit :=
  td ← Subscript (Var "x_train_batches") (Var "i");
  tl ← Subscript (Var "y_train_batches") (Var "i");
  store "training_data" td;; store "training_labels" tl;;
  Assign "h" (Matmul (Var "W0") (Var "training_data"));;
  Assign "y" (Matmul (Var "W") (Var "h"));;
  Assign "e" (Sub (Var "training_labels") (Var "y"));;
  Assign "loss"
    (Add (Var "loss")
         (Mul (Float (1 / 2)) (op1 np_square (op1 np_linalg_norm (Var "e")))));;
  Assign "delta_BP" (Matmul (Tr (Var "W")) (Var "e"));;
  Assign "delta_FA" (Matmul (Var "B") (Var "e"));;
  Assign "delta_W" (Add (Var "delta_W") (Matmul (Var "e") (Tr (Var "h"))));;
  Assign "delta_W0"
    (Add (Var "delta_W0")
         (Matmul (Matmul (Var "B") (Var "e")) (Tr (Var "training_data")))).

(** The mini-batch loop of one epoch: [for i in range(len(x_train_batches))]. *)
Definition linear_batches : M unit :=
  n ← op1 py_len (Var "x_train_batches");
  for_range "i" n linear_batch.

(** The two weight updates that end an epoch. *)
Definition linear_update : M unit :=
  Assign "W"
    (Add (Var "W")
         (Mul (Div (Var "eta") (Shape 1 (Var "x_train"))) (Var "delta_W")));;
  Assign "W0"
    (Add (Var "W0")
         (Mul (Div (Var "eta") (Shape 1 (Var "x_train"))) (Var "delta_W0"))).

(** The report printed every hundredth epoch. *)
Definition linear_report : M unit :=
  If (Eq (Mod (Var "epoch") (Int 100)) (Int 0))
     (Print "      Epoch " (Var "epoch");;
      Print "      Current loss: " (Var "loss")).

(** The body of the epoch loop of the linear training cell. *)
Definition linear_epoch : M unit :=
  store "delta_W0" (VInt 0);; store "delta_W" (VInt 0);; store "loss" (VInt 0);;
  linear_batches;;
  linear_update;;
  linear_report.

(** The first [n] epochs of the training loop. *)
Definition linear_epochs (n : nat) : M unit := for_range "epoch" n linear_epoch.

(** The linear training cell: [for epoch in range(num_epochs): ...]. *)
Definition linear_training : M unit :=
  n ← op1 py_range (Var "num_epochs");
  linear_epochs n.

(** The cell that evaluates the trained network on the test set. *)
Definition linear_test : M unit :=
  Assign "h" (Matmul (Var "W0") (Var "x_test"));;
  Assign "y" (Matmul (Var "W") (Var "h"));;
  Assign "e" (Sub (Var "y_test") (Var "y"));;
  Assign "test_error"
    (Mul (Float (1 / 2)) (op1 np_square (op1 np_linalg_norm (Var "e")))).

(** The cells of the linear experiment up to the training loop, in the
    order of the notebook, and the whole experiment. *)
Definition linear_setup (d : draws) : M unit :=
  data_generation d;; weights_init d;; dataset_preparation d;;
  hyperparameters;; creating_batches.

Definition linear_experiment (d : draws) : M unit :=
  linear_setup d;; linear_training;; linear_test.

(** The state of a fresh kernel. *)
Definition fresh : state := State ∅ [].

(** ** The non-linear experiment *)

Definition res_bind {A B : Type} (r : res A) (f : A → res B) : res B :=
  match r with
  | inl e => inl e
  | inr a => f a
  end.

(** [def sigma(x): return 1 / (1 + np.exp(-x))] *)
Definition sigma (x : val) : res val :=
  res_bind (py_neg x) (λ n,
  res_bind (np_exp n) (λ ex,
  res_bind (py_add (VInt 1) ex) (λ d,
  py_truediv (VInt 1) d))).

(** The datasets [torchvision] reads from disk. *)
Record datasets : Type := Datasets {
  mnist_train : list sample;
  mnist_test : list sample;
  fashion_train : list sample;
  fashion_test : list sample
}.

(** [DataLoader(ds, batch_size=bs, shuffle=sh)]: the batch size must be a
    positive integer. *)
Definition DataLoader (ds : list sample) (bs : val) (sh : bool) : res val :=
  match bs with
  | VInt k => if (k <=? 0)%Z then inl ValueError
              else inr (VLoader (Loader ds k sh))
  | _ => inl ValueError
  end.

(** [get_loaders(batch_size, fashion)]: the training loader shuffles, the
    test loader does not. *)
Definition get_loaders (w : datasets) (batch_size : val) (fashion : bool)
    : res (val * val) :=
  let train := if fashion then fashion_train w else mnist_train w in
  let test := if fashion then fashion_test w else mnist_test w in
  res_bind (DataLoader train batch_size true) (λ trainloader,
  res_bind (DataLoader test batch_size false) (λ testloader,
  inr (trainloader, testloader))).

(** One pass over a loader.  [perm] is the order a shuffling loader draws
    for this pass; the samples are taken [batch_size] at a time in that
    order, the last batch may be shorter.  A batch is the tensor of its
    images, of shape [(n, 1, 28, 28)], and the tensor of its labels. *)
Definition collate (ds : list sample) (ks : list nat) : val * val :=
  (VTensor (Tensor [length ks; 1; 28; 28]%nat
     (λ p, match ds !! nth (p / 784)%nat ks O with
           | Some smp => pixels smp (p mod 784)%nat
           | None => 0
           end)),
   VIntTensor (omap (λ k, label <$> ds !! k) ks)).

Definition chunks (bs : nat) (ks : list nat) : list (list nat) :=
  map (λ c, take bs (drop (c * bs) ks))
      (seq 0 ((length ks + bs - 1) / bs)%nat).

Definition iterate (perm : list nat) (ld : val) : res (list (val * val)) :=
  match ld with
  | VLoader d =>
      let order := if loader_shuffle d then perm
                   else seq 0 (length (dataset d)) in
      inr (map (collate (dataset d))
               (chunks (Z.to_nat (loader_batch_size d)) order))
  | _ => inl TypeError
  end.

(** Cell "Hyperparameters" of the non-linear experiment. *)
Definition hyperparameters2 : M unit :=
  Assign "eta" (Float (1 / 10));;
  Assign "num_epochs" (Int 1000);;
  Assign "batch_size" (Int 20);;
  Assign "num_batches" (Div (Int 60000) (Var "batch_size")).

(** Cell "Weights and biases random initalization" of the non-linear
    experiment. *)
Definition weights_init2 (d : draws) : M unit :=
  Assign "a" (Float (1 / 10));;
  Assign "W0" (uniform2 (Neg (Var "a")) (Var "a") 1000 784 (draw_W0 d));;
  Assign "b0" (uniform1 (Neg (Var "a")) (Var "a") 1000 (draw_b0 d));;
  Assign "W" (uniform2 (Neg (Var "a")) (Var "a") 10 1000 (draw_W d));;
  Assign "b" (uniform1 (Neg (Var "a")) (Var "a") 10 (draw_b d));;
  Assign "a" (Float (1 / 2));;
  Assign "B" (uniform2 (Neg (Var "a")) (Var "a") 1000 10 (draw_B d)).

(** Cell [trainloader, testloader = get_loaders(batch_size)]. *)
Definition make_loaders (w : datasets) : M unit :=
  bs ← Var "batch_size";
  r ← lift (get_loaders w bs false);
  store "trainloader" r.1;; store "testloader" r.2.

(** The body of the mini-batch loop of the non-linear training cell, for
    the batch the loader yields. *)
Definition nonlinear_batch (batch : val * val) : M unit :=
  store "training_data" batch.1;; store "training_labels" batch.2;;
  td ← op1 (view_numpy 784) (Var "training_data");
  tl ← op1 int_numpy (Var "training_labels");
  store "training_data" td;; store "training_labels" tl;;
  Assign "training_labels" (op1 reshape_flat (Var "training_labels"));;
  Assign "training_labels"
    (Tr (op1 (index_rows (np_eye 10)) (Var "training_labels")));;
  Assign "h" (op1 sigma (Matmul (Var "W0") (Tr (Var "training_data"))));;
  Assign "y" (op1 sigma (Matmul (Var "W") (Var "h")));;
  Assign "e" (Sub (Var "training_labels") (Var "y"));;
  Assign "loss"
    (Add (Var "loss")
         (Mul (Float (1 / 2)) (op1 np_square (op1 np_linalg_norm (Var "e")))));;
  Assign "delta_BP" (Matmul (Tr (Var "W")) (Var "e"));;
  Assign "delta_FA" (Matmul (Var "B") (Var "e"));;
  one_y ← op1 np_ones_like (Var "y");
  one_h ← op1 np_ones_like (Var "h");
  store "one_y" one_y;; store "one_h" one_h;;
  Assign "delta_W"
    (Add (Var "delta_W")
         (Matmul (Mul (Var "e") (Mul (Var "y") (Sub (Var "one_y") (Var "y"))))
                 (Tr (Var "h"))));;
  Assign "delta_W0"
    (Add (Var "delta_W0")
         (Matmul (Mul (Var "delta_FA")
                      (Mul (Var "h") (Sub (Var "one_h") (Var "h"))))
                 (Var "training_data")));;
  Assign "size" (Add (Var "size") (Shape 0 (Var "training_data"))).

(** The mini-batch loop of one epoch, over the batches of one pass. *)
Definition nonlinear_batches (perm : list nat) : M unit :=
  ld ← Var "trainloader";
  _ ← Var "epoch";
  batches ← lift (iterate perm ld);
  for_each batches nonlinear_batch.

Definition nonlinear_update : M unit :=
  Assign "W"
    (Add (Var "W") (Mul (Div (Var "eta") (Var "size")) (Var "delta_W")));;
  Assign "W0"
    (Add (Var "W0") (Mul (Div (Var "eta") (Var "size")) (Var "delta_W0"))).

Definition nonlinear_report : M unit :=
  If (Eq (Mod (Var "epoch") (Int 10)) (Int 0))
     (Print "      Epoch " (Var "epoch");;
      Print "      Current loss: " (Var "loss")).

(** The body of the epoch loop of the non-linear training cell. *)
Definition nonlinear_epoch (perm : list nat) : M unit :=
  store "delta_W0" (VInt 0);; store "delta_W" (VInt 0);;
  store "loss" (VInt 0);; store "size" (VInt 0);;
  nonlinear_batches perm;;
  nonlinear_update;;
  nonlinear_report.

(** The first [n] epochs; [shuffles k] is the order the training loader
    draws in epoch [k]. *)
Definition nonlinear_epochs (shuffles : nat → list nat) (n : nat) : M unit :=
  for_each (seq 0 n)
    (λ k, store "epoch" (VInt (Z.of_nat k));; nonlinear_epoch (shuffles k)).

(** The non-linear training cell. *)
Definition nonlinear_training (shuffles : nat → list nat) : M unit :=
  n ← op1 py_range (Var "num_epochs");
  nonlinear_epochs shuffles n.

(** The cells of the non-linear experiment in the order of the notebook
    (the two cells that plot the singular values of [W0] bind names no
    other cell reads and are left out). *)
Definition nonlinear_setup (w : datasets) (d : draws) : M unit :=
  hyperparameters2;; weights_init2 d;; make_loaders w.

Definition nonlinear_experiment (w : datasets) (d : draws)
    (shuffles : nat → list nat) : M unit :=
  nonlinear_setup w d;; nonlinear_training shuffles.

(** * Properties *)

(** ** Running the monad *)

Lemma run_ret {A} (a : A) s : run (mret a) s = Ok a s.
Proof. reflexivity. Qed.

Lemma run_bind {A B} (m : M A) (f : A → M B) s :
  run (m ≫= f) s =
  match run m s with
  | Ok a s' => run (f a) s'
  | Raise e s' => Raise e s'
  end.
Proof. reflexivity. Qed.

Lemma run_bind_ok {A B} (m : M A) (f : A → M B) s a s' :
  run m s = Ok a s' → run (m ≫= f) s = run (f a) s'.
Proof. intros H. rewrite run_bind, H. reflexivity. Qed.

Lemma run_bind_raise {A B} (m : M A) (f : A → M B) s e s' :
  run m s = Raise e s' → run (m ≫= f) s = Raise e s'.
Proof. intros H. rewrite run_bind, H. reflexivity. Qed.

Lemma run_bind_assoc {A B C} (m : M A) (f : A → M B) (g : B → M C) s :
  run ((m ≫= f) ≫= g) s = run (m ≫= λ a, f a ≫= g) s.
Proof. rewrite !run_bind. destruct (run m s); reflexivity. Qed.

Lemma run_bind_ext {A B} (m : M A) (f g : A → M B) s :
  (∀ a s', run (f a) s' = run (g a) s') → run (m ≫= f) s = run (m ≫= g) s.
Proof. intros H. rewrite !run_bind. destruct (run m s); [apply H | reflexivity]. Qed.

Lemma run_lift_inr {A} (a : A) s : run (lift (inr a)) s = Ok a s.
Proof. reflexivity. Qed.

Lemma run_lift_inl {A} e s : run (lift (inl e : res A)) s = Raise e s.
Proof. reflexivity. Qed.

Lemma run_Var x v s : globals s !! x = Some v → run (Var x) s = Ok v s.
Proof. unfold run, Var. intros ->. reflexivity. Qed.

Lemma run_store x v s : run (store x v) s = Ok tt (rebind x v s).
Proof. reflexivity. Qed.

Lemma for_each_app {A} (l1 l2 : list A) body :
  ∀ s, run (for_each (l1 ++ l2) body) s =
       run (for_each l1 body;; for_each l2 body) s.
Proof.
  induction l1 as [|a l1 IH]; intros s; simpl.
  - reflexivity.
  - rewrite !run_bind. destruct (run (body a) s) as [[] s'|e s']; [|reflexivity].
    rewrite IH. rewrite run_bind. reflexivity.
Qed.

(** ** Names a program leaves alone *)

(** [preserves x m]: whatever [m] does, and whether it returns or raises,
    the name [x] is bound afterwards to what it was bound to before. *)
Definition preserves {A : Type} (x : string) (m : M A) : Prop :=
  ∀ s, globals (final (run m s)) !! x = globals s !! x.

Section Preserves.
Context (x : string).

Lemma preserves_ret {A} (a : A) : preserves x (mret a).
Proof. intros s. reflexivity. Qed.

Lemma preserves_raise {A} e : preserves x (raise e : M A).
Proof. intros s. reflexivity. Qed.

Lemma preserves_lift {A} (r : res A) : preserves x (lift r).
Proof. destruct r; [apply preserves_raise | apply preserves_ret]. Qed.

Lemma preserves_bind {A B} (m : M A) (f : A → M B) :
  preserves x m → (∀ a, preserves x (f a)) → preserves x (m ≫= f).
Proof.
  intros Hm Hf s. rewrite run_bind. specialize (Hm s).
  destruct (run m s) as [a s'|e s']; simpl in *.
  - rewrite Hf. exact Hm.
  - exact Hm.
Qed.

Lemma preserves_Var y : preserves x (Var y).
Proof. intros s. unfold run, Var. destruct (globals s !! y); reflexivity. Qed.

Lemma preserves_store y v : x ≠ y → preserves x (store y v).
Proof. intros Hne s. simpl. apply lookup_insert_ne. congruence. Qed.

Lemma preserves_emit l : preserves x (emit l).
Proof. intros s. reflexivity. Qed.

Lemma preserves_op1 {A} (f : val → res A) e :
  preserves x e → preserves x (op1 f e).
Proof. intros He. apply preserves_bind; [exact He|]. intros. apply preserves_lift. Qed.

Lemma preserves_op2 {A} (f : val → val → res A) e1 e2 :
  preserves x e1 → preserves x e2 → preserves x (op2 f e1 e2).
Proof.
  intros H1 H2. apply preserves_bind; [exact H1|]. intros.
  apply preserves_bind; [exact H2|]. intros. apply preserves_lift.
Qed.

Lemma preserves_Assign y e : x ≠ y → preserves x e → preserves x (Assign y e).
Proof.
  intros Hne He. apply preserves_bind; [exact He|]. intros.
  apply preserves_store, Hne.
Qed.

Lemma preserves_Print t e : preserves x e → preserves x (Print t e).
Proof. intros He. apply preserves_bind; [exact He|]. intros. apply preserves_emit. Qed.

Lemma preserves_If e body :
  preserves x e → preserves x body → preserves x (If e body).
Proof.
  intros He Hb. apply preserves_bind; [exact He|]. intros [|];
    [exact Hb | apply preserves_ret].
Qed.

Lemma preserves_for_each {A} (l : list A) body :
  (∀ a, preserves x (body a)) → preserves x (for_each l body).
Proof.
  intros Hb. induction l as [|a l IH]; simpl.
  - apply preserves_ret.
  - apply preserves_bind; [apply Hb | intros; exact IH].
Qed.

Lemma preserves_for_range y n body :
  x ≠ y → preserves x body → preserves x (for_range y n body).
Proof.
  intros Hne Hb. apply preserves_for_each. intros k.
  apply preserves_bind; [apply preserves_store, Hne | intros; exact Hb].
Qed.
End Preserves.

(** Deciding [preserves x m] for a program [m] written with the combinators
    above and a name [x] that it never assigns. *)
Ltac preserves_step :=
  lazymatch goal with
  | |- preserves _ (mret _) => apply preserves_ret
  | |- preserves _ (Const _) => apply preserves_ret
  | |- preserves _ (raise _) => apply preserves_raise
  | |- preserves _ (lift _) => apply preserves_lift
  | |- preserves _ (Var _) => apply preserves_Var
  | |- preserves _ (emit _) => apply preserves_emit
  | |- preserves _ (store _ _) => apply preserves_store; discriminate
  | |- preserves _ (Assign _ _) => apply preserves_Assign; [discriminate|]
  | |- preserves _ (Print _ _) => apply preserves_Print
  | |- preserves _ (If _ _) => apply preserves_If
  | |- preserves _ (for_range _ _ _) => apply preserves_for_range; [discriminate|]
  | |- preserves _ (for_each _ _) => apply preserves_for_each; intros
  | |- preserves _ (op1 _ _) => apply preserves_op1
  | |- preserves _ (op2 _ _ _) => apply preserves_op2
  | |- preserves _ (_ ≫= _) => apply preserves_bind; [|intros]
  end.

Ltac solve_preserves := repeat preserves_step.

(** ** Programs that do not depend on the bias vectors *)

(** The two names of the bias vectors. *)
Definition bias (x : string) : Prop := x = "b0" ∨ x = "b".

(** Two kernel states that differ at most in what [b0] and [b] are bound
    to. *)
Definition agree (s1 s2 : state) : Prop :=
  stdout s1 = stdout s2 ∧ ∀ x, ¬ bias x → globals s1 !! x = globals s2 !! x.

(** Two outcomes of the same kind (both return, or both raise the same
    exception), with results related by [Q], in states that agree. *)
Definition similar {A : Type} (Q : A → A → Prop) (o1 o2 : outcome A) : Prop :=
  match o1, o2 with
  | Ok a s1, Ok b s2 => Q a b ∧ agree s1 s2
  | Raise e1 s1, Raise e2 s2 => e1 = e2 ∧ agree s1 s2
  | _, _ => False
  end.

Definition related {A : Type} (Q : A → A → Prop) (m1 m2 : M A) : Prop :=
  ∀ s1 s2, agree s1 s2 → similar Q (run m1 s1) (run m2 s2).

(** A program that runs the same way whatever the bias vectors are. *)
Definition blind {A : Type} (m : M A) : Prop := related eq m m.

Lemma agree_refl s : agree s s.
Proof. split; [reflexivity | intros; reflexivity]. Qed.

Lemma related_bind {A B} (Q : A → A → Prop) (Q' : B → B → Prop) m1 m2 f1 f2 :
  related Q m1 m2 → (∀ a b, Q a b → related Q' (f1 a) (f2 b)) →
  related Q' (m1 ≫= f1) (m2 ≫= f2).
Proof.
  intros Hm Hf s1 s2 Hs. rewrite !run_bind. specialize (Hm s1 s2 Hs).
  destruct (run m1 s1) as [a t1|e1 t1], (run m2 s2) as [b t2|e2 t2];
    simpl in Hm; try contradiction.
  - destruct Hm as [Hq Ht]. apply Hf; assumption.
  - exact Hm.
Qed.

Lemma related_store_bias x v1 v2 : bias x → related eq (store x v1) (store x v2).
Proof.
  intros Hx s1 s2 [Ho Hg]. simpl. split; [reflexivity|]. split; [exact Ho|].
  intros y Hy. simpl. rewrite !lookup_insert_ne by (intros ->; contradiction).
  apply Hg, Hy.
Qed.

Section Blind.
Lemma blind_ret {A} (a : A) : blind (mret a).
Proof. intros s1 s2 Hs. simpl. split; [reflexivity | exact Hs]. Qed.

Lemma blind_raise {A} e : blind (raise e : M A).
Proof. intros s1 s2 Hs. simpl. split; [reflexivity | exact Hs]. Qed.

Lemma blind_lift {A} (r : res A) : blind (lift r).
Proof. destruct r; [apply blind_raise | apply blind_ret]. Qed.

Lemma blind_bind {A B} (m : M A) (f : A → M B) :
  blind m → (∀ a, blind (f a)) → blind (m ≫= f).
Proof.
  intros Hm Hf. apply (related_bind eq eq); [exact Hm|].
  intros a b <-. apply Hf.
Qed.

Lemma blind_Var x : ¬ bias x → blind (Var x).
Proof.
  intros Hx s1 s2 Hs. unfold run, Var. rewrite (proj2 Hs x Hx).
  destruct (globals s2 !! x); simpl; (split; [reflexivity | exact Hs]).
Qed.

Lemma blind_store x v : blind (store x v).
Proof.
  intros s1 s2 [Ho Hg]. simpl. split; [reflexivity|]. split; [exact Ho|].
  intros y Hy. simpl.
  destruct (decide (x = y)) as [->|Hne].
  - rewrite !lookup_insert_eq. reflexivity.
  - rewrite !lookup_insert_ne by exact Hne. apply Hg, Hy.
Qed.

Lemma blind_emit l : blind (emit l).
Proof.
  intros s1 s2 [Ho Hg]. simpl. split; [reflexivity|]. split; [|exact Hg].
  simpl. rewrite Ho. reflexivity.
Qed.

Lemma blind_op1 {A} (f : val → res A) e : blind e → blind (op1 f e).
Proof. intros He. apply blind_bind; [exact He|]. intros. apply blind_lift. Qed.

Lemma blind_op2 {A} (f : val → val → res A) e1 e2 :
  blind e1 → blind e2 → blind (op2 f e1 e2).
Proof.
  intros H1 H2. apply blind_bind; [exact H1|]. intros.
  apply blind_bind; [exact H2|]. intros. apply blind_lift.
Qed.

Lemma blind_Assign x e : blind e → blind (Assign x e).
Proof. intros He. apply blind_bind; [exact He|]. intros. apply blind_store. Qed.

Lemma blind_Print t e : blind e → blind (Print t e).
Proof. intros He. apply blind_bind; [exact He|]. intros. apply blind_emit. Qed.

Lemma blind_If e body : blind e → blind body → blind (If e body).
Proof.
  intros He Hb. apply blind_bind; [exact He|]. intros [|];
    [exact Hb | apply blind_ret].
Qed.

Lemma blind_for_each {A} (l : list A) body :
  (∀ a, blind (body a)) → blind (for_each l body).
Proof.
  intros Hb. induction l as [|a l IH]; simpl.
  - apply blind_ret.
  - apply blind_bind; [apply Hb | intros; exact IH].
Qed.

Lemma blind_for_range x n body : blind body → blind (for_range x n body).
Proof.
  intros Hb. apply blind_for_each. intros k.
  apply blind_bind; [apply blind_store | intros; exact Hb].
Qed.
End Blind.

Ltac not_bias := let H := fresh in intros [H|H]; discriminate H.

Ltac blind_step :=
  lazymatch goal with
  | |- blind (mret _) => apply blind_ret
  | |- blind (Const _) => apply blind_ret
  | |- blind (raise _) => apply blind_raise
  | |- blind (lift _) => apply blind_lift
  | |- blind (Var _) => apply blind_Var; not_bias
  | |- blind (emit _) => apply blind_emit
  | |- blind (store _ _) => apply blind_store
  | |- blind (Assign _ _) => apply blind_Assign
  | |- blind (Print _ _) => apply blind_Print
  | |- blind (If _ _) => apply blind_If
  | |- blind (for_range _ _ _) => apply blind_for_range
  | |- blind (for_each _ _) => apply blind_for_each; intros
  | |- blind (op1 _ _) => apply blind_op1
  | |- blind (op2 _ _ _) => apply blind_op2
  | |- blind (_ ≫= _) => apply blind_bind; [|intros]
  end.

Ltac solve_blind := repeat blind_step.

(** ** Evaluating expressions and executing statements *)

(** [evals e s v]: in state [s] the expression [e] returns [v] and leaves
    the state as it is.  [exec m s s']: from [s] the statement [m] returns
    and leaves the state [s']. *)
Definition evals (e : M val) (s : state) (v : val) : Prop := run e s = Ok v s.
Definition exec (m : M unit) (s s' : state) : Prop := run m s = Ok tt s'.

Lemma evals_Const v s : evals (Const v) s v.
Proof. reflexivity. Qed.

Lemma evals_Var x v s : globals s !! x = Some v → evals (Var x) s v.
Proof. apply run_Var. Qed.

Lemma run_op1 {A} (f : val → res A) e s v :
  evals e s v → run (op1 f e) s = run (lift (f v)) s.
Proof. intros He. unfold op1. rewrite run_bind, He. reflexivity. Qed.

Lemma run_op2 {A} (f : val → val → res A) e1 e2 s a b :
  evals e1 s a → evals e2 s b → run (op2 f e1 e2) s = run (lift (f a b)) s.
Proof.
  intros H1 H2. unfold op2. rewrite run_bind, H1. rewrite run_bind, H2.
  reflexivity.
Qed.

Lemma evals_op1 (f : val → res val) e s v r :
  evals e s v → f v = inr r → evals (op1 f e) s r.
Proof. intros He Hf. unfold evals. rewrite (run_op1 f e s v He), Hf. reflexivity. Qed.

Lemma evals_op2 (f : val → val → res val) e1 e2 s a b r :
  evals e1 s a → evals e2 s b → f a b = inr r → evals (op2 f e1 e2) s r.
Proof.
  intros H1 H2 Hf. unfold evals. rewrite (run_op2 f e1 e2 s a b H1 H2), Hf.
  reflexivity.
Qed.

Lemma exec_store x v s : exec (store x v) s (rebind x v s).
Proof. reflexivity. Qed.

Lemma exec_Assign x e s v : evals e s v → exec (Assign x e) s (rebind x v s).
Proof. intros He. unfold exec, Assign. rewrite run_bind, He. reflexivity. Qed.

Lemma exec_seq (m1 m2 : M unit) s s1 s2 :
  exec m1 s s1 → exec m2 s1 s2 → exec (m1;; m2) s s2.
Proof. intros H1 H2. unfold exec. rewrite run_bind, H1. exact H2. Qed.

Lemma exec_bind_evals {A} (e : M val) (f : val → M A) s v :
  evals e s v → run (e ≫= f) s = run (f v) s.
Proof. intros He. rewrite run_bind, He. reflexivity. Qed.

Lemma exec_preserves x (m : M unit) s s' :
  preserves x m → exec m s s' → globals s' !! x = globals s !! x.
Proof. intros Hp He. specialize (Hp s). rewrite He in Hp. exact Hp. Qed.

Lemma lookup_rebind_eq x v s : globals (rebind x v s) !! x = Some v.
Proof. apply lookup_insert_eq. Qed.

Lemma lookup_rebind_ne x y v s :
  x ≠ y → globals (rebind x v s) !! y = globals s !! y.
Proof. intros Hne. apply lookup_insert_ne, Hne. Qed.

Lemma stdout_rebind x v s : stdout (rebind x v s) = stdout s.
Proof. reflexivity. Qed.

(** Looking a name up in a state built by a chain of [rebind]s. *)
Ltac lookup :=
  repeat (rewrite lookup_rebind_ne by discriminate);
  first [ apply lookup_rebind_eq | eassumption ].

(** The loop [for x in range(S n)] is the loop over [range(n)] followed by
    the last pass. *)
Lemma for_range_S x n body s :
  run (for_range x (S n) body) s =
  run (for_range x n body;; (store x (VInt (Z.of_nat n));; body)) s.
Proof.
  unfold for_range. rewrite seq_S, for_each_app. simpl.
  rewrite !run_bind. destruct (run (for_each (seq 0 n) _) s) as [[] s1|e s1];
    [|reflexivity].
  rewrite !run_bind. simpl.
  destruct (run body (rebind x (VInt (Z.of_nat n)) s1)) as [[] s2|e s2]; reflexivity.
Qed.

(** ** What the operators return on well-shaped operands *)

Lemma bdim_same n : bdim n n = Some n.
Proof. unfold bdim. rewrite Nat.eqb_refl. reflexivity. Qed.

Lemma matmul_ok m n :
  ncols m = nrows n → matmul (VArr m) (VArr n) = inr (VArr (mm m n)).
Proof. intros H. simpl. rewrite H, Nat.eqb_refl. reflexivity. Qed.

Lemma py_arith_ok opZ opR m n :
  nrows m = nrows n → ncols m = ncols n →
  py_arith opZ opR (VArr m) (VArr n)
  = inr (VArr (zip_array (nrows m) (ncols m) opR m n)).
Proof.
  intros Hr Hc. simpl. unfold broadcast2. rewrite <- Hr, <- Hc, !bdim_same.
  reflexivity.
Qed.

(** An accumulator of an epoch: the integer [0] it starts as, or an array
    of the shape of the terms added to it. *)
Definition acc_ok (r c : nat) (a : val) : Prop :=
  a = VInt 0 ∨ ∃ m, a = VArr m ∧ nrows m = r ∧ ncols m = c.

Definition acc_add (a : val) (t : ndarray) : val :=
  match a with
  | VInt z => VArr (map_array (Rplus (IZR z)) t)
  | VArr m => VArr (zip_array (nrows m) (ncols m) Rplus m t)
  | _ => a
  end.

Lemma py_add_acc r c a t :
  acc_ok r c a → nrows t = r → ncols t = c →
  py_add a (VArr t) = inr (acc_add a t).
Proof.
  intros [->|(m & -> & Hr & Hc)] Ht1 Ht2; [reflexivity|].
  apply py_arith_ok; congruence.
Qed.

Lemma acc_add_ok r c a t :
  acc_ok r c a → nrows t = r → ncols t = c → acc_ok r c (acc_add a t).
Proof.
  intros [->|(m & -> & Hr & Hc)] Ht1 Ht2; right; eexists; (split; [reflexivity|]);
    simpl; auto.
Qed.

(** The loss of an epoch: the integer [0] it starts as, or a float. *)
Definition loss_ok (l : val) : Prop := l = VInt 0 ∨ ∃ r, l = VFloat r.

Definition loss_add (l : val) (r : R) : val :=
  match l with
  | VInt z => VFloat (IZR z + r)
  | VFloat x => VFloat (x + r)
  | _ => l
  end.

Lemma py_add_loss l r : loss_ok l → py_add l (VFloat r) = inr (loss_add l r).
Proof. intros [->|(x & ->)]; reflexivity. Qed.

Lemma loss_add_ok l r : loss_ok l → loss_ok (loss_add l r).
Proof. intros [->|(x & ->)]; right; eexists; reflexivity. Qed.

(** [0.5 * np.square(np.linalg.norm(e))] *)
Definition half_sq_norm (e : ndarray) : R :=
  1 / 2 * (sqrt (sum_entries (λ t, t * t) e) * sqrt (sum_entries (λ t, t * t) e)).

Lemma py_index_nat n i : (i < n)%nat → py_index n (Z.of_nat i) = Some i.
Proof.
  intros H. unfold py_index.
  destruct (Z.leb_spec 0 (Z.of_nat i)); [|lia].
  destruct (Z.ltb_spec (Z.of_nat i) (Z.of_nat n)); [|lia].
  simpl. rewrite Nat2Z.id. reflexivity.
Qed.

Lemma subscript_ok l i m :
  l !! i = Some m → subscript (VArrs l) (VInt (Z.of_nat i)) = inr (VArr m).
Proof.
  intros H. simpl. rewrite py_index_nat by (eapply lookup_lt_Some; exact H).
  rewrite H. reflexivity.
Qed.

(** ** One mini-batch of the linear training loop *)

(** The hidden activity, the output and the error of a batch [x] with
    labels [yl] under the weights [w0] and [w], and the two terms the batch
    adds to the accumulators. *)
Definition hidden (w0 x : ndarray) : ndarray := mm w0 x.
Definition output (w0 w x : ndarray) : ndarray := mm w (hidden w0 x).
Definition error (w0 w x yl : ndarray) : ndarray :=
  zip_array (nrows yl) (ncols yl) Rminus yl (output w0 w x).
Definition term_W (w0 w x yl : ndarray) : ndarray :=
  mm (error w0 w x yl) (transpose (hidden w0 x)).
Definition term_W0 (b w0 w x yl : ndarray) : ndarray :=
  mm (mm b (error w0 w x yl)) (transpose x).

(** The shapes of a network with weights [w0], [w] and feedback matrix [b]
    and of a batch [x] with labels [yl] that fit together. *)
Record fits (w0 w b x yl : ndarray) : Prop := {
  fits_w0_x : ncols w0 = nrows x;
  fits_w_w0 : ncols w = nrows w0;
  fits_yl_w : nrows yl = nrows w;
  fits_yl_x : ncols yl = ncols x;
  fits_b_yl : ncols b = nrows yl
}.

(** The state after one pass through the body of the mini-batch loop. *)
Definition after_linear_batch (b w0 w x yl : ndarray) (dW0 dW l : val)
    (s : state) : state :=
  rebind "delta_W0" (acc_add dW0 (term_W0 b w0 w x yl))
  (rebind "delta_W" (acc_add dW (term_W w0 w x yl))
  (rebind "delta_FA" (VArr (mm b (error w0 w x yl)))
  (rebind "delta_BP" (VArr (mm (transpose w) (error w0 w x yl)))
  (rebind "loss" (loss_add l (half_sq_norm (error w0 w x yl)))
  (rebind "e" (VArr (error w0 w x yl))
  (rebind "y" (VArr (output w0 w x))
  (rebind "h" (VArr (hidden w0 x))
  (rebind "training_labels" (VArr yl)
  (rebind "training_data" (VArr x) s))))))))).

Section LinearBatch.
Variables (s : state) (w0 w b x yl : ndarray) (xs ys : list ndarray) (i : nat).
Variables (dW0 dW l : val).
Hypothesis HW0 : globals s !! "W0" = Some (VArr w0).
Hypothesis HW : globals s !! "W" = Some (VArr w).
Hypothesis HB : globals s !! "B" = Some (VArr b).
Hypothesis Hxs : globals s !! "x_train_batches" = Some (VArrs xs).
Hypothesis Hys : globals s !! "y_train_batches" = Some (VArrs ys).
Hypothesis Hi : globals s !! "i" = Some (VInt (Z.of_nat i)).
Hypothesis HdW0 : globals s !! "delta_W0" = Some dW0.
Hypothesis HdW : globals s !! "delta_W" = Some dW.
Hypothesis Hl : globals s !! "loss" = Some l.
Hypothesis Hx : xs !! i = Some x.
Hypothesis Hyl : ys !! i = Some yl.
Hypothesis Hfits : fits w0 w b x yl.
Hypothesis HokW0 : acc_ok (nrows b) (nrows x) dW0.
Hypothesis HokW : acc_ok (nrows yl) (nrows w0) dW.
Hypothesis Hokl : loss_ok l.

Lemma linear_batch_exec :
  exec linear_batch s (after_linear_batch b w0 w x yl dW0 dW l s).
Proof using All.
  destruct Hfits as [F1 F2 F3 F4 F5].
  unfold linear_batch, exec, after_linear_batch.
  rewrite (exec_bind_evals _ _ s (VArr x)).
  2:{ eapply evals_op2; [apply evals_Var, Hxs | apply evals_Var, Hi
                         | apply subscript_ok, Hx]. }
  rewrite (exec_bind_evals _ _ s (VArr yl)).
  2:{ eapply evals_op2; [apply evals_Var, Hys | apply evals_Var, Hi
                         | apply subscript_ok, Hyl]. }
  repeat (eapply exec_seq; [apply exec_store|]).
  (* h = W0 @ training_data *)
  eapply exec_seq.
  { apply exec_Assign. eapply evals_op2;
      [apply evals_Var; lookup | apply evals_Var; lookup | apply matmul_ok, F1]. }
  (* y = W @ h *)
  eapply exec_seq.
  { apply exec_Assign. eapply evals_op2;
      [apply evals_Var; lookup | apply evals_Var; lookup | apply matmul_ok, F2]. }
  (* e = training_labels - y *)
  eapply exec_seq.
  { apply exec_Assign. eapply evals_op2;
      [apply evals_Var; lookup | apply evals_Var; lookup
      | apply py_arith_ok; simpl; congruence]. }
  (* loss += 0.5 * np.square(np.linalg.norm(e)) *)
  eapply exec_seq.
  { apply exec_Assign. eapply evals_op2; [apply evals_Var; lookup | |].
    - eapply evals_op2; [apply evals_Const | |].
      + eapply evals_op1.
        * eapply evals_op1; [apply evals_Var; lookup | reflexivity].
        * reflexivity.
      + reflexivity.
    - apply py_add_loss, Hokl. }
  (* delta_BP = W.T @ e *)
  eapply exec_seq.
  { apply exec_Assign. eapply evals_op2;
      [ eapply evals_op1; [apply evals_Var; lookup | reflexivity]
      | apply evals_Var; lookup
      | apply matmul_ok; simpl; congruence ]. }
  (* delta_FA = B @ e *)
  eapply exec_seq.
  { apply exec_Assign. eapply evals_op2;
      [apply evals_Var; lookup | apply evals_Var; lookup
      | apply matmul_ok; simpl; congruence]. }
  (* delta_W = delta_W + e @ h.T *)
  eapply exec_seq.
  { apply exec_Assign. eapply evals_op2; [apply evals_Var; lookup | |].
    - eapply evals_op2;
        [ apply evals_Var; lookup
        | eapply evals_op1; [apply evals_Var; lookup | reflexivity]
        | apply matmul_ok; simpl; congruence ].
    - eapply py_add_acc; [exact HokW | reflexivity | reflexivity]. }
  (* delta_W0 = delta_W0 + B @ e @ training_data.T *)
  apply exec_Assign. eapply evals_op2; [apply evals_Var; lookup | |].
  - eapply evals_op2;
      [ eapply evals_op2;
          [apply evals_Var; lookup | apply evals_Var; lookup
          | apply matmul_ok; simpl; congruence]
      | eapply evals_op1; [apply evals_Var; lookup | reflexivity]
      | apply matmul_ok; simpl; congruence ].
  - eapply py_add_acc; [exact HokW0 | reflexivity | reflexivity].
Qed.
End LinearBatch.

(** ** The mini-batch loop of one linear epoch *)

(** The three accumulators of an epoch. *)
Record accs : Type := Accs { acc_W0 : val; acc_W : val; acc_loss : val }.

Definition batch_step (b w0 w : ndarray) (a : accs) (xy : ndarray * ndarray)
    : accs :=
  Accs (acc_add (acc_W0 a) (term_W0 b w0 w xy.1 xy.2))
       (acc_add (acc_W a) (term_W w0 w xy.1 xy.2))
       (loss_add (acc_loss a) (half_sq_norm (error w0 w xy.1 xy.2))).

(** The accumulators after the batches [l], all under the same weights. *)
Definition accumulate (b w0 w : ndarray) (l : list (ndarray * ndarray)) : accs :=
  foldl (batch_step b w0 w) (Accs (VInt 0) (VInt 0) (VInt 0)) l.

(** The names the training loop reads and never assigns. *)
Record config : Type := Config {
  cfg_B : ndarray;
  cfg_xs : list ndarray;
  cfg_ys : list ndarray;
  cfg_eta : R;
  cfg_xtrain : ndarray
}.

Record configured (c : config) (s : state) : Prop := {
  conf_B : globals s !! "B" = Some (VArr (cfg_B c));
  conf_xs : globals s !! "x_train_batches" = Some (VArrs (cfg_xs c));
  conf_ys : globals s !! "y_train_batches" = Some (VArrs (cfg_ys c));
  conf_eta : globals s !! "eta" = Some (VFloat (cfg_eta c));
  conf_xtrain : globals s !! "x_train" = Some (VArr (cfg_xtrain c))
}.

(** The shapes under which the loop runs without a shape error. *)
Record trains (c : config) (w0 w : ndarray) : Prop := {
  trains_len : length (cfg_ys c) = length (cfg_xs c);
  trains_fits : ∀ i x yl, cfg_xs c !! i = Some x → cfg_ys c !! i = Some yl →
                fits w0 w (cfg_B c) x yl;
  trains_B : nrows (cfg_B c) = nrows w0;
  trains_W : ncols w = nrows w0;
  trains_cols : ncols (cfg_xtrain c) ≠ O
}.

Definition batches (c : config) : list (ndarray * ndarray) :=
  zip (cfg_xs c) (cfg_ys c).

Lemma preserves_linear_batch x :
  x ∉ ["training_data"; "training_labels"; "h"; "y"; "e"; "loss"; "delta_BP";
       "delta_FA"; "delta_W"; "delta_W0"] →
  preserves x linear_batch.
Proof.
  intros Hx. rewrite !not_elem_of_cons in Hx.
  unfold linear_batch.
  repeat lazymatch goal with
  | |- preserves _ (store _ _) => apply preserves_store; tauto
  | |- preserves _ (Assign _ _) => apply preserves_Assign; [tauto|]
  | |- _ => preserves_step
  end.
Qed.

Lemma preserves_linear_batch_loop x n :
  x ∉ ["i"; "training_data"; "training_labels"; "h"; "y"; "e"; "loss";
       "delta_BP"; "delta_FA"; "delta_W"; "delta_W0"] →
  preserves x (for_range "i" n linear_batch).
Proof.
  intros Hx. rewrite not_elem_of_cons in Hx. destruct Hx as [Hi Hx].
  apply preserves_for_range; [exact Hi|]. apply preserves_linear_batch, Hx.
Qed.

Ltac not_in_list :=
  rewrite !not_elem_of_cons; repeat split;
  first [discriminate | apply not_elem_of_nil].

Lemma accumulate_snoc b w0 w l xy :
  accumulate b w0 w (l ++ [xy]) = batch_step b w0 w (accumulate b w0 w l) xy.
Proof. unfold accumulate. rewrite foldl_app. reflexivity. Qed.

Lemma accumulate_ok c w0 w k :
  trains c w0 w →
  acc_ok (nrows (cfg_B c)) (ncols w0)
         (acc_W0 (accumulate (cfg_B c) w0 w (take k (batches c)))) ∧
  acc_ok (nrows w) (nrows w0)
         (acc_W (accumulate (cfg_B c) w0 w (take k (batches c)))) ∧
  loss_ok (acc_loss (accumulate (cfg_B c) w0 w (take k (batches c)))).
Proof.
  intros Ht. induction k as [|k IH].
  - repeat split; left; reflexivity.
  - destruct (batches c !! k) as [[x yl]|] eqn:Hk.
    + rewrite (take_S_r _ _ _ Hk), accumulate_snoc.
      unfold batches in Hk. apply lookup_zip_with_Some in Hk.
      destruct Hk as (x' & y' & Heq & Hx & Hy). injection Heq as <- <-.
      destruct (trains_fits c w0 w Ht k x yl Hx Hy) as [F1 F2 F3 F4 F5].
      destruct IH as (I1 & I2 & I3). simpl. repeat split.
      * eapply acc_add_ok; [exact I1 | reflexivity | simpl; congruence].
      * eapply acc_add_ok; [exact I2 | simpl; congruence | reflexivity].
      * apply loss_add_ok, I3.
    + apply lookup_ge_None in Hk. rewrite take_ge by lia.
      rewrite take_ge in IH by lia. exact IH.
Qed.

Lemma batches_lookup c i x yl :
  cfg_xs c !! i = Some x → cfg_ys c !! i = Some yl →
  batches c !! i = Some (x, yl).
Proof.
  intros Hx Hy. unfold batches. apply lookup_zip_with_Some.
  exists x, yl. auto.
Qed.

Section LinearBatchLoop.
Variables (c : config) (w0 w : ndarray) (s : state).
Hypothesis Hconf : configured c s.
Hypothesis HW0 : globals s !! "W0" = Some (VArr w0).
Hypothesis HW : globals s !! "W" = Some (VArr w).
Hypothesis Htrains : trains c w0 w.
Hypothesis HdW0 : globals s !! "delta_W0" = Some (VInt 0).
Hypothesis HdW : globals s !! "delta_W" = Some (VInt 0).
Hypothesis Hloss : globals s !! "loss" = Some (VInt 0).

Lemma linear_batch_loop_exec k :
  (k ≤ length (cfg_xs c))%nat →
  ∃ s', exec (for_range "i" k linear_batch) s s' ∧
        stdout s' = stdout s ∧
        let a := accumulate (cfg_B c) w0 w (take k (batches c)) in
        globals s' !! "delta_W0" = Some (acc_W0 a) ∧
        globals s' !! "delta_W" = Some (acc_W a) ∧
        globals s' !! "loss" = Some (acc_loss a).
Proof using All.
  induction k as [|k IH]; intros Hk.
  - exists s. repeat split; assumption.
  - destruct IH as (sk & Hex & Hout & H1 & H2 & H3); [lia|].
    destruct (lookup_lt_is_Some_2 (cfg_xs c) k) as [x Hx]; [lia|].
    destruct (lookup_lt_is_Some_2 (cfg_ys c) k) as [yl Hyl];
      [rewrite (trains_len c w0 w Htrains); lia|].
    pose proof (accumulate_ok c w0 w k Htrains) as (O1 & O2 & O3).
    pose proof (trains_fits c w0 w Htrains k x yl Hx Hyl) as Hfit.
    assert (Hfr : ∀ y v, y ∉ ["i"; "training_data"; "training_labels"; "h";
                   "y"; "e"; "loss"; "delta_BP"; "delta_FA"; "delta_W";
                   "delta_W0"] → globals s !! y = Some v →
                 globals (rebind "i" (VInt (Z.of_nat k)) sk) !! y = Some v).
    { intros y v Hy Hv. rewrite lookup_rebind_ne.
      - rewrite (exec_preserves y _ s sk (preserves_linear_batch_loop y k Hy) Hex).
        exact Hv.
      - rewrite not_elem_of_cons in Hy. intros <-. tauto. }
    destruct Hconf as [C1 C2 C3 C4 C5].
    eexists. split.
    + unfold exec. rewrite for_range_S, run_bind, Hex, run_bind, run_store.
      apply (linear_batch_exec _ w0 w (cfg_B c) x yl (cfg_xs c) (cfg_ys c) k).
      * apply Hfr; [not_in_list | exact HW0].
      * apply Hfr; [not_in_list | exact HW].
      * apply Hfr; [not_in_list | exact C1].
      * apply Hfr; [not_in_list | exact C2].
      * apply Hfr; [not_in_list | exact C3].
      * apply lookup_rebind_eq.
      * rewrite lookup_rebind_ne by discriminate. exact H1.
      * rewrite lookup_rebind_ne by discriminate. exact H2.
      * rewrite lookup_rebind_ne by discriminate. exact H3.
      * exact Hx.
      * exact Hyl.
      * exact Hfit.
      * rewrite <- (fits_w0_x _ _ _ _ _ Hfit). exact O1.
      * rewrite (fits_yl_w _ _ _ _ _ Hfit). exact O2.
      * exact O3.
    + rewrite (take_S_r _ _ _ (batches_lookup c k x yl Hx Hyl)), accumulate_snoc.
      unfold after_linear_batch. repeat split.
      * simpl. exact Hout.
      * lookup.
      * lookup.
      * lookup.
Qed.
End LinearBatchLoop.

(** ** The end of a linear epoch: the two updates and the report *)

(** [c * a] for an accumulator [a], and [w + d] for the result [d]. *)
Definition scaled (c : R) (a : val) : val :=
  match a with
  | VInt z => VFloat (c * IZR z)
  | VArr m => VArr (map_array (Rmult c) m)
  | _ => a
  end.

Definition updated (w : ndarray) (d : val) : ndarray :=
  match d with
  | VFloat r => map_array (λ t, t + r) w
  | VArr m => zip_array (nrows w) (ncols w) Rplus w m
  | _ => w
  end.

(** The learning rate divided by the number of training samples. *)
Definition rate (c : config) : R :=
  cfg_eta c / IZR (Z.of_nat (ncols (cfg_xtrain c))).

(** The lines an epoch prints. *)
Definition report (period : Z) (k : Z) (l : val) : list line :=
  if (k mod period =? 0)%Z
  then [Line "      Epoch " (VInt k); Line "      Current loss: " l]
  else [].

Definition printed (ls : list line) (s : state) : state :=
  State (globals s) (stdout s ++ ls).

Lemma py_mul_scaled r c cst a :
  acc_ok r c a → py_mul (VFloat cst) a = inr (scaled cst a).
Proof. intros [->|(m & -> & _)]; reflexivity. Qed.

Lemma py_add_updated w cst a :
  acc_ok (nrows w) (ncols w) a →
  py_add (VArr w) (scaled cst a) = inr (VArr (updated w (scaled cst a))).
Proof.
  intros [->|(m & -> & Hr & Hc)]; [reflexivity|].
  simpl scaled. unfold py_add. rewrite py_arith_ok by (simpl; congruence).
  reflexivity.
Qed.

Section LinearUpdate.
Variables (c : config) (w0 w : ndarray) (aW0 aW : val) (s : state).
Hypothesis Hconf : configured c s.
Hypothesis HW0 : globals s !! "W0" = Some (VArr w0).
Hypothesis HW : globals s !! "W" = Some (VArr w).
Hypothesis HdW0 : globals s !! "delta_W0" = Some aW0.
Hypothesis HdW : globals s !! "delta_W" = Some aW.
Hypothesis HokW0 : acc_ok (nrows w0) (ncols w0) aW0.
Hypothesis HokW : acc_ok (nrows w) (ncols w) aW.
Hypothesis Hcols : ncols (cfg_xtrain c) ≠ O.

Lemma rate_evals s' :
  globals s' !! "eta" = Some (VFloat (cfg_eta c)) →
  globals s' !! "x_train" = Some (VArr (cfg_xtrain c)) →
  evals (Div (Var "eta") (Shape 1 (Var "x_train"))) s' (VFloat (rate c)).
Proof using Hcols.
  intros He Hx. eapply evals_op2; [apply evals_Var, He | |].
  - eapply evals_op1; [apply evals_Var, Hx | reflexivity].
  - simpl. destruct (Z.eqb_spec (Z.of_nat (ncols (cfg_xtrain c))) 0); [lia|].
    reflexivity.
Qed.

Lemma linear_update_exec :
  exec linear_update s
    (rebind "W0" (VArr (updated w0 (scaled (rate c) aW0)))
    (rebind "W" (VArr (updated w (scaled (rate c) aW))) s)).
Proof using All.
  destruct Hconf as [C1 C2 C3 C4 C5]. unfold linear_update.
  eapply exec_seq.
  - apply exec_Assign. eapply evals_op2; [apply evals_Var, HW | |].
    + eapply evals_op2; [apply rate_evals; assumption | apply evals_Var, HdW |].
      eapply py_mul_scaled, HokW.
    + apply py_add_updated, HokW.
  - apply exec_Assign. eapply evals_op2; [apply evals_Var; lookup | |].
    + eapply evals_op2; [apply rate_evals; lookup | apply evals_Var; lookup |].
      eapply py_mul_scaled, HokW0.
    + apply py_add_updated, HokW0.
Qed.
End LinearUpdate.

Lemma report_exec period (Hp : period ≠ 0%Z) s k l :
  globals s !! "epoch" = Some (VInt k) →
  globals s !! "loss" = Some l →
  exec (If (Eq (Mod (Var "epoch") (Int period)) (Int 0))
          (Print "      Epoch " (Var "epoch");;
           Print "      Current loss: " (Var "loss")))
       s (printed (report period k l) s).
Proof.
  intros He Hl. unfold exec, If. rewrite run_bind.
  rewrite (run_op2 py_eq _ _ s (VInt (k mod period)) (VInt 0)).
  2:{ eapply evals_op2; [apply evals_Var, He | apply evals_Const |].
      simpl. destruct (Z.eqb_spec period 0); [contradiction | reflexivity]. }
  2:{ apply evals_Const. }
  simpl py_eq. rewrite run_lift_inr. unfold report, printed.
  destruct (k mod period =? 0)%Z.
  - unfold Print. rewrite run_bind, run_bind, (run_Var _ _ _ He). simpl.
    rewrite run_bind. unfold run at 1, Var. simpl. rewrite Hl. simpl.
    unfold emit, run. simpl. rewrite <- app_assoc. reflexivity.
  - rewrite run_ret, app_nil_r. destruct s; reflexivity.
Qed.

(** ** One epoch of the linear training loop *)

Definition epoch_accs (c : config) (w0 w : ndarray) : accs :=
  accumulate (cfg_B c) w0 w (batches c).

Definition epoch_loss (c : config) (w0 w : ndarray) : val :=
  acc_loss (epoch_accs c w0 w).

(** The weights an epoch that starts with [w0] and [w] ends with. *)
Definition next_W0 (c : config) (w0 w : ndarray) : ndarray :=
  updated w0 (scaled (rate c) (acc_W0 (epoch_accs c w0 w))).

Definition next_W (c : config) (w0 w : ndarray) : ndarray :=
  updated w (scaled (rate c) (acc_W (epoch_accs c w0 w))).

(** The weights at the start of epoch [n]. *)
Fixpoint weights_at (c : config) (w0 w : ndarray) (n : nat) : ndarray * ndarray :=
  match n with
  | O => (w0, w)
  | S k => let p := weights_at c w0 w k in (next_W0 c p.1 p.2, next_W c p.1 p.2)
  end.

Lemma updated_shape w d :
  nrows (updated w d) = nrows w ∧ ncols (updated w d) = ncols w.
Proof. destruct d; split; reflexivity. Qed.

Lemma trains_shape c w0 w w0' w' :
  nrows w0' = nrows w0 → ncols w0' = ncols w0 →
  nrows w' = nrows w → ncols w' = ncols w →
  trains c w0 w → trains c w0' w'.
Proof.
  intros E1 E2 E3 E4 [T1 T2 T3 T4 T5]. split; try congruence.
  intros i x yl Hx Hy. destruct (T2 i x yl Hx Hy) as [F1 F2 F3 F4 F5].
  split; congruence.
Qed.

Lemma trains_next c w0 w :
  trains c w0 w → trains c (next_W0 c w0 w) (next_W c w0 w).
Proof.
  apply trains_shape; unfold next_W0, next_W; apply updated_shape.
Qed.

Lemma take_batches c :
  take (length (cfg_xs c)) (batches c) = batches c.
Proof.
  apply take_ge. unfold batches. rewrite length_zip_with. lia.
Qed.

Lemma preserves_linear_epoch x :
  x ∉ ["W0"; "W"; "i"; "training_data"; "training_labels"; "h"; "y"; "e";
       "loss"; "delta_BP"; "delta_FA"; "delta_W"; "delta_W0"] →
  preserves x linear_epoch.
Proof.
  intros Hx. rewrite !not_elem_of_cons in Hx.
  unfold linear_epoch, linear_batches, linear_update, linear_report, linear_batch.
  repeat lazymatch goal with
  | |- preserves _ (store _ _) => apply preserves_store; tauto
  | |- preserves _ (Assign _ _) => apply preserves_Assign; [tauto|]
  | |- preserves _ (for_range _ _ _) => apply preserves_for_range; [tauto|]
  | |- _ => preserves_step
  end.
Qed.

Lemma configured_preserved c (m : M unit) s s' :
  preserves "B" m → preserves "x_train_batches" m →
  preserves "y_train_batches" m → preserves "eta" m → preserves "x_train" m →
  exec m s s' → configured c s → configured c s'.
Proof.
  intros P1 P2 P3 P4 P5 He [C1 C2 C3 C4 C5].
  split; [rewrite (exec_preserves _ _ _ _ P1 He) | rewrite (exec_preserves _ _ _ _ P2 He)
         | rewrite (exec_preserves _ _ _ _ P3 He) | rewrite (exec_preserves _ _ _ _ P4 He)
         | rewrite (exec_preserves _ _ _ _ P5 He)]; assumption.
Qed.

Lemma linear_epoch_configured c s s' :
  exec linear_epoch s s' → configured c s → configured c s'.
Proof.
  apply configured_preserved; apply preserves_linear_epoch; not_in_list.
Qed.

Section LinearEpoch.
Variables (c : config) (w0 w : ndarray) (s : state) (k : Z).
Hypothesis Hconf : configured c s.
Hypothesis HW0 : globals s !! "W0" = Some (VArr w0).
Hypothesis HW : globals s !! "W" = Some (VArr w).
Hypothesis Hepoch : globals s !! "epoch" = Some (VInt k).
Hypothesis Htrains : trains c w0 w.

Lemma linear_epoch_exec :
  ∃ s', exec linear_epoch s s' ∧
        globals s' !! "W0" = Some (VArr (next_W0 c w0 w)) ∧
        globals s' !! "W" = Some (VArr (next_W c w0 w)) ∧
        globals s' !! "loss" = Some (epoch_loss c w0 w) ∧
        stdout s' = stdout s ++ report 100 k (epoch_loss c w0 w) ∧
        globals s' !! "delta_W0" = Some (acc_W0 (epoch_accs c w0 w)) ∧
        globals s' !! "delta_W" = Some (acc_W (epoch_accs c w0 w)).
Proof using All.
  set (s1 := rebind "loss" (VInt 0) (rebind "delta_W" (VInt 0)
               (rebind "delta_W0" (VInt 0) s))).
  destruct Hconf as [C1 C2 C3 C4 C5].
  assert (Hconf1 : configured c s1) by (split; unfold s1; lookup).
  destruct (linear_batch_loop_exec c w0 w s1) with (k := length (cfg_xs c))
    as (s2 & Hex2 & Hout2 & A1 & A2 & A3);
    [ exact Hconf1 | unfold s1; lookup | unfold s1; lookup | exact Htrains
    | unfold s1; lookup | unfold s1; lookup | unfold s1; lookup | lia |].
  rewrite take_batches in A1, A2, A3. fold (epoch_accs c w0 w) in A1, A2, A3.
  assert (Hfr : ∀ y v, y ∉ ["i"; "training_data"; "training_labels"; "h";
                 "y"; "e"; "loss"; "delta_BP"; "delta_FA"; "delta_W";
                 "delta_W0"] → globals s !! y = Some v →
               globals s2 !! y = Some v).
  { intros y v Hy Hv.
    rewrite (exec_preserves y _ s1 s2 (preserves_linear_batch_loop y _ Hy) Hex2).
    rewrite !not_elem_of_cons in Hy. unfold s1.
    rewrite !lookup_rebind_ne by (intros <-; tauto). exact Hv. }
  pose proof (accumulate_ok c w0 w (length (cfg_xs c)) Htrains) as (O1 & O2 & _).
  rewrite take_batches in O1, O2. fold (epoch_accs c w0 w) in O1, O2.
  rewrite (trains_B c w0 w Htrains) in O1.
  rewrite <- (trains_W c w0 w Htrains) in O2.
  pose proof (linear_update_exec c w0 w (acc_W0 (epoch_accs c w0 w))
                (acc_W (epoch_accs c w0 w)) s2) as Hup.
  set (s3 := rebind "W0" (VArr (next_W0 c w0 w))
               (rebind "W" (VArr (next_W c w0 w)) s2)).
  exists (printed (report 100 k (epoch_loss c w0 w)) s3). split.
  - unfold linear_epoch.
    do 3 (eapply exec_seq; [apply exec_store|]). fold s1.
    eapply exec_seq.
    { unfold linear_batches, exec. rewrite run_bind.
      rewrite (run_op1 py_len _ s1 (VArrs (cfg_xs c)))
        by (apply evals_Var; unfold s1; lookup).
      simpl py_len. rewrite run_lift_inr. exact Hex2. }
    eapply exec_seq.
    { apply Hup.
      - split; apply Hfr; solve [not_in_list | assumption].
      - apply Hfr; [not_in_list | exact HW0].
      - apply Hfr; [not_in_list | exact HW].
      - exact A1.
      - exact A2.
      - exact O1.
      - exact O2.
      - exact (trains_cols c w0 w Htrains). }
    fold (next_W0 c w0 w) (next_W c w0 w) s3.
    apply report_exec; [discriminate | |].
    + unfold s3. rewrite !lookup_rebind_ne by discriminate.
      apply Hfr; [not_in_list | exact Hepoch].
    + unfold s3. rewrite !lookup_rebind_ne by discriminate. exact A3.
  - unfold printed, s3. simpl. repeat split.
    + apply lookup_insert_eq.
    + rewrite lookup_insert_ne by discriminate. apply lookup_insert_eq.
    + rewrite !lookup_insert_ne by discriminate. exact A3.
    + rewrite Hout2. reflexivity.
    + rewrite !lookup_insert_ne by discriminate. exact A1.
    + rewrite !lookup_insert_ne by discriminate. exact A2.
Qed.
End LinearEpoch.

(** ** The epoch loop of the linear training cell *)

(** The loss that epoch [n] accumulates and prints. *)
Definition loss_at (c : config) (w0 w : ndarray) (n : nat) : val :=
  epoch_loss c (weights_at c w0 w n).1 (weights_at c w0 w n).2.

(** The two accumulated updates at the end of epoch [n]. *)
Definition delta_W0_at (c : config) (w0 w : ndarray) (n : nat) : val :=
  acc_W0 (epoch_accs c (weights_at c w0 w n).1 (weights_at c w0 w n).2).

Definition delta_W_at (c : config) (w0 w : ndarray) (n : nat) : val :=
  acc_W (epoch_accs c (weights_at c w0 w n).1 (weights_at c w0 w n).2).

(** What the first [n] epochs print. *)
Fixpoint reports (c : config) (w0 w : ndarray) (n : nat) : list line :=
  match n with
  | O => []
  | S k => reports c w0 w k ++ report 100 (Z.of_nat k) (loss_at c w0 w k)
  end.

Lemma trains_weights_at c w0 w n :
  trains c w0 w → trains c (weights_at c w0 w n).1 (weights_at c w0 w n).2.
Proof.
  intros Ht. induction n as [|n IH]; [exact Ht|]. simpl. apply trains_next, IH.
Qed.

Lemma preserves_linear_epochs x n :
  x ∉ ["epoch"; "W0"; "W"; "i"; "training_data"; "training_labels"; "h"; "y";
       "e"; "loss"; "delta_BP"; "delta_FA"; "delta_W"; "delta_W0"] →
  preserves x (linear_epochs n).
Proof.
  intros Hx. rewrite not_elem_of_cons in Hx. destruct Hx as [He Hx].
  apply preserves_for_range; [exact He|]. apply preserves_linear_epoch, Hx.
Qed.

Lemma linear_epochs_configured c n s s' :
  exec (linear_epochs n) s s' → configured c s → configured c s'.
Proof.
  apply configured_preserved; apply preserves_linear_epochs; not_in_list.
Qed.

Section LinearEpochs.
Variables (c : config) (w0 w : ndarray) (s : state).
Hypothesis Hconf : configured c s.
Hypothesis HW0 : globals s !! "W0" = Some (VArr w0).
Hypothesis HW : globals s !! "W" = Some (VArr w).
Hypothesis Htrains : trains c w0 w.

Lemma linear_epochs_exec n :
  ∃ s', exec (linear_epochs n) s s' ∧
        globals s' !! "W0" = Some (VArr (weights_at c w0 w n).1) ∧
        globals s' !! "W" = Some (VArr (weights_at c w0 w n).2) ∧
        stdout s' = stdout s ++ reports c w0 w n ∧
        ∀ k, n = S k →
             globals s' !! "loss" = Some (loss_at c w0 w k) ∧
             globals s' !! "epoch" = Some (VInt (Z.of_nat k)) ∧
             globals s' !! "delta_W0" = Some (delta_W0_at c w0 w k) ∧
             globals s' !! "delta_W" = Some (delta_W_at c w0 w k).
Proof using All.
  induction n as [|n IH].
  - exists s. repeat split; try assumption; try discriminate.
    simpl. rewrite app_nil_r. reflexivity.
  - destruct IH as (sn & Hex & I1 & I2 & I3 & _).
    pose proof (linear_epochs_configured c n s sn Hex Hconf) as [C1 C2 C3 C4 C5].
    destruct (linear_epoch_exec c (weights_at c w0 w n).1 (weights_at c w0 w n).2
                (rebind "epoch" (VInt (Z.of_nat n)) sn) (Z.of_nat n))
      as (s' & Hex' & J1 & J2 & J3 & J4 & J5 & J6).
    + split; lookup.
    + lookup.
    + lookup.
    + lookup.
    + apply trains_weights_at, Htrains.
    + exists s'. split; [|repeat split].
      * unfold exec, linear_epochs. rewrite for_range_S, run_bind.
        unfold exec, linear_epochs in Hex. rewrite Hex, run_bind, run_store.
        exact Hex'.
      * exact J1.
      * exact J2.
      * rewrite J4. simpl. rewrite I3, app_assoc. reflexivity.
      * injection H as <-. exact J3.
      * injection H as <-.
        rewrite (exec_preserves "epoch" _ _ _
                   (preserves_linear_epoch "epoch" ltac:(not_in_list)) Hex').
        lookup.
      * injection H as <-. exact J5.
      * injection H as <-. exact J6.
Qed.
End LinearEpochs.

(** ** The cells that prepare the linear experiment *)

(** [75 / 20] is [3.75]: [75 % 3.75] is zero and [int(3.75)] is [3]. *)
Lemma float_mod_75 : float_mod 75 (75 / 20) = 0.
Proof.
  unfold float_mod.
  replace (Int_part (75 / (75 / 20))) with 20%Z.
  - field.
  - apply Int_part_spec. replace (75 / (75 / 20)) with 20 by field. lra.
Qed.

Lemma trunc_375 : trunc (75 / 20) = 3%Z.
Proof.
  unfold trunc. destruct (Rle_dec 0 (75 / 20)) as [_|Hn]; [|exfalso; lra].
  symmetry. apply Int_part_spec. lra.
Qed.

Lemma np_split_75 a :
  ncols a = 75%nat →
  np_split (VArr a) (VFloat (75 / 20))
  = inr (VArrs [slice_cols 0 25 a; slice_cols 25 50 a; slice_cols 50 75 a]).
Proof.
  intros Hc. unfold np_split. rewrite Hc.
  change (Z.of_nat 75) with 75%Z. unfold py_mod.
  destruct (Req_dec_T (75 / 20) 0) as [He|_]; [exfalso; lra|].
  rewrite float_mod_75. unfold py_truth.
  destruct (Req_dec_T 0 0) as [_|Hn]; [|contradiction].
  unfold array_split, py_int. rewrite trunc_375, Hc. reflexivity.
Qed.

(** The arrays the cells of the linear experiment build from the draws. *)
Definition T_of (d : draws) : ndarray := NdArray 10 30 (draw_T d).
Definition x_data_of (d : draws) : ndarray := NdArray 30 100 (draw_x d).
Definition y_data_of (d : draws) : ndarray := mm (T_of d) (x_data_of d).
Definition W0_of (d : draws) : ndarray := NdArray 20 30 (draw_W0 d).
Definition W_of (d : draws) : ndarray := NdArray 10 20 (draw_W d).
Definition B_of (d : draws) : ndarray := NdArray 20 10 (draw_B d).

Definition test_idx (d : draws) : list nat := take 25 (draw_perm d).
Definition train_idx (d : draws) : list nat := take 75 (drop 25 (draw_perm d)).

Definition x_train_of (d : draws) : ndarray :=
  transpose (take_rows (train_idx d) (transpose (x_data_of d))).
Definition x_test_of (d : draws) : ndarray :=
  transpose (take_rows (test_idx d) (transpose (x_data_of d))).
Definition y_train_of (d : draws) : ndarray :=
  transpose (take_rows (train_idx d) (transpose (y_data_of d))).
Definition y_test_of (d : draws) : ndarray :=
  transpose (take_rows (test_idx d) (transpose (y_data_of d))).

Definition thirds (a : ndarray) : list ndarray :=
  [slice_cols 0 25 a; slice_cols 25 50 a; slice_cols 50 75 a].

(** The random generator of [train_test_split] hands out a permutation of
    the hundred sample indices. *)
Definition valid_perm (d : draws) : Prop := draw_perm d ≡ₚ seq 0 100.

Lemma valid_perm_length d : valid_perm d → length (draw_perm d) = 100%nat.
Proof. intros H. apply Permutation_length in H. exact H. Qed.

Lemma train_idx_length d : valid_perm d → length (train_idx d) = 75%nat.
Proof.
  intros H. unfold train_idx.
  rewrite length_take, length_drop, (valid_perm_length d H). reflexivity.
Qed.

Lemma test_idx_length d : valid_perm d → length (test_idx d) = 25%nat.
Proof.
  intros H. unfold test_idx. rewrite length_take, (valid_perm_length d H).
  reflexivity.
Qed.

Definition after_data_generation (d : draws) (s : state) : state :=
  rebind "y_data" (VArr (y_data_of d))
  (rebind "x_data" (VArr (x_data_of d))
  (rebind "T" (VArr (T_of d))
  (rebind "num_inputs" (VInt 100) s))).

Definition after_weights_init (d : draws) (s : state) : state :=
  rebind "B" (VArr (B_of d))
  (rebind "a" (VFloat (1 / 2))
  (rebind "b" (VVec (Vec 10 (draw_b d)))
  (rebind "W" (VArr (W_of d))
  (rebind "b0" (VVec (Vec 20 (draw_b0 d)))
  (rebind "W0" (VArr (W0_of d))
  (rebind "a" (VFloat (1 / 100)) s)))))).

Definition after_dataset_preparation (d : draws) (s : state) : state :=
  rebind "y_test" (VArr (y_test_of d))
  (rebind "y_train" (VArr (y_train_of d))
  (rebind "x_test" (VArr (x_test_of d))
  (rebind "x_train" (VArr (x_train_of d))
  (rebind "y_test" (VArr (take_rows (test_idx d) (transpose (y_data_of d))))
  (rebind "y_train" (VArr (take_rows (train_idx d) (transpose (y_data_of d))))
  (rebind "x_test" (VArr (take_rows (test_idx d) (transpose (x_data_of d))))
  (rebind "x_train" (VArr (take_rows (train_idx d) (transpose (x_data_of d))))
     s))))))).

Definition after_hyperparameters (n_train : nat) (s : state) : state :=
  rebind "num_batches" (VFloat (IZR (Z.of_nat n_train) / 20))
  (rebind "batch_size" (VInt 20)
  (rebind "num_epochs" (VInt 1000)
  (rebind "eta" (VFloat (1 / 10)) s))).

Definition after_creating_batches (xb yb : list ndarray) (s : state) : state :=
  rebind "y_train_batches" (VArrs yb) (rebind "x_train_batches" (VArrs xb) s).

Lemma evals_uniform2 lo hi r c f s v1 v2 :
  evals lo s v1 → evals hi s v2 →
  evals (uniform2 lo hi r c f) s (VArr (NdArray r c f)).
Proof.
  intros H1 H2. unfold evals, uniform2. rewrite run_bind, H1, run_bind, H2.
  reflexivity.
Qed.

Lemma evals_uniform1 lo hi n f s v1 v2 :
  evals lo s v1 → evals hi s v2 →
  evals (uniform1 lo hi n f) s (VVec (Vec n f)).
Proof.
  intros H1 H2. unfold evals, uniform1. rewrite run_bind, H1, run_bind, H2.
  reflexivity.
Qed.

Lemma data_generation_exec d s :
  exec (data_generation d) s (after_data_generation d s).
Proof.
  unfold data_generation, after_data_generation.
  eapply exec_seq; [apply exec_Assign, evals_Const|].
  eapply exec_seq.
  { apply exec_Assign. eapply evals_uniform2; apply evals_Const. }
  eapply exec_seq.
  { apply exec_Assign. eapply evals_op1; [apply evals_Var; lookup | reflexivity]. }
  apply exec_Assign. eapply evals_op2;
    [apply evals_Var; lookup | apply evals_Var; lookup | reflexivity].
Qed.

Ltac eval_bounds :=
  eapply evals_op1; [apply evals_Var; lookup | reflexivity].

Lemma weights_init_exec d s :
  exec (weights_init d) s (after_weights_init d s).
Proof.
  unfold weights_init, after_weights_init.
  eapply exec_seq; [apply exec_Assign, evals_Const|].
  eapply exec_seq.
  { apply exec_Assign. eapply evals_uniform2; [eval_bounds | apply evals_Var; lookup]. }
  eapply exec_seq.
  { apply exec_Assign. eapply evals_uniform1; [eval_bounds | apply evals_Var; lookup]. }
  eapply exec_seq.
  { apply exec_Assign. eapply evals_uniform2; [eval_bounds | apply evals_Var; lookup]. }
  eapply exec_seq.
  { apply exec_Assign. eapply evals_uniform1; [eval_bounds | apply evals_Var; lookup]. }
  eapply exec_seq; [apply exec_Assign, evals_Const|].
  apply exec_Assign. eapply evals_uniform2; [eval_bounds | apply evals_Var; lookup].
Qed.

Lemma train_test_split_100 d :
  train_test_split (draw_perm d) (VArr (transpose (x_data_of d)))
                   (VArr (transpose (y_data_of d)))
  = inr (VArr (take_rows (train_idx d) (transpose (x_data_of d))),
         VArr (take_rows (test_idx d) (transpose (x_data_of d))),
         VArr (take_rows (train_idx d) (transpose (y_data_of d))),
         VArr (take_rows (test_idx d) (transpose (y_data_of d)))).
Proof. reflexivity. Qed.

Lemma dataset_preparation_exec d s :
  globals s !! "x_data" = Some (VArr (x_data_of d)) →
  globals s !! "y_data" = Some (VArr (y_data_of d)) →
  exec (dataset_preparation d) s (after_dataset_preparation d s).
Proof.
  intros Hx Hy. unfold dataset_preparation, after_dataset_preparation, exec.
  rewrite run_bind.
  rewrite (run_op2 (train_test_split (draw_perm d)) _ _ s
             (VArr (transpose (x_data_of d))) (VArr (transpose (y_data_of d)))).
  2:{ eapply evals_op1; [apply evals_Var, Hx | reflexivity]. }
  2:{ eapply evals_op1; [apply evals_Var, Hy | reflexivity]. }
  rewrite train_test_split_100, run_lift_inr. simpl fst. simpl snd.
  do 4 (rewrite run_bind, run_store).
  rewrite (exec_bind_evals _ _ _ (VArr (x_train_of d)))
    by (eapply evals_op1; [apply evals_Var; lookup | reflexivity]).
  rewrite (exec_bind_evals _ _ _ (VArr (x_test_of d)))
    by (eapply evals_op1; [apply evals_Var; lookup | reflexivity]).
  rewrite (exec_bind_evals _ _ _ (VArr (y_train_of d)))
    by (eapply evals_op1; [apply evals_Var; lookup | reflexivity]).
  rewrite (exec_bind_evals _ _ _ (VArr (y_test_of d)))
    by (eapply evals_op1; [apply evals_Var; lookup | reflexivity]).
  do 3 (rewrite run_bind, run_store). rewrite run_store. reflexivity.
Qed.

Lemma hyperparameters_exec a s :
  globals s !! "x_train" = Some (VArr a) →
  exec hyperparameters s (after_hyperparameters (ncols a) s).
Proof.
  intros Hx. unfold hyperparameters, after_hyperparameters.
  do 3 (eapply exec_seq; [apply exec_Assign, evals_Const|]).
  apply exec_Assign. eapply evals_op2.
  - eapply evals_op1; [apply evals_Var; lookup | reflexivity].
  - apply evals_Var; lookup.
  - reflexivity.
Qed.

Lemma creating_batches_exec xt yt s :
  globals s !! "x_train" = Some (VArr xt) →
  globals s !! "y_train" = Some (VArr yt) →
  globals s !! "num_batches" = Some (VFloat (75 / 20)) →
  ncols xt = 75%nat → ncols yt = 75%nat →
  exec creating_batches s (after_creating_batches (thirds xt) (thirds yt) s).
Proof.
  intros Hx Hy Hn Hcx Hcy. unfold creating_batches, exec.
  rewrite (exec_bind_evals _ _ _ (VArrs (thirds xt))).
  2:{ eapply evals_op2; [apply evals_Var, Hx | apply evals_Var, Hn
                         | apply np_split_75, Hcx]. }
  rewrite (exec_bind_evals _ _ _ (VArrs (thirds yt))).
  2:{ eapply evals_op2; [apply evals_Var, Hy | apply evals_Var, Hn
                         | apply np_split_75, Hcy]. }
  rewrite run_bind, run_store. reflexivity.
Qed.

(** The state the cells before the training loop leave behind. *)
Definition after_linear_setup (d : draws) (s : state) : state :=
  after_creating_batches (thirds (x_train_of d)) (thirds (y_train_of d))
  (after_hyperparameters 75
  (after_dataset_preparation d
  (after_weights_init d
  (after_data_generation d s)))).

Lemma linear_setup_exec d s :
  valid_perm d → exec (linear_setup d) s (after_linear_setup d s).
Proof.
  intros Hp. unfold linear_setup, after_linear_setup.
  eapply exec_seq; [apply data_generation_exec|].
  eapply exec_seq; [apply weights_init_exec|].
  eapply exec_seq.
  { apply dataset_preparation_exec;
      unfold after_weights_init, after_data_generation; lookup. }
  assert (Hc : ncols (x_train_of d) = 75%nat) by apply (train_idx_length d Hp).
  eapply exec_seq.
  { apply (hyperparameters_exec (x_train_of d)).
    unfold after_dataset_preparation; lookup. }
  rewrite Hc. apply creating_batches_exec.
  - unfold after_hyperparameters, after_dataset_preparation; lookup.
  - unfold after_hyperparameters, after_dataset_preparation; lookup.
  - unfold after_hyperparameters. lookup.
  - exact Hc.
  - apply (train_idx_length d Hp).
Qed.

(** ** The linear experiment as a whole *)

(** What the training loop of the linear experiment reads. *)
Definition linear_config (d : draws) : config :=
  Config (B_of d) (thirds (x_train_of d)) (thirds (y_train_of d))
         (1 / 10) (x_train_of d).

Lemma linear_configured d s :
  configured (linear_config d) (after_linear_setup d s).
Proof.
  split; unfold after_linear_setup, after_creating_batches,
    after_hyperparameters, after_dataset_preparation, after_weights_init;
    lookup.
Qed.

Lemma linear_trains d :
  valid_perm d → trains (linear_config d) (W0_of d) (W_of d).
Proof.
  intros Hp. split; simpl.
  - reflexivity.
  - intros [|[|[|i]]] x yl Hx Hy; simpl in Hx, Hy;
      try discriminate; injection Hx as <-; injection Hy as <-;
      split; reflexivity.
  - reflexivity.
  - reflexivity.
  - change (length (train_idx d) ≠ O). rewrite (train_idx_length d Hp). discriminate.
Qed.

Lemma linear_setup_weights d s :
  globals (after_linear_setup d s) !! "W0" = Some (VArr (W0_of d)) ∧
  globals (after_linear_setup d s) !! "W" = Some (VArr (W_of d)) ∧
  globals (after_linear_setup d s) !! "num_epochs" = Some (VInt 1000) ∧
  stdout (after_linear_setup d s) = stdout s.
Proof.
  unfold after_linear_setup, after_creating_batches,
    after_hyperparameters, after_dataset_preparation, after_weights_init.
  repeat split; lookup.
Qed.

(** The weights at the start of epoch [n] of the linear experiment, and
    the loss epoch [n] accumulates. *)
Definition linear_weights (d : draws) (n : nat) : ndarray * ndarray :=
  weights_at (linear_config d) (W0_of d) (W_of d) n.

Definition linear_loss (d : draws) (n : nat) : val :=
  loss_at (linear_config d) (W0_of d) (W_of d) n.

Lemma linear_run_epochs d n :
  valid_perm d →
  ∃ s', exec (linear_setup d;; linear_epochs n) fresh s' ∧
        configured (linear_config d) s' ∧
        globals s' !! "W0" = Some (VArr (linear_weights d n).1) ∧
        globals s' !! "W" = Some (VArr (linear_weights d n).2) ∧
        stdout s' = reports (linear_config d) (W0_of d) (W_of d) n ∧
        ∀ k, n = S k →
             globals s' !! "loss" = Some (linear_loss d k) ∧
             globals s' !! "epoch" = Some (VInt (Z.of_nat k)) ∧
             globals s' !! "delta_W0"
             = Some (delta_W0_at (linear_config d) (W0_of d) (W_of d) k) ∧
             globals s' !! "delta_W"
             = Some (delta_W_at (linear_config d) (W0_of d) (W_of d) k).
Proof.
  intros Hp.
  destruct (linear_setup_weights d fresh) as (H1 & H2 & H3 & H4).
  destruct (linear_epochs_exec (linear_config d) (W0_of d) (W_of d)
              (after_linear_setup d fresh) (linear_configured d fresh)
              H1 H2 (linear_trains d Hp) n) as (s' & Hex & J1 & J2 & J3 & J4).
  exists s'. split; [|split; [|split; [|split; [|split]]]].
  - eapply exec_seq; [apply linear_setup_exec, Hp | exact Hex].
  - eapply linear_epochs_configured; [exact Hex | apply linear_configured].
  - exact J1.
  - exact J2.
  - rewrite J3, H4. reflexivity.
  - exact J4.
Qed.

(** ** One mini-batch of the non-linear training loop *)

(** The logistic function and [sigma] on an array. *)
Definition logistic (x : R) : R := 1 / (1 + exp (- x)).

Definition sigma_array (a : ndarray) : ndarray :=
  map_array (Rdiv 1) (map_array (Rplus 1) (map_array exp (map_array Ropp a))).

Lemma sigma_array_ok a : sigma (VArr a) = inr (VArr (sigma_array a)).
Proof. reflexivity. Qed.

Lemma sigma_array_ent a i j : ent (sigma_array a) i j = logistic (ent a i j).
Proof. reflexivity. Qed.

(** The batch as the loop body sees it after its first three lines: the
    images as rows of an array, the labels as one-hot columns. *)
Definition batch_data (t : tensor) : ndarray :=
  NdArray (numel t / 784) 784 (λ i j, tbuf t (i * 784 + j)%nat).

Definition one_hot (ks : list nat) : ndarray :=
  transpose (take_rows ks (np_eye 10)).

Definition ones (a : ndarray) : ndarray := full (nrows a) (ncols a) 1.

Definition times (a b : ndarray) : ndarray :=
  zip_array (nrows a) (ncols a) Rmult a b.

(** [a * (one_a - a)]: the derivative factor of the logistic function. *)
Definition deriv (a : ndarray) : ndarray :=
  times a (zip_array (nrows a) (ncols a) Rminus (ones a) a).

Definition nl_hidden (w0 x : ndarray) : ndarray :=
  sigma_array (mm w0 (transpose x)).
Definition nl_output (w0 w x : ndarray) : ndarray :=
  sigma_array (mm w (nl_hidden w0 x)).
Definition nl_error (w0 w x yl : ndarray) : ndarray :=
  zip_array (nrows yl) (ncols yl) Rminus yl (nl_output w0 w x).
Definition nl_term_W (w0 w x yl : ndarray) : ndarray :=
  mm (times (nl_error w0 w x yl) (deriv (nl_output w0 w x)))
     (transpose (nl_hidden w0 x)).
Definition nl_term_W0 (b w0 w x yl : ndarray) : ndarray :=
  mm (times (mm b (nl_error w0 w x yl)) (deriv (nl_hidden w0 x))) x.

(** The shapes of a network for images of 784 pixels and 10 classes. *)
Record fits2 (w0 w b : ndarray) : Prop := {
  fits2_w0 : ncols w0 = 784%nat;
  fits2_w : ncols w = nrows w0;
  fits2_out : nrows w = 10%nat;
  fits2_b : ncols b = 10%nat;
  fits2_b_w0 : nrows b = nrows w0
}.

(** A batch the loader can yield: whole images, and as many labels, each
    a class index. *)
Record good_batch (t : tensor) (ls : list Z) (ks : list nat) : Prop := {
  good_numel : (numel t mod 784 = 0)%nat;
  good_labels : py_indices 10 ls = Some ks;
  good_count : length ks = (numel t / 784)%nat
}.

Definition size_add (sz : val) (n : nat) : val :=
  match sz with
  | VInt z => VInt (z + Z.of_nat n)
  | _ => sz
  end.

Definition after_nonlinear_batch (b w0 w : ndarray) (t : tensor) (ls : list Z)
    (ks : list nat) (dW0 dW l sz : val) (s : state) : state :=
  let x := batch_data t in
  let yl := one_hot ks in
  rebind "size" (size_add sz (nrows x))
  (rebind "delta_W0" (acc_add dW0 (nl_term_W0 b w0 w x yl))
  (rebind "delta_W" (acc_add dW (nl_term_W w0 w x yl))
  (rebind "one_h" (VArr (ones (nl_hidden w0 x)))
  (rebind "one_y" (VArr (ones (nl_output w0 w x)))
  (rebind "delta_FA" (VArr (mm b (nl_error w0 w x yl)))
  (rebind "delta_BP" (VArr (mm (transpose w) (nl_error w0 w x yl)))
  (rebind "loss" (loss_add l (half_sq_norm (nl_error w0 w x yl)))
  (rebind "e" (VArr (nl_error w0 w x yl))
  (rebind "y" (VArr (nl_output w0 w x))
  (rebind "h" (VArr (nl_hidden w0 x))
  (rebind "training_labels" (VArr yl)
  (rebind "training_labels" (VIntVec ls)
  (rebind "training_labels" (VIntVec ls)
  (rebind "training_data" (VArr x)
  (rebind "training_labels" (VIntTensor ls)
  (rebind "training_data" (VTensor t) s)))))))))))))))).

Lemma py_mul_ok m n :
  nrows m = nrows n → ncols m = ncols n →
  py_mul (VArr m) (VArr n) = inr (VArr (times m n)).
Proof. apply py_arith_ok. Qed.

Lemma py_sub_ok m n :
  nrows m = nrows n → ncols m = ncols n →
  py_sub (VArr m) (VArr n)
  = inr (VArr (zip_array (nrows m) (ncols m) Rminus m n)).
Proof. apply py_arith_ok. Qed.

Lemma view_numpy_ok t :
  (numel t mod 784 = 0)%nat →
  view_numpy 784 (VTensor t) = inr (VArr (batch_data t)).
Proof. intros H. unfold view_numpy. rewrite H. reflexivity. Qed.

Lemma length_py_indices n ls ks :
  py_indices n ls = Some ks → length ks = length ls.
Proof.
  revert ks. induction ls as [|i ls IH]; intros ks H; simpl in H.
  - injection H as <-. reflexivity.
  - destruct (py_index n i); [|discriminate].
    destruct (py_indices n ls) as [ks'|]; [|discriminate].
    injection H as <-. simpl. rewrite (IH ks' eq_refl). reflexivity.
Qed.

Ltac ev_var := apply evals_Var; lookup.

(** The shapes of the arrays of a non-linear batch. *)
Lemma shape_mm a b : nrows (mm a b) = nrows a ∧ ncols (mm a b) = ncols b.
Proof. split; reflexivity. Qed.

Lemma shape_transpose a :
  nrows (transpose a) = ncols a ∧ ncols (transpose a) = nrows a.
Proof. split; reflexivity. Qed.

Lemma shape_sigma_array a :
  nrows (sigma_array a) = nrows a ∧ ncols (sigma_array a) = ncols a.
Proof. split; reflexivity. Qed.

Lemma shape_zip_array r c op a b :
  nrows (zip_array r c op a b) = r ∧ ncols (zip_array r c op a b) = c.
Proof. split; reflexivity. Qed.

Lemma shape_batch_data t :
  nrows (batch_data t) = (numel t / 784)%nat ∧ ncols (batch_data t) = 784%nat.
Proof. split; reflexivity. Qed.

Lemma shape_one_hot ks :
  nrows (one_hot ks) = 10%nat ∧ ncols (one_hot ks) = length ks.
Proof. split; reflexivity. Qed.

Lemma shape_ones a : nrows (ones a) = nrows a ∧ ncols (ones a) = ncols a.
Proof. split; reflexivity. Qed.

Lemma shape_times a b :
  nrows (times a b) = nrows a ∧ ncols (times a b) = ncols a.
Proof. split; reflexivity. Qed.

Lemma shape_deriv a : nrows (deriv a) = nrows a ∧ ncols (deriv a) = ncols a.
Proof. split; reflexivity. Qed.

Ltac shapes :=
  unfold nl_term_W0, nl_term_W, nl_error, nl_output, nl_hidden;
  repeat first
    [ rewrite (proj1 (shape_mm _ _)) | rewrite (proj2 (shape_mm _ _))
    | rewrite (proj1 (shape_transpose _)) | rewrite (proj2 (shape_transpose _))
    | rewrite (proj1 (shape_sigma_array _)) | rewrite (proj2 (shape_sigma_array _))
    | rewrite (proj1 (shape_zip_array _ _ _ _ _))
    | rewrite (proj2 (shape_zip_array _ _ _ _ _))
    | rewrite (proj1 (shape_batch_data _)) | rewrite (proj2 (shape_batch_data _))
    | rewrite (proj1 (shape_one_hot _)) | rewrite (proj2 (shape_one_hot _))
    | rewrite (proj1 (shape_ones _)) | rewrite (proj2 (shape_ones _))
    | rewrite (proj1 (shape_times _ _)) | rewrite (proj2 (shape_times _ _))
    | rewrite (proj1 (shape_deriv _)) | rewrite (proj2 (shape_deriv _)) ];
  lia.

Section NonlinearBatch.
Variables (s : state) (w0 w b : ndarray) (t : tensor) (ls : list Z).
Variables (ks : list nat) (dW0 dW l : val) (sz : Z).
Hypothesis HW0 : globals s !! "W0" = Some (VArr w0).
Hypothesis HW : globals s !! "W" = Some (VArr w).
Hypothesis HB : globals s !! "B" = Some (VArr b).
Hypothesis HdW0 : globals s !! "delta_W0" = Some dW0.
Hypothesis HdW : globals s !! "delta_W" = Some dW.
Hypothesis Hl : globals s !! "loss" = Some l.
Hypothesis Hsz : globals s !! "size" = Some (VInt sz).
Hypothesis Hfits : fits2 w0 w b.
Hypothesis Hgood : good_batch t ls ks.
Hypothesis HokW0 : acc_ok (nrows w0) (ncols w0) dW0.
Hypothesis HokW : acc_ok (nrows w) (ncols w) dW.
Hypothesis Hokl : loss_ok l.

Lemma nonlinear_batch_exec :
  exec (nonlinear_batch (VTensor t, VIntTensor ls)) s
       (after_nonlinear_batch b w0 w t ls ks dW0 dW l (VInt sz) s).
Proof using All.
  destruct Hfits as [F1 F2 F3 F4 F5]. destruct Hgood as [G1 G2 G3].
  unfold nonlinear_batch, after_nonlinear_batch. cbn [fst snd].
  do 2 (eapply exec_seq; [apply exec_store|]).
  unfold exec.
  rewrite (exec_bind_evals _ _ _ (VArr (batch_data t)))
    by (eapply evals_op1; [ev_var | apply view_numpy_ok, G1]).
  rewrite (exec_bind_evals _ _ _ (VIntVec ls))
    by (eapply evals_op1; [ev_var | reflexivity]).
  do 2 (eapply exec_seq; [apply exec_store|]).
  eapply exec_seq.
  { apply exec_Assign. eapply evals_op1; [ev_var | reflexivity]. }
  eapply exec_seq.
  { apply exec_Assign. eapply evals_op1.
    - eapply evals_op1; [ev_var | simpl; rewrite G2; reflexivity].
    - reflexivity. }
  fold (one_hot ks).
  (* h = sigma(W0 @ training_data.T) *)
  eapply exec_seq.
  { apply exec_Assign. eapply evals_op1; [|apply sigma_array_ok].
    eapply evals_op2;
      [ ev_var | eapply evals_op1; [ev_var | reflexivity]
      | apply matmul_ok; shapes ]. }
  (* y = sigma(W @ h) *)
  eapply exec_seq.
  { apply exec_Assign. eapply evals_op1; [|apply sigma_array_ok].
    eapply evals_op2; [ev_var | ev_var | apply matmul_ok; shapes]. }
  (* e = training_labels - y *)
  eapply exec_seq.
  { apply exec_Assign. eapply evals_op2;
      [ev_var | ev_var | apply py_sub_ok; shapes]. }
  (* loss += 0.5 * np.square(np.linalg.norm(e)) *)
  eapply exec_seq.
  { apply exec_Assign. eapply evals_op2; [ev_var | |].
    - eapply evals_op2; [apply evals_Const | |].
      + eapply evals_op1.
        * eapply evals_op1; [ev_var | reflexivity].
        * reflexivity.
      + reflexivity.
    - apply py_add_loss, Hokl. }
  (* delta_BP = W.T @ e ; delta_FA = B @ e *)
  eapply exec_seq.
  { apply exec_Assign. eapply evals_op2;
      [ eapply evals_op1; [ev_var | reflexivity] | ev_var
      | apply matmul_ok; shapes ]. }
  eapply exec_seq.
  { apply exec_Assign. eapply evals_op2;
      [ev_var | ev_var | apply matmul_ok; shapes]. }
  (* one_y, one_h = np.ones_like(y), np.ones_like(h) *)
  unfold exec.
  rewrite (exec_bind_evals _ _ _
             (VArr (ones (nl_output w0 w (batch_data t)))))
    by (eapply evals_op1; [ev_var | reflexivity]).
  rewrite (exec_bind_evals _ _ _
             (VArr (ones (nl_hidden w0 (batch_data t)))))
    by (eapply evals_op1; [ev_var | reflexivity]).
  do 2 (eapply exec_seq; [apply exec_store|]).
  (* delta_W = delta_W + (e * (y * (one_y - y))) @ h.T *)
  eapply exec_seq.
  { apply exec_Assign. eapply evals_op2; [ev_var | |].
    - eapply evals_op2.
      + eapply evals_op2; [ev_var | |].
        * eapply evals_op2; [ev_var | |].
          -- eapply evals_op2; [ev_var | ev_var | apply py_sub_ok; reflexivity].
          -- apply py_mul_ok; reflexivity.
        * apply py_mul_ok; shapes.
      + eapply evals_op1; [ev_var | reflexivity].
      + apply matmul_ok; shapes.
    - eapply py_add_acc; [exact HokW | shapes | shapes]. }
  (* delta_W0 = delta_W0 + (delta_FA * (h * (one_h - h))) @ training_data *)
  eapply exec_seq.
  { apply exec_Assign. eapply evals_op2; [ev_var | |].
    - eapply evals_op2.
      + eapply evals_op2; [ev_var | |].
        * eapply evals_op2; [ev_var | |].
          -- eapply evals_op2; [ev_var | ev_var | apply py_sub_ok; reflexivity].
          -- apply py_mul_ok; reflexivity.
        * apply py_mul_ok; shapes.
      + ev_var.
      + apply matmul_ok; shapes.
    - eapply py_add_acc; [exact HokW0 | shapes | shapes]. }
  (* size += training_data.shape[0] *)
  apply exec_Assign. eapply evals_op2;
    [ev_var | eapply evals_op1; [ev_var | reflexivity] | reflexivity].
Qed.
End NonlinearBatch.

(** ** Sums, and arrays whose entries are all zero *)

Lemma rsum_ext n f g : (∀ k, f k = g k) → rsum n f = rsum n g.
Proof.
  intros H. induction n as [|n IH]; simpl; [reflexivity|].
  rewrite IH, H. reflexivity.
Qed.

Lemma rsum_zero n f : (∀ k, f k = 0) → rsum n f = 0.
Proof.
  intros H. induction n as [|n IH]; simpl; [reflexivity|].
  rewrite IH, H. lra.
Qed.

Lemma rsum_nonneg n f : (∀ k, 0 <= f k) → 0 <= rsum n f.
Proof.
  intros H. induction n as [|n IH]; simpl; [lra|].
  specialize (H n). lra.
Qed.

Definition zero_array (a : ndarray) : Prop := ∀ i j, ent a i j = 0.

Lemma mm_zero_l a b : zero_array a → zero_array (mm a b).
Proof.
  intros Ha i j. simpl. apply rsum_zero. intros k. rewrite Ha. lra.
Qed.

Lemma mm_zero_r a b : zero_array b → zero_array (mm a b).
Proof.
  intros Hb i j. simpl. apply rsum_zero. intros k. rewrite Hb. lra.
Qed.

Lemma transpose_zero a : zero_array a → zero_array (transpose a).
Proof. intros Ha i j. apply Ha. Qed.

(** The error of a batch under zero output weights is the batch's labels,
    whatever the hidden weights are. *)
Lemma error_zero_ent w0 w x yl i j :
  zero_array w →
  ent (error w0 w x yl) i j = ent yl (bidx (nrows yl) i) (bidx (ncols yl) j).
Proof.
  intros Hw. unfold error, output. simpl.
  rewrite (rsum_zero _ _ (λ k, eq_trans (f_equal (λ t, t * _) (Hw _ k))
                                        (Rmult_0_l _))).
  lra.
Qed.

Lemma half_sq_norm_error_zero w0 w w0' w' x yl :
  zero_array w → zero_array w' →
  half_sq_norm (error w0 w x yl) = half_sq_norm (error w0' w' x yl).
Proof.
  intros Hw Hw'. unfold half_sq_norm.
  assert (E : sum_entries (λ t, t * t) (error w0 w x yl)
              = sum_entries (λ t, t * t) (error w0' w' x yl)).
  { unfold sum_entries. change (nrows (error w0 w x yl)) with (nrows yl).
    change (ncols (error w0 w x yl)) with (ncols yl).
    change (nrows (error w0' w' x yl)) with (nrows yl).
    change (ncols (error w0' w' x yl)) with (ncols yl).
    apply rsum_ext. intros i. apply rsum_ext. intros j.
    rewrite (error_zero_ent w0 w x yl i j Hw).
    rewrite (error_zero_ent w0' w' x yl i j Hw'). reflexivity. }
  rewrite E. reflexivity.
Qed.

Lemma half_sq_norm_nonneg e : 0 <= half_sq_norm e.
Proof.
  unfold half_sq_norm.
  pose proof (sqrt_pos (sum_entries (λ t, t * t) e)) as H.
  apply Rmult_le_pos; [lra|]. apply Rmult_le_pos; exact H.
Qed.

(** The loss an epoch accumulates, as a sum over its batches. *)
Definition loss_sum (w0 w : ndarray) (l : list (ndarray * ndarray)) (v : val)
    : val :=
  foldl (λ v xy, loss_add v (half_sq_norm (error w0 w xy.1 xy.2))) v l.

Lemma acc_loss_foldl b w0 w l a :
  acc_loss (foldl (batch_step b w0 w) a l) = loss_sum w0 w l (acc_loss a).
Proof.
  revert a. induction l as [|xy l IH]; intros a; simpl; [reflexivity|].
  rewrite IH. reflexivity.
Qed.

Lemma epoch_loss_sum c w0 w :
  epoch_loss c w0 w = loss_sum w0 w (batches c) (VInt 0).
Proof. unfold epoch_loss, epoch_accs, accumulate. apply acc_loss_foldl. Qed.

Lemma loss_sum_zero w0 w w0' w' l v :
  zero_array w → zero_array w' → loss_sum w0 w l v = loss_sum w0' w' l v.
Proof.
  intros Hw Hw'. revert v. induction l as [|xy l IH]; intros v; simpl;
    [reflexivity|].
  rewrite (half_sq_norm_error_zero w0 w w0' w' _ _ Hw Hw'). apply IH.
Qed.

(** An accumulator that holds nothing but zeros. *)
Definition zero_acc (a : val) : Prop :=
  a = VInt 0 ∨ ∃ m, a = VArr m ∧ zero_array m.

Lemma acc_add_zero a t : zero_acc a → zero_array t → zero_acc (acc_add a t).
Proof.
  intros [->|(m & -> & Hm)] Ht; right; eexists; (split; [reflexivity|]);
    intros i j; simpl; rewrite ?Hm, !Ht; lra.
Qed.

Lemma updated_zero w c a :
  zero_array w → zero_acc a → zero_array (updated w (scaled c a)).
Proof.
  intros Hw [->|(m & -> & Hm)] i j; simpl; rewrite ?Hm, !Hw; lra.
Qed.

Lemma acc_W_zero b w0 w l a :
  zero_array w0 → zero_acc (acc_W a) →
  zero_acc (acc_W (foldl (batch_step b w0 w) a l)).
Proof.
  intros Hw0. revert a. induction l as [|xy l IH]; intros a Ha; simpl;
    [exact Ha|].
  apply IH. simpl. apply acc_add_zero; [exact Ha|].
  unfold term_W. apply mm_zero_r, transpose_zero. unfold hidden.
  apply mm_zero_l, Hw0.
Qed.

Lemma next_W_zero c w0 w :
  zero_array w0 → zero_array w → zero_array (next_W c w0 w).
Proof.
  intros Hw0 Hw. unfold next_W. apply updated_zero; [exact Hw|].
  unfold epoch_accs, accumulate. apply acc_W_zero; [exact Hw0|].
  left. reflexivity.
Qed.

(** With all weights zero at the start, the second epoch accumulates the
    loss the first one did. *)
Lemma loss_at_zero c w0 w :
  zero_array w0 → zero_array w → loss_at c w0 w 1 = loss_at c w0 w 0.
Proof.
  intros Hw0 Hw. unfold loss_at. rewrite !epoch_loss_sum. simpl.
  apply loss_sum_zero; [apply next_W_zero; assumption | exact Hw].
Qed.

(** The weights keep their shape over the epochs. *)
Lemma weights_at_shape c w0 w n :
  nrows (weights_at c w0 w n).1 = nrows w0 ∧
  ncols (weights_at c w0 w n).1 = ncols w0 ∧
  nrows (weights_at c w0 w n).2 = nrows w ∧
  ncols (weights_at c w0 w n).2 = ncols w.
Proof.
  induction n as [|n (I1 & I2 & I3 & I4)]; [repeat split|].
  simpl weights_at. unfold next_W0, next_W.
  destruct (updated_shape (weights_at c w0 w n).1
              (scaled (rate c) (acc_W0 (epoch_accs c (weights_at c w0 w n).1
                                          (weights_at c w0 w n).2)))) as [U1 U2].
  destruct (updated_shape (weights_at c w0 w n).2
              (scaled (rate c) (acc_W (epoch_accs c (weights_at c w0 w n).1
                                          (weights_at c w0 w n).2)))) as [U3 U4].
  cbn [fst snd]. repeat split; congruence.
Qed.

(** * The claims *)

(** Draws that the generators can return: every uniform draw inside its
    interval, and a permutation for the shuffle. *)
Definition drawn_in_range (d : draws) : Prop :=
  (∀ i j, -1 <= draw_T d i j <= 1) ∧
  (∀ i j, - (1 / 100) <= draw_W0 d i j < 1 / 100) ∧
  (∀ i, - (1 / 100) <= draw_b0 d i < 1 / 100) ∧
  (∀ i j, - (1 / 100) <= draw_W d i j < 1 / 100) ∧
  (∀ i, - (1 / 100) <= draw_b d i < 1 / 100) ∧
  (∀ i j, - (1 / 2) <= draw_B d i j < 1 / 2) ∧
  valid_perm d.

(** A run in which both weight matrices are drawn as zero. *)
Definition zero_weight_draws : draws :=
  Draws (λ _ _, 1 / 2) (λ _ _, 1) (λ _ _, 0) (λ _, 0) (λ _ _, 0) (λ _, 0)
        (λ _ _, 1 / 4) (seq 0 100).

Lemma zero_weight_draws_in_range : drawn_in_range zero_weight_draws.
Proof.
  unfold drawn_in_range, zero_weight_draws, valid_perm; cbn [draw_T draw_W0
    draw_b0 draw_W draw_b draw_B draw_perm].
  repeat split; intros; try lra. reflexivity.
Qed.

Lemma zero_weight_draws_valid : valid_perm zero_weight_draws.
Proof. apply zero_weight_draws_in_range. Qed.

(** The value of [loss] when epoch [n] of the linear experiment ends. *)
Definition loss_of_epoch (d : draws) (n : nat) : option val :=
  globals (final (run (linear_setup d;; linear_epochs (S n)) fresh)) !! "loss".

Lemma loss_of_epoch_eq d n :
  valid_perm d → loss_of_epoch d n = Some (linear_loss d n).
Proof.
  intros Hp. destruct (linear_run_epochs d (S n) Hp) as (s' & Hex & _ & _ & _ & _ & H).
  unfold loss_of_epoch. unfold exec in Hex. rewrite Hex. simpl.
  apply (H n eq_refl).
Qed.

(** The loss of epoch [n + 1] is less than the loss of epoch [n]. *)
Definition loss_decreases (d : draws) (n : nat) : Prop :=
  ∃ l l', loss_of_epoch d n = Some (VFloat l) ∧
          loss_of_epoch d (S n) = Some (VFloat l') ∧ l' < l.

Lemma linear_loss_float d n :
  ∃ l, linear_loss d n = VFloat l ∧ 0 <= l ∧
       l = 0
           + half_sq_norm (error (linear_weights d n).1 (linear_weights d n).2
               (slice_cols 0 25 (x_train_of d)) (slice_cols 0 25 (y_train_of d)))
           + half_sq_norm (error (linear_weights d n).1 (linear_weights d n).2
               (slice_cols 25 50 (x_train_of d)) (slice_cols 25 50 (y_train_of d)))
           + half_sq_norm (error (linear_weights d n).1 (linear_weights d n).2
               (slice_cols 50 75 (x_train_of d)) (slice_cols 50 75 (y_train_of d))).
Proof.
  eexists. split; [|split; [|reflexivity]].
  - unfold linear_loss, loss_at. rewrite epoch_loss_sum. reflexivity.
  - pose proof (half_sq_norm_nonneg (error (linear_weights d n).1 (linear_weights d n).2
               (slice_cols 0 25 (x_train_of d)) (slice_cols 0 25 (y_train_of d)))).
    pose proof (half_sq_norm_nonneg (error (linear_weights d n).1 (linear_weights d n).2
               (slice_cols 25 50 (x_train_of d)) (slice_cols 25 50 (y_train_of d)))).
    pose proof (half_sq_norm_nonneg (error (linear_weights d n).1 (linear_weights d n).2
               (slice_cols 50 75 (x_train_of d)) (slice_cols 50 75 (y_train_of d)))).
    lra.
Qed.




Lemma rsum_sum_f_R0 n f : rsum (S n) f = sum_f_R0 f n.
Proof.
  induction n as [|n IH].
  - simpl. lra.
  - change (rsum (S (S n)) f) with (rsum (S n) f + f (S n)). rewrite IH.
    reflexivity.
Qed.

(** Every entry of [y] is the sum over [k < 30] of [T[i, k] * x[k, j]]. *)
Definition target_of (d : draws) (x y : ndarray) : Prop :=
  ncols y = ncols x ∧
  ∀ i j, ent y i j = sum_f_R0 (λ k, draw_T d i k * ent x k j) 29.

Lemma target_of_data d : target_of d (x_data_of d) (y_data_of d).
Proof.
  split; [reflexivity|]. intros i j. rewrite <- rsum_sum_f_R0. reflexivity.
Qed.

Lemma target_of_train d : target_of d (x_train_of d) (y_train_of d).
Proof.
  split; [reflexivity|]. intros i j. rewrite <- rsum_sum_f_R0. reflexivity.
Qed.

Lemma target_of_test d : target_of d (x_test_of d) (y_test_of d).
Proof.
  split; [reflexivity|]. intros i j. rewrite <- rsum_sum_f_R0. reflexivity.
Qed.

Lemma target_of_slice d st en x y :
  target_of d x y → target_of d (slice_cols st en x) (slice_cols st en y).
Proof. intros [Hc He]. split; [reflexivity|]. intros i j. apply He. Qed.

(** C3: the data-generation cell returns with [T] bound to the drawn
    10 x 30 array, [x_data] to the drawn 30 x 100 array and [y_data] to a
    10 x 100 array whose entry [(i, j)] is the sum over [k] of
    [T[i, k] * x_data[k, j]]: column [j] of [y_data] is [T] applied to
    column [j] of [x_data].  After the cells up to the batching (with a
    permutation for the shuffle) the names [x_train], [y_train], [x_test],
    [y_test] and the batches in [x_train_batches], [y_train_batches] are
    bound to arrays that stand in the same relation: 75 training pairs,
    25 test pairs, three batches of pairs, each label the image under [T]
    of its input, and each pair a column pair of [x_data], [y_data]. *)
Theorem labels_are_target_of_inputs (d : draws) (s : state) :
  (∃ s1 x y,
     run (data_generation d) s = Ok tt s1 ∧
     globals s1 !! "T" = Some (VArr (NdArray 10 30 (draw_T d))) ∧
     globals s1 !! "x_data" = Some (VArr x) ∧
     globals s1 !! "y_data" = Some (VArr y) ∧
     nrows x = 30%nat ∧ ncols x = 100%nat ∧
     nrows y = 10%nat ∧ ncols y = 100%nat ∧
     (∀ i j, ent x i j = draw_x d i j) ∧
     (∀ i j, ent y i j = sum_f_R0 (λ k, draw_T d i k * ent x k j) 29) ∧
     (∀ j, matmul (VArr (NdArray 10 30 (draw_T d))) (VArr (column j x))
           = inr (VArr (column j y)))) ∧
  (valid_perm d →
   ∃ s2 xt yt xe ye,
     run (linear_setup d) s = Ok tt s2 ∧
     globals s2 !! "T" = Some (VArr (NdArray 10 30 (draw_T d))) ∧
     globals s2 !! "x_data" = Some (VArr (x_data_of d)) ∧
     globals s2 !! "y_data" = Some (VArr (y_data_of d)) ∧
     globals s2 !! "x_train" = Some (VArr xt) ∧
     globals s2 !! "y_train" = Some (VArr yt) ∧
     globals s2 !! "x_test" = Some (VArr xe) ∧
     globals s2 !! "y_test" = Some (VArr ye) ∧
     globals s2 !! "x_train_batches" = Some (VArrs (thirds xt)) ∧
     globals s2 !! "y_train_batches" = Some (VArrs (thirds yt)) ∧
     ncols xt = 75%nat ∧ ncols xe = 25%nat ∧
     target_of d xt yt ∧ target_of d xe ye ∧
     Forall2 (target_of d) (thirds xt) (thirds yt) ∧
     (∀ j, (j < 75)%nat →
           ∃ c, c = nth j (train_idx d) O ∧
                (∀ i, ent xt i j = draw_x d i c) ∧
                (∀ i, ent yt i j = ent (y_data_of d) i c)) ∧
     (∀ j, (j < 25)%nat →
           ∃ c, c = nth j (test_idx d) O ∧
                (∀ i, ent xe i j = draw_x d i c) ∧
                (∀ i, ent ye i j = ent (y_data_of d) i c))).
Proof.
  split.
  - exists (after_data_generation d s), (x_data_of d), (y_data_of d).
    split; [apply data_generation_exec|].
    unfold after_data_generation.
    split; [lookup|]. split; [lookup|]. split; [lookup|].
    split; [reflexivity|]. split; [reflexivity|].
    split; [reflexivity|]. split; [reflexivity|].
    split; [intros i j; reflexivity|].
    split; [apply target_of_data|]. intros j. reflexivity.
  - intros Hp.
    exists (after_linear_setup d s), (x_train_of d), (y_train_of d),
           (x_test_of d), (y_test_of d).
    split; [apply linear_setup_exec, Hp|].
    unfold after_linear_setup, after_creating_batches, after_hyperparameters,
      after_dataset_preparation, after_weights_init, after_data_generation.
    split; [lookup|]. split; [lookup|]. split; [lookup|].
    split; [lookup|]. split; [lookup|]. split; [lookup|]. split; [lookup|].
    split; [lookup|]. split; [lookup|].
    split; [apply (train_idx_length d Hp)|].
    split; [apply (test_idx_length d Hp)|].
    split; [apply target_of_train|]. split; [apply target_of_test|].
    split.
    { unfold thirds. repeat constructor;
        apply target_of_slice; apply target_of_train. }
    split; intros j Hj; eexists; (split; [reflexivity|]);
      split; intros i; reflexivity.
Qed.

Lemma labels_are_target_of_inputs_witness :
  valid_perm zero_weight_draws ∧
  ∃ s2 xt yt,
    run (linear_setup zero_weight_draws) fresh = Ok tt s2 ∧
    globals s2 !! "x_train" = Some (VArr xt) ∧
    globals s2 !! "y_train" = Some (VArr yt) ∧
    target_of zero_weight_draws xt yt.
Proof.
  split; [apply zero_weight_draws_valid|].
  destruct (proj2 (labels_are_target_of_inputs zero_weight_draws fresh)
              zero_weight_draws_valid)
    as (s2 & xt & yt & xe & ye & H1 & _ & _ & _ & H2 & H3 & _ & _ & _ & _ & _
        & _ & H4 & _).
  exists s2, xt, yt. repeat split; try assumption; apply H4.
Defined.

(** The cells of the linear experiment after the one that draws [T]. *)
Definition after_T (d : draws) : M unit :=
  weights_init d;; dataset_preparation d;; hyperparameters;;
  creating_batches;; linear_training;; linear_test.

Lemma preserves_T_weights_init d : preserves "T" (weights_init d).
Proof. unfold weights_init, uniform2, uniform1. solve_preserves. Qed.

Lemma preserves_T_dataset_preparation d : preserves "T" (dataset_preparation d).
Proof. unfold dataset_preparation. solve_preserves. Qed.

Lemma preserves_T_hyperparameters : preserves "T" hyperparameters.
Proof. unfold hyperparameters. solve_preserves. Qed.

Lemma preserves_T_creating_batches : preserves "T" creating_batches.
Proof. unfold creating_batches. solve_preserves. Qed.

Lemma preserves_T_linear_epochs n : preserves "T" (linear_epochs n).
Proof. apply preserves_linear_epochs. not_in_list. Qed.

Lemma preserves_T_linear_training : preserves "T" linear_training.
Proof.
  unfold linear_training. apply preserves_bind; [solve_preserves|].
  intros n. apply preserves_T_linear_epochs.
Qed.

Lemma preserves_T_linear_test : preserves "T" linear_test.
Proof. unfold linear_test. solve_preserves. Qed.

(** C4: no cell of the linear experiment after the one that draws [T]
    rebinds [T] (the weight initialisation, the train/test split, the
    hyperparameters, the batching, any number of epochs of the training
    loop, the whole training cell, the test cell), whether it returns or
    raises; so after the whole experiment [T] is still the drawn array. *)
Theorem target_matrix_unchanged (d : draws) :
  preserves "T" (weights_init d) ∧
  preserves "T" (dataset_preparation d) ∧
  preserves "T" hyperparameters ∧
  preserves "T" creating_batches ∧
  (∀ n, preserves "T" (linear_epochs n)) ∧
  preserves "T" linear_training ∧
  preserves "T" linear_test ∧
  ∀ s, globals (final (run (linear_experiment d) s)) !! "T"
       = Some (VArr (T_of d)).
Proof.
  repeat split;
    [ apply preserves_T_weights_init | apply preserves_T_dataset_preparation
    | apply preserves_T_hyperparameters | apply preserves_T_creating_batches
    | apply preserves_T_linear_epochs | apply preserves_T_linear_training
    | apply preserves_T_linear_test | ].
  intros s.
  assert (Hrest : preserves "T" (after_T d)).
  { unfold after_T.
    apply preserves_bind; [apply preserves_T_weights_init | intros _].
    apply preserves_bind; [apply preserves_T_dataset_preparation | intros _].
    apply preserves_bind; [apply preserves_T_hyperparameters | intros _].
    apply preserves_bind; [apply preserves_T_creating_batches | intros _].
    apply preserves_bind; [apply preserves_T_linear_training | intros _].
    apply preserves_T_linear_test. }
  assert (E : run (linear_experiment d) s
              = run (after_T d) (after_data_generation d s)).
  { transitivity (run (data_generation d;; after_T d) s).
    - unfold linear_experiment, linear_setup, after_T.
      rewrite run_bind_assoc. apply run_bind_ext. intros _ s1.
      rewrite run_bind_assoc. apply run_bind_ext. intros _ s2.
      rewrite run_bind_assoc. apply run_bind_ext. intros _ s3.
      rewrite run_bind_assoc. reflexivity.
    - rewrite run_bind.
      pose proof (data_generation_exec d s) as H. unfold exec in H. rewrite H.
      reflexivity. }
  rewrite E, Hrest. unfold after_data_generation. lookup.
Qed.

Lemma hstack_thirds a :
  ncols a = 75%nat → same_array (hstack (nrows a) (thirds a)) a.
Proof.
  intros Hc. unfold same_array. simpl. repeat split.
  - symmetry. exact Hc.
  - intros i j _ Hj.
    destruct (Nat.ltb_spec j 25); [reflexivity|].
    destruct (Nat.ltb_spec (j - 25) 25); [f_equal; lia|].
    destruct (Nat.ltb_spec (j - 25 - 25) 25); [f_equal; lia|].
    lia.
Qed.

Lemma not_an_integer_375 z : 75 / 20 ≠ IZR z.
Proof.
  intros H. destruct (Z_lt_le_dec z 4) as [Hz|Hz].
  - assert (z <= 3)%Z as Hz' by lia. apply IZR_le in Hz'. lra.
  - apply IZR_le in Hz. lra.
Qed.

(** C6: for every run of the cells before the training loop (with a
    permutation for the shuffle) the split cell returns: the training set
    has 75 columns, [num_batches] is [75 / 20 = 3.75], which is no integer,
    [np.split] accepts it and returns exactly three batches of 25 columns,
    which put side by side in order are [x_train]; no batch has the 20
    columns of [batch_size]. *)
Theorem batch_split_is_three_of_25 (d : draws) :
  valid_perm d →
  exec (linear_setup d) fresh (after_linear_setup d fresh) ∧
  globals (after_linear_setup d fresh) !! "x_train" = Some (VArr (x_train_of d)) ∧
  ncols (x_train_of d) = 75%nat ∧
  globals (after_linear_setup d fresh) !! "batch_size" = Some (VInt 20) ∧
  globals (after_linear_setup d fresh) !! "num_batches" = Some (VFloat (75 / 20)) ∧
  (∀ z, 75 / 20 ≠ IZR z) ∧
  np_split (VArr (x_train_of d)) (VFloat (75 / 20))
  = inr (VArrs (thirds (x_train_of d))) ∧
  globals (after_linear_setup d fresh) !! "x_train_batches"
  = Some (VArrs (thirds (x_train_of d))) ∧
  length (thirds (x_train_of d)) = 3%nat ∧
  Forall (λ b, ncols b = 25%nat) (thirds (x_train_of d)) ∧
  Forall (λ b, ncols b ≠ 20%nat) (thirds (x_train_of d)) ∧
  same_array (hstack (nrows (x_train_of d)) (thirds (x_train_of d)))
             (x_train_of d).
Proof.
  intros Hp.
  assert (Hc : ncols (x_train_of d) = 75%nat) by apply (train_idx_length d Hp).
  split; [apply linear_setup_exec, Hp|].
  unfold after_linear_setup, after_creating_batches, after_hyperparameters,
    after_dataset_preparation.
  split; [lookup|]. split; [exact Hc|]. split; [lookup|]. split; [lookup|].
  split; [apply not_an_integer_375|].
  split; [apply np_split_75, Hc|]. split; [lookup|]. split; [reflexivity|].
  split; [repeat constructor|].
  split; [repeat constructor; simpl; discriminate|].
  apply hstack_thirds, Hc.
Qed.

Lemma batch_split_is_three_of_25_witness :
  valid_perm zero_weight_draws ∧
  np_split (VArr (x_train_of zero_weight_draws)) (VFloat (75 / 20))
  = inr (VArrs (thirds (x_train_of zero_weight_draws))).
Proof.
  split; [apply zero_weight_draws_valid|].
  apply (batch_split_is_three_of_25 zero_weight_draws zero_weight_draws_valid).
Defined.

(** ** The training cell and the test cell of the linear experiment *)

(** How many of the first [n] epochs print a report. *)
Fixpoint reported (n : nat) : nat :=
  match n with
  | O => O
  | S k => (reported k + if (Z.of_nat k mod 100 =? 0)%Z then 1 else 0)%nat
  end.

Lemma length_reports c w0 w n :
  length (reports c w0 w n) = (2 * reported n)%nat.
Proof.
  induction n as [|n IH]; [reflexivity|].
  simpl reports. simpl reported. rewrite length_app, IH. unfold report.
  destruct (Z.of_nat n mod 100 =? 0)%Z; simpl; lia.
Qed.

Definition after_linear_test (w0 w xt yt : ndarray) (s : state) : state :=
  rebind "test_error" (VFloat (half_sq_norm (error w0 w xt yt)))
  (rebind "e" (VArr (error w0 w xt yt))
  (rebind "y" (VArr (output w0 w xt))
  (rebind "h" (VArr (hidden w0 xt)) s))).

Lemma linear_test_exec s w0 w xt yt :
  globals s !! "W0" = Some (VArr w0) →
  globals s !! "W" = Some (VArr w) →
  globals s !! "x_test" = Some (VArr xt) →
  globals s !! "y_test" = Some (VArr yt) →
  ncols w0 = nrows xt → ncols w = nrows w0 →
  nrows yt = nrows w → ncols yt = ncols xt →
  exec linear_test s (after_linear_test w0 w xt yt s).
Proof.
  intros HW0 HW Hx Hy F1 F2 F3 F4. unfold linear_test, after_linear_test.
  eapply exec_seq.
  { apply exec_Assign. eapply evals_op2; [ev_var | ev_var | apply matmul_ok, F1]. }
  eapply exec_seq.
  { apply exec_Assign. eapply evals_op2; [ev_var | ev_var | apply matmul_ok, F2]. }
  eapply exec_seq.
  { apply exec_Assign. eapply evals_op2;
      [ev_var | ev_var | apply py_sub_ok; simpl; congruence]. }
  apply exec_Assign. eapply evals_op2; [apply evals_Const | |].
  - eapply evals_op1.
    + eapply evals_op1; [ev_var | reflexivity].
    + reflexivity.
  - reflexivity.
Qed.

Lemma linear_setup_test d s :
  globals (after_linear_setup d s) !! "x_test" = Some (VArr (x_test_of d)) ∧
  globals (after_linear_setup d s) !! "y_test" = Some (VArr (y_test_of d)).
Proof.
  unfold after_linear_setup, after_creating_batches, after_hyperparameters,
    after_dataset_preparation.
  split; lookup.
Qed.

Lemma linear_epochs_keeps_test n s s1 :
  exec (linear_epochs n) s s1 →
  globals s1 !! "x_test" = globals s !! "x_test" ∧
  globals s1 !! "y_test" = globals s !! "y_test".
Proof.
  intros Hex. split.
  - apply (exec_preserves "x_test" _ _ _
             (preserves_linear_epochs "x_test" n ltac:(not_in_list)) Hex).
  - apply (exec_preserves "y_test" _ _ _
             (preserves_linear_epochs "y_test" n ltac:(not_in_list)) Hex).
Qed.

(** The cells before the loop, [n] epochs and the test cell return, for
    every draw. *)
Lemma linear_epochs_then_test d n :
  valid_perm d →
  ∃ s1,
    exec (linear_epochs n) (after_linear_setup d fresh) s1 ∧
    exec linear_test s1
      (after_linear_test (linear_weights d n).1 (linear_weights d n).2
         (x_test_of d) (y_test_of d) s1) ∧
    globals s1 !! "W0" = Some (VArr (linear_weights d n).1) ∧
    globals s1 !! "W" = Some (VArr (linear_weights d n).2) ∧
    stdout s1 = reports (linear_config d) (W0_of d) (W_of d) n ∧
    ∀ k, n = S k → globals s1 !! "epoch" = Some (VInt (Z.of_nat k)).
Proof.
  intros Hp.
  destruct (linear_run_epochs d n Hp) as (s1 & Hex & Hconf & J1 & J2 & J3 & J4).
  pose proof (linear_setup_exec d fresh Hp) as Hset.
  assert (Hex1 : exec (linear_epochs n) (after_linear_setup d fresh) s1).
  { unfold exec in Hex. rewrite run_bind in Hex. unfold exec in Hset.
    rewrite Hset in Hex. exact Hex. }
  destruct (weights_at_shape (linear_config d) (W0_of d) (W_of d) n)
    as (S1 & S2 & S3 & S4).
  destruct (linear_epochs_keeps_test n _ _ Hex1) as [K1 K2].
  destruct (linear_setup_test d fresh) as [T1 T2].
  exists s1. split; [exact Hex1|]. split; [|split; [exact J1|split; [exact J2|]]].
  - apply linear_test_exec.
    + exact J1.
    + exact J2.
    + rewrite K1. exact T1.
    + rewrite K2. exact T2.
    + unfold linear_weights. rewrite S2. reflexivity.
    + unfold linear_weights. rewrite S4, S1. reflexivity.
    + unfold linear_weights. rewrite S3. reflexivity.
    + reflexivity.
  - split; [exact J3|]. intros k Hk. apply (J4 k Hk).
Qed.

Lemma reported_1000 : reported 1000 = 10%nat.
Proof. vm_compute. reflexivity. Qed.

Lemma linear_training_is_1000_epochs s :
  globals s !! "num_epochs" = Some (VInt 1000) →
  run linear_training s = run (linear_epochs 1000) s.
Proof.
  intros H. unfold linear_training. rewrite run_bind.
  rewrite (run_op1 py_range _ _ (VInt 1000)) by (apply evals_Var, H).
  reflexivity.
Qed.

(** C7: for every draw (with a permutation for the shuffle) the linear
    experiment returns.  With [num_epochs = 1000] the training cell is the
    loop [for epoch in range(1000)] over the body of an epoch and nothing
    else; it returns with [epoch] bound to 999, with the weights that 1000
    epoch steps lead to, and having printed the ten reports of the epochs
    0, 100, ..., 900; then the test cell returns too. *)
Theorem linear_training_terminates (d : draws) :
  valid_perm d →
  ∃ s1 s2,
    run (linear_setup d) fresh = Ok tt (after_linear_setup d fresh) ∧
    run linear_training (after_linear_setup d fresh)
    = run (for_range "epoch" 1000 linear_epoch) (after_linear_setup d fresh) ∧
    run linear_training (after_linear_setup d fresh) = Ok tt s1 ∧
    run (linear_experiment d) fresh = Ok tt s2 ∧
    globals s1 !! "epoch" = Some (VInt 999) ∧
    globals s1 !! "W0" = Some (VArr (linear_weights d 1000).1) ∧
    globals s1 !! "W" = Some (VArr (linear_weights d 1000).2) ∧
    length (stdout s1) = 20%nat.
Proof.
  intros Hp.
  destruct (linear_epochs_then_test d 1000 Hp)
    as (s1 & Hex & Htest & J1 & J2 & J3 & J4).
  pose proof (linear_setup_exec d fresh Hp) as Hset.
  pose proof (linear_training_is_1000_epochs (after_linear_setup d fresh)
                (proj1 (proj2 (proj2 (linear_setup_weights d fresh))))) as Htr.
  exists s1. eexists.
  split; [exact Hset|]. split; [exact Htr|].
  split; [rewrite Htr; exact Hex|]. split.
  - unfold linear_experiment. rewrite run_bind, Hset, run_bind, Htr.
    unfold exec in Hex. rewrite Hex. exact Htest.
  - split; [apply (J4 999%nat eq_refl)|]. split; [exact J1|]. split; [exact J2|].
    rewrite J3, length_reports, reported_1000. reflexivity.
Qed.

Lemma linear_training_terminates_witness :
  valid_perm zero_weight_draws ∧
  ∃ s, run (linear_experiment zero_weight_draws) fresh = Ok tt s.
Proof.
  split; [apply zero_weight_draws_valid|].
  destruct (linear_training_terminates zero_weight_draws zero_weight_draws_valid)
    as (s1 & s2 & _ & _ & _ & H & _).
  exists s2. exact H.
Defined.

(** ** Entries of products, sums and broadcast operations *)

Lemma bidx_lt n i : (i < n)%nat → bidx n i = i.
Proof.
  intros H. unfold bidx. destruct (Nat.eqb_spec n 1) as [->|_]; [lia|reflexivity].
Qed.

Lemma zip_array_ent r c op a b i j :
  (i < nrows a)%nat → (j < ncols a)%nat → (i < nrows b)%nat → (j < ncols b)%nat →
  ent (zip_array r c op a b) i j = op (ent a i j) (ent b i j).
Proof.
  intros Ha1 Ha2 Hb1 Hb2. simpl. rewrite !bidx_lt by assumption. reflexivity.
Qed.

Lemma sum_f_R0_ext f g n :
  (∀ k, (k <= n)%nat → f k = g k) → sum_f_R0 f n = sum_f_R0 g n.
Proof.
  intros H. induction n as [|n IH]; simpl; [apply H; lia|].
  rewrite IH, H by (intros; try apply H; lia). reflexivity.
Qed.

Lemma mm_ent a b p i j :
  ncols a = S p → ent (mm a b) i j = sum_f_R0 (λ k, ent a i k * ent b k j) p.
Proof. intros H. simpl. rewrite H. apply rsum_sum_f_R0. Qed.

(** ** The stages of one linear epoch *)

(** The three assignments that open an epoch, and the batch loop. *)
Definition linear_epoch_head : M unit :=
  store "delta_W0" (VInt 0);; store "delta_W" (VInt 0);; store "loss" (VInt 0);;
  linear_batches.

Lemma preserves_linear_batches x :
  x ∉ ["i"; "training_data"; "training_labels"; "h"; "y"; "e"; "loss";
       "delta_BP"; "delta_FA"; "delta_W"; "delta_W0"] →
  preserves x linear_batches.
Proof.
  intros Hx. unfold linear_batches. apply preserves_bind; [solve_preserves|].
  intros n. apply preserves_linear_batch_loop, Hx.
Qed.

Lemma preserves_linear_report x : preserves x linear_report.
Proof.
  unfold linear_report. apply preserves_If; [solve_preserves|].
  apply preserves_bind; [|intros _]; apply preserves_Print, preserves_Var.
Qed.

Section LinearEpochStages.
Variables (c : config) (w0 w : ndarray) (s : state).
Hypothesis Hconf : configured c s.
Hypothesis HW0 : globals s !! "W0" = Some (VArr w0).
Hypothesis HW : globals s !! "W" = Some (VArr w).
Hypothesis Htrains : trains c w0 w.

Lemma linear_epoch_stages :
  ∃ s2, exec linear_epoch_head s s2 ∧
        globals s2 !! "W0" = Some (VArr w0) ∧
        globals s2 !! "W" = Some (VArr w) ∧
        globals s2 !! "delta_W0" = Some (acc_W0 (epoch_accs c w0 w)) ∧
        globals s2 !! "delta_W" = Some (acc_W (epoch_accs c w0 w)) ∧
        globals s2 !! "loss" = Some (epoch_loss c w0 w) ∧
        exec linear_update s2
          (rebind "W0" (VArr (next_W0 c w0 w))
             (rebind "W" (VArr (next_W c w0 w)) s2)).
Proof using All.
  set (s1 := rebind "loss" (VInt 0) (rebind "delta_W" (VInt 0)
               (rebind "delta_W0" (VInt 0) s))).
  destruct Hconf as [C1 C2 C3 C4 C5].
  assert (Hconf1 : configured c s1) by (split; unfold s1; lookup).
  destruct (linear_batch_loop_exec c w0 w s1) with (k := length (cfg_xs c))
    as (s2 & Hex2 & Hout2 & A1 & A2 & A3);
    [ exact Hconf1 | unfold s1; lookup | unfold s1; lookup | exact Htrains
    | unfold s1; lookup | unfold s1; lookup | unfold s1; lookup | lia |].
  rewrite take_batches in A1, A2, A3. fold (epoch_accs c w0 w) in A1, A2, A3.
  assert (Hb : exec linear_batches s1 s2).
  { unfold linear_batches, exec. rewrite run_bind.
    rewrite (run_op1 py_len _ s1 (VArrs (cfg_xs c)))
      by (apply evals_Var; unfold s1; lookup).
    simpl py_len. rewrite run_lift_inr. exact Hex2. }
  assert (Hfr : ∀ y v, y ∉ ["i"; "training_data"; "training_labels"; "h";
                 "y"; "e"; "loss"; "delta_BP"; "delta_FA"; "delta_W";
                 "delta_W0"] → globals s !! y = Some v →
               globals s2 !! y = Some v).
  { intros y v Hy Hv.
    rewrite (exec_preserves y _ s1 s2 (preserves_linear_batches y Hy) Hb).
    rewrite !not_elem_of_cons in Hy. unfold s1.
    rewrite !lookup_rebind_ne by (intros <-; tauto). exact Hv. }
  pose proof (accumulate_ok c w0 w (length (cfg_xs c)) Htrains) as (O1 & O2 & _).
  rewrite take_batches in O1, O2. fold (epoch_accs c w0 w) in O1, O2.
  rewrite (trains_B c w0 w Htrains) in O1.
  rewrite <- (trains_W c w0 w Htrains) in O2.
  assert (H0 : globals s2 !! "W0" = Some (VArr w0))
    by (apply Hfr; [not_in_list | exact HW0]).
  assert (H1 : globals s2 !! "W" = Some (VArr w))
    by (apply Hfr; [not_in_list | exact HW]).
  exists s2. split; [|split; [exact H0|split; [exact H1|split; [exact A1|
                      split; [exact A2|split; [exact A3|]]]]]].
  - unfold linear_epoch_head.
    do 3 (eapply exec_seq; [apply exec_store|]). exact Hb.
  - apply (linear_update_exec c w0 w (acc_W0 (epoch_accs c w0 w))
             (acc_W (epoch_accs c w0 w)) s2); try assumption.
    + split; apply Hfr; solve [not_in_list | assumption].
    + exact (trains_cols c w0 w Htrains).
Qed.
End LinearEpochStages.

Lemma linear_rate d : valid_perm d → rate (linear_config d) = 1 / 10 / 75.
Proof.
  intros Hp. unfold rate. cbn [cfg_eta cfg_xtrain linear_config].
  change (ncols (x_train_of d)) with (length (train_idx d)).
  rewrite (train_idx_length d Hp). reflexivity.
Qed.

Lemma linear_deltas_are_arrays d n :
  ∃ m0 m, delta_W0_at (linear_config d) (W0_of d) (W_of d) n = VArr m0 ∧
          delta_W_at (linear_config d) (W0_of d) (W_of d) n = VArr m ∧
          nrows m0 = 20%nat ∧ ncols m0 = 30%nat ∧
          nrows m = 10%nat ∧ ncols m = 20%nat.
Proof.
  eexists. eexists. split; [reflexivity|]. split; [reflexivity|].
  split; [reflexivity|]. split; [reflexivity|]. split; [reflexivity|].
  cbn [ncols zip_array].
  apply (weights_at_shape (linear_config d) (W0_of d) (W_of d) n).
Qed.



(** ** The feedback matrix *)

(** [B @ e @ x.T] for batch [x] with labels [yl] in epoch [n] of the linear
    experiment, where [e = yl - W @ (W0 @ x)] under the weights the epoch
    started with. *)
Definition feedback_term (d : draws) (n : nat) (x yl : ndarray) : ndarray :=
  mm (mm (B_of d)
         (error (linear_weights d n).1 (linear_weights d n).2 x yl))
     (transpose x).

(** The term backpropagation would add instead: [W.T @ e @ x.T]. *)
Definition backprop_term (w0 w x yl : ndarray) : ndarray :=
  mm (mm (transpose w) (error w0 w x yl)) (transpose x).

(** The cells of the linear experiment after the one that draws [B], and
    the cells of the non-linear experiment after the one that draws its
    [B]. *)
Definition after_B (d : draws) : M unit :=
  dataset_preparation d;; hyperparameters;; creating_batches;;
  linear_training;; linear_test.

Definition after_B2 (w : datasets) (shuffles : nat → list nat) : M unit :=
  make_loaders w;; nonlinear_training shuffles.

Lemma preserves_B_after_B d : preserves "B" (after_B d).
Proof.
  unfold after_B, dataset_preparation, hyperparameters, creating_batches,
    linear_training, linear_epochs, linear_epoch, linear_batches,
    linear_update, linear_report, linear_batch, linear_test.
  solve_preserves.
Qed.

Lemma preserves_B_after_B2 w shuffles : preserves "B" (after_B2 w shuffles).
Proof.
  unfold after_B2, make_loaders, nonlinear_training, nonlinear_epochs,
    nonlinear_epoch, nonlinear_batches, nonlinear_update, nonlinear_report,
    nonlinear_batch.
  solve_preserves.
Qed.

Lemma linear_experiment_B d s :
  globals (final (run (linear_experiment d) s)) !! "B" = Some (VArr (B_of d)).
Proof.
  assert (E : run (linear_experiment d) s
              = run (after_B d) (after_weights_init d (after_data_generation d s))).
  { transitivity (run (data_generation d;; weights_init d;; after_B d) s).
    - unfold linear_experiment, linear_setup, after_B.
      rewrite run_bind_assoc. apply run_bind_ext. intros _ s1.
      rewrite run_bind_assoc. apply run_bind_ext. intros _ s2.
      rewrite run_bind_assoc. apply run_bind_ext. intros _ s3.
      rewrite run_bind_assoc. reflexivity.
    - rewrite run_bind.
      pose proof (data_generation_exec d s) as H. unfold exec in H. rewrite H.
      rewrite run_bind.
      pose proof (weights_init_exec d (after_data_generation d s)) as H'.
      unfold exec in H'. rewrite H'. reflexivity. }
  rewrite E, (preserves_B_after_B d). unfold after_weights_init. lookup.
Qed.

Definition after_hyperparameters2 (s : state) : state :=
  rebind "num_batches" (VFloat (60000 / 20))
  (rebind "batch_size" (VInt 20)
  (rebind "num_epochs" (VInt 1000)
  (rebind "eta" (VFloat (1 / 10)) s))).

Definition after_weights_init2 (d : draws) (s : state) : state :=
  rebind "B" (VArr (NdArray 1000 10 (draw_B d)))
  (rebind "a" (VFloat (1 / 2))
  (rebind "b" (VVec (Vec 10 (draw_b d)))
  (rebind "W" (VArr (NdArray 10 1000 (draw_W d)))
  (rebind "b0" (VVec (Vec 1000 (draw_b0 d)))
  (rebind "W0" (VArr (NdArray 1000 784 (draw_W0 d)))
  (rebind "a" (VFloat (1 / 10)) s)))))).

Lemma hyperparameters2_exec s :
  exec hyperparameters2 s (after_hyperparameters2 s).
Proof.
  unfold hyperparameters2, after_hyperparameters2.
  do 3 (eapply exec_seq; [apply exec_Assign, evals_Const|]).
  apply exec_Assign. eapply evals_op2; [apply evals_Const | ev_var | reflexivity].
Qed.

Lemma weights_init2_exec d s :
  exec (weights_init2 d) s (after_weights_init2 d s).
Proof.
  unfold weights_init2, after_weights_init2.
  eapply exec_seq; [apply exec_Assign, evals_Const|].
  eapply exec_seq.
  { apply exec_Assign. eapply evals_uniform2; [eval_bounds | ev_var]. }
  eapply exec_seq.
  { apply exec_Assign. eapply evals_uniform1; [eval_bounds | ev_var]. }
  eapply exec_seq.
  { apply exec_Assign. eapply evals_uniform2; [eval_bounds | ev_var]. }
  eapply exec_seq.
  { apply exec_Assign. eapply evals_uniform1; [eval_bounds | ev_var]. }
  eapply exec_seq; [apply exec_Assign, evals_Const|].
  apply exec_Assign. eapply evals_uniform2; [eval_bounds | ev_var].
Qed.

Lemma nonlinear_experiment_B w d shuffles s :
  globals (final (run (nonlinear_experiment w d shuffles) s)) !! "B"
  = Some (VArr (NdArray 1000 10 (draw_B d))).
Proof.
  assert (E : run (nonlinear_experiment w d shuffles) s
              = run (after_B2 w shuffles)
                    (after_weights_init2 d (after_hyperparameters2 s))).
  { transitivity (run (hyperparameters2;; weights_init2 d;; after_B2 w shuffles) s).
    - unfold nonlinear_experiment, nonlinear_setup, after_B2.
      rewrite run_bind_assoc. apply run_bind_ext. intros _ s1.
      rewrite run_bind_assoc. reflexivity.
    - rewrite run_bind.
      pose proof (hyperparameters2_exec s) as H. unfold exec in H. rewrite H.
      rewrite run_bind.
      pose proof (weights_init2_exec d (after_hyperparameters2 s)) as H'.
      unfold exec in H'. rewrite H'. reflexivity. }
  rewrite E, (preserves_B_after_B2 w shuffles). unfold after_weights_init2.
  lookup.
Qed.

(** The entries of [B @ e @ x.T] for a batch [x] of 25 columns and an
    error [e] of 10 rows and 25 columns. *)
Lemma feedback_term_ent d n x yl i j :
  ncols yl = 25%nat →
  ent (feedback_term d n x yl) i j
  = sum_f_R0 (λ k,
      sum_f_R0 (λ a, draw_B d i a
                     * ent (error (linear_weights d n).1 (linear_weights d n).2
                              x yl) a k) 9
      * ent x j k) 24.
Proof.
  intros Hc. unfold feedback_term.
  rewrite (mm_ent _ _ 24) by exact Hc.
  apply sum_f_R0_ext. intros k _.
  rewrite (mm_ent (B_of d) _ 9) by reflexivity. reflexivity.
Qed.

(** The sum of three terms accumulated from the integer [0]. *)
Definition sum3 (t1 t2 t3 : ndarray) : val :=
  acc_add (acc_add (acc_add (VInt 0) t1) t2) t3.

Definition sum3_array (t1 t2 t3 : ndarray) : ndarray :=
  zip_array (nrows t1) (ncols t1) Rplus
    (zip_array (nrows t1) (ncols t1) Rplus (map_array (Rplus 0) t1) t2) t3.

Lemma sum3_is_array t1 t2 t3 : sum3 t1 t2 t3 = VArr (sum3_array t1 t2 t3).
Proof. reflexivity. Qed.

Lemma sum3_array_ent t1 t2 t3 r c i j :
  nrows t1 = r → ncols t1 = c → nrows t2 = r → ncols t2 = c →
  nrows t3 = r → ncols t3 = c → (i < r)%nat → (j < c)%nat →
  ent (sum3_array t1 t2 t3) i j = 0 + ent t1 i j + ent t2 i j + ent t3 i j.
Proof.
  intros H1 H1' H2 H2' H3 H3' Hi Hj. unfold sum3_array.
  rewrite zip_array_ent by (cbn [nrows ncols zip_array]; lia).
  rewrite zip_array_ent by (cbn [nrows ncols map_array]; lia).
  reflexivity.
Qed.

(** The accumulated [delta_W0] of an epoch of the linear experiment is the
    sum of the feedback terms of the three batches. *)
Lemma linear_delta_W0 d n :
  delta_W0_at (linear_config d) (W0_of d) (W_of d) n
  = sum3 (feedback_term d n (slice_cols 0 25 (x_train_of d))
                            (slice_cols 0 25 (y_train_of d)))
         (feedback_term d n (slice_cols 25 50 (x_train_of d))
                            (slice_cols 25 50 (y_train_of d)))
         (feedback_term d n (slice_cols 50 75 (x_train_of d))
                            (slice_cols 50 75 (y_train_of d))).
Proof. reflexivity. Qed.

(** A state in which the body of the non-linear mini-batch loop can run:
    the weights, the feedback matrix and the accumulators are bound, and
    their shapes fit images of 784 pixels and 10 classes. *)
Record nonlinear_ready (s : state) (w0 w b : ndarray) (dW0 dW l : val)
    (sz : Z) : Prop := {
  ready_W0 : globals s !! "W0" = Some (VArr w0);
  ready_W : globals s !! "W" = Some (VArr w);
  ready_B : globals s !! "B" = Some (VArr b);
  ready_dW0 : globals s !! "delta_W0" = Some dW0;
  ready_dW : globals s !! "delta_W" = Some dW;
  ready_loss : globals s !! "loss" = Some l;
  ready_size : globals s !! "size" = Some (VInt sz);
  ready_fits : fits2 w0 w b;
  ready_okW0 : acc_ok (nrows w0) (ncols w0) dW0;
  ready_okW : acc_ok (nrows w) (ncols w) dW;
  ready_okl : loss_ok l
}.

Lemma nonlinear_batch_ready_exec s w0 w b dW0 dW l sz t ls ks :
  nonlinear_ready s w0 w b dW0 dW l sz → good_batch t ls ks →
  exec (nonlinear_batch (VTensor t, VIntTensor ls)) s
       (after_nonlinear_batch b w0 w t ls ks dW0 dW l (VInt sz) s).
Proof.
  intros [] Hg. apply nonlinear_batch_exec; assumption.
Qed.

(** The entries of [(delta_FA * (h * (one_h - h))) @ training_data]. *)
Lemma nl_term_W0_ent b w0 w x yl p i j :
  fits2 w0 w b → nrows yl = 10%nat → ncols yl = nrows x → nrows x = S p →
  (i < nrows w0)%nat →
  ent (nl_term_W0 b w0 w x yl) i j
  = sum_f_R0 (λ k,
      (sum_f_R0 (λ a, ent b i a * ent (nl_error w0 w x yl) a k) 9
       * (ent (nl_hidden w0 x) i k * (1 - ent (nl_hidden w0 x) i k)))
      * ent x k j) p.
Proof.
  intros [F1 F2 F3 F4 F5] Hy1 Hy2 Hx Hi. unfold nl_term_W0.
  rewrite (mm_ent _ _ p) by (rewrite (proj2 (shape_times _ _)),
                               (proj2 (shape_mm _ _)); unfold nl_error;
                             rewrite (proj2 (shape_zip_array _ _ _ _ _)); lia).
  apply sum_f_R0_ext. intros k Hk.
  f_equal. unfold times, deriv, times.
  rewrite zip_array_ent;
    [ | rewrite (proj1 (shape_mm _ _)); lia
      | rewrite (proj2 (shape_mm _ _)); unfold nl_error;
        rewrite (proj2 (shape_zip_array _ _ _ _ _)); lia
      | rewrite (proj1 (shape_zip_array _ _ _ _ _)); exact Hi
      | rewrite (proj2 (shape_zip_array _ _ _ _ _)); cbn [nl_hidden sigma_array
          map_array mm transpose ncols]; lia ].
  rewrite (mm_ent b _ 9) by exact F4.
  rewrite zip_array_ent;
    [ | exact Hi | cbn [nl_hidden sigma_array map_array mm transpose ncols]; lia
      | rewrite (proj1 (shape_zip_array _ _ _ _ _)); exact Hi
      | rewrite (proj2 (shape_zip_array _ _ _ _ _)); cbn [nl_hidden sigma_array
          map_array mm transpose ncols]; lia ].
  rewrite zip_array_ent;
    [ | exact Hi | cbn [nl_hidden sigma_array map_array mm transpose ncols ones
                        full]; lia
      | exact Hi | cbn [nl_hidden sigma_array map_array mm transpose ncols]; lia ].
  reflexivity.
Qed.

(** A network of one input, one hidden and one output unit on which the
    feedback term and the term of backpropagation differ. *)
Definition one_by_one (v : R) : ndarray := NdArray 1 1 (λ _ _, v).

Lemma feedback_is_not_backprop :
  fits (one_by_one 1) (one_by_one 0) (one_by_one 1) (one_by_one 1) (one_by_one 1) ∧
  ent (term_W0 (one_by_one 1) (one_by_one 1) (one_by_one 0) (one_by_one 1)
         (one_by_one 1)) 0 0 = 1 ∧
  ent (backprop_term (one_by_one 1) (one_by_one 0) (one_by_one 1)
         (one_by_one 1)) 0 0 = 0.
Proof.
  split; [split; reflexivity|].
  unfold term_W0, backprop_term, error, output, hidden, one_by_one.
  simpl. split; lra.
Qed.


(** A state of the non-linear experiment at the start of a mini-batch loop,
    and a batch of one blank image of class 3. *)
Definition nonlinear_start (d : draws) : state :=
  rebind "size" (VInt 0) (rebind "loss" (VInt 0)
  (rebind "delta_W" (VInt 0) (rebind "delta_W0" (VInt 0)
  (after_weights_init2 d (after_hyperparameters2 fresh))))).

Definition blank_image : tensor := Tensor [1; 1; 28; 28]%nat (λ _, 0).

Lemma nonlinear_start_ready d :
  nonlinear_ready (nonlinear_start d)
    (NdArray 1000 784 (draw_W0 d)) (NdArray 10 1000 (draw_W d))
    (NdArray 1000 10 (draw_B d)) (VInt 0) (VInt 0) (VInt 0) 0.
Proof.
  split; unfold nonlinear_start, after_weights_init2, after_hyperparameters2;
    try lookup.
  - split; reflexivity.
  - left; reflexivity.
  - left; reflexivity.
  - left; reflexivity.
Qed.

Lemma blank_image_good : good_batch blank_image [3%Z] [3%nat].
Proof. split; reflexivity. Qed.


(** ** Exceptions *)

Lemma for_each_raise {A} (l1 l2 : list A) a body s s1 e sf :
  exec (for_each l1 body) s s1 → run (body a) s1 = Raise e sf →
  run (for_each (l1 ++ a :: l2) body) s = Raise e sf.
Proof.
  intros H1 H2. rewrite for_each_app, run_bind. unfold exec in H1. rewrite H1.
  simpl for_each. rewrite run_bind, H2. reflexivity.
Qed.

Lemma seq_split k n :
  (k < n)%nat → seq 0 n = seq 0 k ++ k :: seq (S k) (n - S k).
Proof.
  intros H. replace n with (k + S (n - S k))%nat at 1 by lia.
  rewrite seq_app. reflexivity.
Qed.

Lemma for_range_raise x n k body s sk e sf :
  (k < n)%nat → exec (for_range x k body) s sk →
  run body (rebind x (VInt (Z.of_nat k)) sk) = Raise e sf →
  run (for_range x n body) s = Raise e sf.
Proof.
  intros Hk H1 H2. unfold for_range. rewrite (seq_split k n Hk).
  eapply for_each_raise; [exact H1|]. rewrite run_bind, run_store. exact H2.
Qed.

Lemma nonlinear_epochs_raise shuffles n k s sk e sf :
  (k < n)%nat → exec (nonlinear_epochs shuffles k) s sk →
  run (nonlinear_epoch (shuffles k)) (rebind "epoch" (VInt (Z.of_nat k)) sk)
  = Raise e sf →
  run (nonlinear_epochs shuffles n) s = Raise e sf.
Proof.
  intros Hk H1 H2. unfold nonlinear_epochs. rewrite (seq_split k n Hk).
  eapply for_each_raise; [exact H1|]. rewrite run_bind, run_store. exact H2.
Qed.

Lemma run_Var_unbound x s :
  globals s !! x = None → run (Var x) s = Raise NameError s.
Proof. unfold run, Var. intros ->. reflexivity. Qed.

(** The state in which the first epoch of the linear training loop stops
    when no cell before it was run. *)
Definition stopped_at_first_epoch : state :=
  rebind "loss" (VInt 0) (rebind "delta_W" (VInt 0) (rebind "delta_W0" (VInt 0)
    (rebind "epoch" (VInt 0) fresh))).

Lemma first_epoch_on_fresh_kernel :
  run linear_epoch (rebind "epoch" (VInt (Z.of_nat 0)) fresh)
  = Raise NameError stopped_at_first_epoch.
Proof.
  unfold linear_epoch.
  do 3 (rewrite run_bind, run_store).
  rewrite run_bind. unfold linear_batches. rewrite run_bind. unfold op1.
  rewrite run_bind, run_Var_unbound; [reflexivity|].
  rewrite !lookup_rebind_ne by discriminate. apply lookup_empty.
Qed.



(** ** The bias vectors *)

(** Two runs whose draws differ at most in the entries of [b0] and [b]. *)
Definition same_but_bias (d1 d2 : draws) : Prop :=
  draw_T d1 = draw_T d2 ∧ draw_x d1 = draw_x d2 ∧ draw_W0 d1 = draw_W0 d2 ∧
  draw_W d1 = draw_W d2 ∧ draw_B d1 = draw_B d2 ∧ draw_perm d1 = draw_perm d2.

Lemma related_uniform1 lo hi n f1 f2 :
  blind lo → blind hi →
  related (λ _ _, True) (uniform1 lo hi n f1) (uniform1 lo hi n f2).
Proof.
  intros Hlo Hhi. unfold uniform1.
  apply (related_bind eq); [exact Hlo|]. intros a b _.
  apply (related_bind eq); [exact Hhi|]. intros a' b' _.
  intros s1 s2 Hs. simpl. split; [exact I | exact Hs].
Qed.

Lemma related_Assign_bias x e1 e2 :
  bias x → related (λ _ _, True) e1 e2 → related eq (Assign x e1) (Assign x e2).
Proof.
  intros Hx He. unfold Assign. apply (related_bind (λ _ _, True)); [exact He|].
  intros a b _. apply related_store_bias, Hx.
Qed.

Lemma related_seq (m1 m2 k1 k2 : M unit) :
  related eq m1 m2 → related eq k1 k2 → related eq (m1;; k1) (m2;; k2).
Proof. intros H1 H2. apply (related_bind eq); [exact H1|]. intros; exact H2. Qed.

Lemma blind_bounds : blind (Neg (Var "a")) ∧ blind (Var "a").
Proof. split; solve_blind. Qed.

Ltac as_blind :=
  lazymatch goal with
  | |- related eq ?m ?m => change (blind m)
  end.

Lemma related_weights_init d1 d2 :
  same_but_bias d1 d2 → related eq (weights_init d1) (weights_init d2).
Proof.
  intros (E1 & E2 & E3 & E4 & E5 & E6). unfold weights_init.
  rewrite E3, E4, E5. destruct blind_bounds as [Hn Ha].
  apply related_seq; [as_blind; solve_blind|].
  apply related_seq; [as_blind; unfold uniform2; solve_blind|].
  apply related_seq;
    [apply related_Assign_bias; [left; reflexivity | apply related_uniform1; assumption]|].
  apply related_seq; [as_blind; unfold uniform2; solve_blind|].
  apply related_seq;
    [apply related_Assign_bias; [right; reflexivity | apply related_uniform1; assumption]|].
  apply related_seq; [as_blind; solve_blind|].
  as_blind; unfold uniform2; solve_blind.
Qed.

Lemma related_weights_init2 d1 d2 :
  same_but_bias d1 d2 → related eq (weights_init2 d1) (weights_init2 d2).
Proof.
  intros (E1 & E2 & E3 & E4 & E5 & E6). unfold weights_init2.
  rewrite E3, E4, E5. destruct blind_bounds as [Hn Ha].
  apply related_seq; [as_blind; solve_blind|].
  apply related_seq; [as_blind; unfold uniform2; solve_blind|].
  apply related_seq;
    [apply related_Assign_bias; [left; reflexivity | apply related_uniform1; assumption]|].
  apply related_seq; [as_blind; unfold uniform2; solve_blind|].
  apply related_seq;
    [apply related_Assign_bias; [right; reflexivity | apply related_uniform1; assumption]|].
  apply related_seq; [as_blind; solve_blind|].
  as_blind; unfold uniform2; solve_blind.
Qed.

Lemma blind_data_generation d : blind (data_generation d).
Proof. unfold data_generation, uniform2. solve_blind. Qed.

Lemma blind_dataset_preparation d : blind (dataset_preparation d).
Proof. unfold dataset_preparation. solve_blind. Qed.

Lemma blind_hyperparameters : blind hyperparameters.
Proof. unfold hyperparameters. solve_blind. Qed.

Lemma blind_creating_batches : blind creating_batches.
Proof. unfold creating_batches. solve_blind. Qed.

Lemma blind_linear_epoch : blind linear_epoch.
Proof.
  unfold linear_epoch, linear_batches, linear_update, linear_report,
    linear_batch.
  solve_blind.
Qed.

Lemma blind_linear_epochs n : blind (linear_epochs n).
Proof. apply blind_for_range, blind_linear_epoch. Qed.

Lemma blind_linear_training : blind linear_training.
Proof.
  unfold linear_training. apply blind_bind; [solve_blind|].
  intros n. apply blind_linear_epochs.
Qed.

Lemma blind_linear_test : blind linear_test.
Proof. unfold linear_test. solve_blind. Qed.

Lemma blind_hyperparameters2 : blind hyperparameters2.
Proof. unfold hyperparameters2. solve_blind. Qed.

Lemma blind_make_loaders w : blind (make_loaders w).
Proof. unfold make_loaders. solve_blind. Qed.

Lemma blind_nonlinear_epochs shuffles n : blind (nonlinear_epochs shuffles n).
Proof.
  unfold nonlinear_epochs, nonlinear_epoch, nonlinear_batches,
    nonlinear_update, nonlinear_report, nonlinear_batch.
  solve_blind.
Qed.

Lemma blind_nonlinear_training shuffles : blind (nonlinear_training shuffles).
Proof.
  unfold nonlinear_training. apply blind_bind; [solve_blind|].
  intros n. apply blind_nonlinear_epochs.
Qed.

Lemma related_linear_setup d1 d2 :
  same_but_bias d1 d2 → related eq (linear_setup d1) (linear_setup d2).
Proof.
  intros H. pose proof H as (E1 & E2 & E3 & E4 & E5 & E6). unfold linear_setup.
  apply related_seq.
  { unfold data_generation. rewrite E1, E2. apply blind_data_generation. }
  apply related_seq; [apply related_weights_init, H|].
  apply related_seq.
  { unfold dataset_preparation. rewrite E6. apply blind_dataset_preparation. }
  apply related_seq; [apply blind_hyperparameters | apply blind_creating_batches].
Qed.

Lemma related_nonlinear_setup w d1 d2 :
  same_but_bias d1 d2 →
  related eq (nonlinear_setup w d1) (nonlinear_setup w d2).
Proof.
  intros H. unfold nonlinear_setup.
  apply related_seq; [apply blind_hyperparameters2|].
  apply related_seq; [apply related_weights_init2, H | apply blind_make_loaders].
Qed.

Lemma similar_final {A} (Q : A → A → Prop) (o1 o2 : outcome A) :
  similar Q o1 o2 → agree (final o1) (final o2).
Proof.
  destruct o1, o2; simpl; intros H; try contradiction; apply H.
Qed.

(** The kind of an outcome: returned, or raised which exception. *)
Definition raised {A : Type} (o : outcome A) : option exn :=
  match o with
  | Ok _ _ => None
  | Raise e _ => Some e
  end.

Lemma similar_raised {A} (Q : A → A → Prop) (o1 o2 : outcome A) :
  similar Q o1 o2 → raised o1 = raised o2.
Proof.
  destruct o1, o2; simpl; intros H; try contradiction; [reflexivity|].
  destruct H as [-> _]. reflexivity.
Qed.

(** C9: the bias vectors are never read.  For two runs whose draws differ
    at most in [b0] and [b], started in kernel states that differ at most
    in what [b0] and [b] are bound to, the linear experiment, any number
    of its epochs, the non-linear experiment and any number of its epochs
    end the same way (both return, or both raise the same exception), have
    printed the same lines (the losses among them) and leave every name
    other than [b0] and [b] (the weights, the activations [h] and [y], the
    errors, the accumulators, [loss], [test_error]) bound to the same
    value. *)
Theorem biases_have_no_effect (d1 d2 : draws) :
  same_but_bias d1 d2 →
  related eq (linear_experiment d1) (linear_experiment d2) ∧
  (∀ n, related eq (linear_setup d1;; linear_epochs n)
                   (linear_setup d2;; linear_epochs n)) ∧
  (∀ w shuffles, related eq (nonlinear_experiment w d1 shuffles)
                            (nonlinear_experiment w d2 shuffles)) ∧
  (∀ w shuffles n,
     related eq (nonlinear_setup w d1;; nonlinear_epochs shuffles n)
                (nonlinear_setup w d2;; nonlinear_epochs shuffles n)) ∧
  (let o1 := run (linear_experiment d1) fresh in
   let o2 := run (linear_experiment d2) fresh in
   raised o1 = raised o2 ∧ stdout (final o1) = stdout (final o2) ∧
   ∀ x, x ≠ "b0" → x ≠ "b" →
        globals (final o1) !! x = globals (final o2) !! x) ∧
  (∀ n,
   let o1 := run (linear_setup d1;; linear_epochs n) fresh in
   let o2 := run (linear_setup d2;; linear_epochs n) fresh in
   raised o1 = raised o2 ∧ stdout (final o1) = stdout (final o2) ∧
   ∀ x, x ≠ "b0" → x ≠ "b" →
        globals (final o1) !! x = globals (final o2) !! x) ∧
  (∀ w shuffles n,
   let o1 := run (nonlinear_setup w d1;; nonlinear_epochs shuffles n) fresh in
   let o2 := run (nonlinear_setup w d2;; nonlinear_epochs shuffles n) fresh in
   raised o1 = raised o2 ∧ stdout (final o1) = stdout (final o2) ∧
   ∀ x, x ≠ "b0" → x ≠ "b" →
        globals (final o1) !! x = globals (final o2) !! x).
Proof.
  intros H.
  assert (R1 : related eq (linear_experiment d1) (linear_experiment d2)).
  { unfold linear_experiment.
    apply related_seq; [apply related_linear_setup, H|].
    apply related_seq; [apply blind_linear_training | apply blind_linear_test]. }
  assert (R2 : ∀ n, related eq (linear_setup d1;; linear_epochs n)
                               (linear_setup d2;; linear_epochs n)).
  { intros n. apply related_seq;
      [apply related_linear_setup, H | apply blind_linear_epochs]. }
  assert (R3 : ∀ w sh, related eq (nonlinear_experiment w d1 sh)
                                  (nonlinear_experiment w d2 sh)).
  { intros w sh. unfold nonlinear_experiment. apply related_seq;
      [apply related_nonlinear_setup, H | apply blind_nonlinear_training]. }
  assert (R4 : ∀ w sh n,
             related eq (nonlinear_setup w d1;; nonlinear_epochs sh n)
                        (nonlinear_setup w d2;; nonlinear_epochs sh n)).
  { intros w sh n. apply related_seq;
      [apply related_nonlinear_setup, H | apply blind_nonlinear_epochs]. }
  assert (F : ∀ (m1 m2 : M unit), related eq m1 m2 →
              raised (run m1 fresh) = raised (run m2 fresh) ∧
              stdout (final (run m1 fresh)) = stdout (final (run m2 fresh)) ∧
              ∀ x, x ≠ "b0" → x ≠ "b" →
                   globals (final (run m1 fresh)) !! x
                   = globals (final (run m2 fresh)) !! x).
  { intros m1 m2 Hr. specialize (Hr fresh fresh (agree_refl fresh)).
    split; [apply (similar_raised _ _ _ Hr)|].
    destruct (similar_final _ _ _ Hr) as [Ho Hg].
    split; [exact Ho|]. intros x Hx0 Hx. apply Hg. intros [->| ->]; congruence. }
  split; [exact R1|]. split; [exact R2|]. split; [exact R3|]. split; [exact R4|].
  split; [apply F, R1|]. split; [intros n; apply F, R2|].
  intros w sh n. apply F, R4.
Qed.

(** The zero-weight run with other bias vectors. *)
Definition other_bias_draws : draws :=
  Draws (λ _ _, 1 / 2) (λ _ _, 1) (λ _ _, 0) (λ _, 1 / 200) (λ _ _, 0)
        (λ _, - (1 / 200)) (λ _ _, 1 / 4) (seq 0 100).

Lemma biases_have_no_effect_witness :
  same_but_bias zero_weight_draws other_bias_draws ∧
  globals (final (run (linear_experiment zero_weight_draws) fresh)) !! "test_error"
  = globals (final (run (linear_experiment other_bias_draws) fresh)) !! "test_error".
Proof.
  assert (H : same_but_bias zero_weight_draws other_bias_draws)
    by (repeat split; reflexivity).
  split; [exact H|].
  destruct (biases_have_no_effect zero_weight_draws other_bias_draws H)
    as (_ & _ & _ & _ & (_ & _ & Hg) & _).
  apply Hg; discriminate.
Defined.

(** ** The logistic function *)

Lemma logistic_bounds x : 0 < 1 + exp (- x) ∧ 0 < logistic x < 1.
Proof.
  pose proof (exp_pos (- x)) as He. unfold logistic.
  split; [lra|]. split.
  - apply Rdiv_lt_0_compat; lra.
  - apply (Rmult_lt_reg_r (1 + exp (- x))); [lra|].
    unfold Rdiv. rewrite Rmult_assoc, Rinv_l by lra. lra.
Qed.

Lemma logistic_deriv_pos x : 0 < logistic x * (1 - logistic x).
Proof.
  destruct (logistic_bounds x) as (_ & H0 & H1).
  apply Rmult_lt_0_compat; lra.
Qed.

Lemma sigma_float x : sigma (VFloat x) = inr (VFloat (logistic x)).
Proof.
  unfold sigma. simpl.
  destruct (Req_dec_T (1 + exp (- x)) 0) as [E|_]; [|reflexivity].
  pose proof (exp_pos (- x)). lra.
Qed.

Lemma deriv_ent a i j :
  (i < nrows a)%nat → (j < ncols a)%nat →
  ent (deriv a) i j = ent a i j * (1 - ent a i j).
Proof.
  intros Hi Hj. unfold deriv, times.
  rewrite zip_array_ent by (cbn [nrows ncols zip_array]; assumption).
  rewrite zip_array_ent by (cbn [nrows ncols ones full]; assumption).
  reflexivity.
Qed.

(** ** [sigma] in binary64

    [np.exp] on a float64, where the exact value cannot be represented:
    below [-746] the exponential is less than half the smallest positive
    float64 and the result is [0.0]; from [710] on it exceeds the largest
    float64 and the result is [inf].  In between the rounded value is not
    modelled. *)
Definition np_exp64 (y : float) : option float :=
  if (y <=? -746)%float then Some 0%float
  else if (710 <=? y)%float then Some infinity
  else None.

(** [1 / (1 + np.exp(-x))] in float64 arithmetic. *)
Definition sigma64 (x : float) : option float :=
  match np_exp64 (- x)%float with
  | Some e => Some (1 / (1 + e))%float
  | None => None
  end.




(** * Further properties of the cells *)

(** ** [np.split] with an integer number of sections *)

Lemma section_sizes_even total parts :
  (total mod parts = 0)%nat →
  section_sizes total parts = repeat (total / parts)%nat parts.
Proof.
  intros H. unfold section_sizes. rewrite H. simpl. f_equal. lia.
Qed.

Lemma cut_cols_repeat a sz n st :
  length (cut_cols st (repeat sz n) a) = n ∧
  Forall (λ p, nrows p = nrows a ∧ ncols p = sz) (cut_cols st (repeat sz n) a).
Proof.
  revert st. induction n as [|n IH]; intros st; simpl.
  - split; [reflexivity | constructor].
  - destruct (IH (st + sz)%nat) as [I1 I2]. split; [rewrite I1; reflexivity|].
    constructor; [|exact I2]. split; [reflexivity|]. simpl. lia.
Qed.

Lemma hstack_cut_cols a sizes st :
  nrows (hstack (nrows a) (cut_cols st sizes a)) = nrows a ∧
  ncols (hstack (nrows a) (cut_cols st sizes a)) = list_sum sizes ∧
  ∀ i j, (j < list_sum sizes)%nat →
         ent (hstack (nrows a) (cut_cols st sizes a)) i j = ent a i (st + j)%nat.
Proof.
  revert st. induction sizes as [|sz rest IH]; intros st.
  - simpl. split; [reflexivity|]. split; [reflexivity|]. intros i j Hj. lia.
  - destruct (IH (st + sz)%nat) as (I1 & I2 & I3).
    simpl cut_cols. simpl hstack. unfold hstack2 at 1 2 3.
    cbn [nrows ncols ent slice_cols].
    split; [reflexivity|]. split.
    + rewrite I2. simpl. lia.
    + intros i j Hj. simpl in Hj.
      replace (st + sz - st)%nat with sz by lia.
      destruct (Nat.ltb_spec j sz) as [H|H]; [reflexivity|].
      rewrite I3 by lia. f_equal. lia.
Qed.

Lemma list_sum_repeat n k : list_sum (repeat n k) = (k * n)%nat.
Proof. induction k as [|k IH]; simpl; [reflexivity|]. rewrite IH. lia. Qed.

(** X1: What [np.split(a, k, axis=1)] does for an integer [k]: with [k = 0] the
    remainder [N % k] raises [ZeroDivisionError]; a negative [k], or a [k]
    that does not divide the number of columns, raises [ValueError];
    otherwise the result is a list of [k] arrays with the rows of [a] and
    an equal share of its columns, and their concatenation in order is
    [a]. *)
Theorem np_split_by_integer (a : ndarray) (k : Z) :
  np_split (VArr a) (VInt 0) = inl ZeroDivisionError ∧
  ((k < 0)%Z → np_split (VArr a) (VInt k) = inl ValueError) ∧
  ((0 < k)%Z → (Z.of_nat (ncols a) mod k ≠ 0)%Z →
   np_split (VArr a) (VInt k) = inl ValueError) ∧
  ((0 < k)%Z → (Z.of_nat (ncols a) mod k = 0)%Z →
   ∃ l, np_split (VArr a) (VInt k) = inr (VArrs l) ∧
        length l = Z.to_nat k ∧
        Forall (λ p, nrows p = nrows a
                     ∧ ncols p = (ncols a / Z.to_nat k)%nat) l ∧
        same_array (hstack (nrows a) l) a).
Proof.
  split; [reflexivity|]. split; [|split].
  - intros Hk. unfold np_split, py_mod.
    destruct (Z.eqb_spec k 0) as [E|_]; [lia|].
    unfold py_truth.
    destruct (Z.eqb_spec (Z.of_nat (ncols a) mod k) 0) as [E|_]; simpl;
      [|reflexivity].
    unfold array_split. simpl.
    destruct (Z.leb_spec k 0) as [_|H]; [reflexivity | lia].
  - intros Hk Hm. unfold np_split, py_mod.
    destruct (Z.eqb_spec k 0) as [E|_]; [lia|].
    unfold py_truth.
    destruct (Z.eqb_spec (Z.of_nat (ncols a) mod k) 0) as [E|_];
      [contradiction | reflexivity].
  - intros Hk Hm. unfold np_split, py_mod.
    destruct (Z.eqb_spec k 0) as [E|_]; [lia|].
    unfold py_truth. rewrite Hm. simpl negb. cbv iota.
    unfold array_split. simpl py_int. cbv iota.
    destruct (Z.leb_spec k 0) as [H|_]; [lia|].
    assert (Hn : (ncols a mod Z.to_nat k = 0)%nat).
    { apply Nat2Z.inj. rewrite Nat2Z.inj_mod, Z2Nat.id by lia. exact Hm. }
    eexists. split; [reflexivity|].
    rewrite (section_sizes_even _ _ Hn).
    destruct (cut_cols_repeat a (ncols a / Z.to_nat k)%nat (Z.to_nat k) 0)
      as [L F].
    split; [exact L|]. split; [exact F|].
    destruct (hstack_cut_cols a (repeat (ncols a / Z.to_nat k)%nat (Z.to_nat k)) 0)
      as (H1 & H2 & H3).
    assert (Hsum : list_sum (repeat (ncols a / Z.to_nat k)%nat (Z.to_nat k))
                   = ncols a).
    { rewrite list_sum_repeat.
      pose proof (Nat.div_mod_eq (ncols a) (Z.to_nat k)). lia. }
    split; [exact H1|]. split; [rewrite H2; exact Hsum|].
    intros i j _ Hj. rewrite H2, Hsum in Hj. apply H3. rewrite Hsum. exact Hj.
Qed.

Lemma np_split_by_integer_witness :
  (0 < 4)%Z ∧ (Z.of_nat (ncols (NdArray 3 80 (λ _ _, 1%R))) mod 4 = 0)%Z ∧
  ∃ l, np_split (VArr (NdArray 3 80 (λ _ _, 1))) (VInt 4) = inr (VArrs l) ∧
       length l = 4%nat.
Proof.
  split; [lia|]. split; [reflexivity|].
  destruct (np_split_by_integer (NdArray 3 80 (λ _ _, 1)) 4) as (_ & _ & _ & H).
  destruct (H ltac:(lia) eq_refl) as (l & H1 & H2 & _).
  exists l. split; assumption.
Defined.

(** ** [train_test_split] *)

Lemma test_size_lt n : (2 <= n)%nat → ((n + 3) / 4 < n)%nat.
Proof. intros H. apply Nat.Div0.div_lt_upper_bound; lia. Qed.

(** X3: On two arrays with the same number [n >= 2] of rows and a permutation
    of the row indices, [train_test_split] returns: the test arrays have
    [ceil(n / 4)] rows, the training arrays the others, inputs and labels
    are picked by the same row indices, and the test indices followed by
    the training indices are the permutation: every sample is in exactly
    one of the two sets. *)
Theorem train_test_split_partitions (perm : list nat) (a b : ndarray) :
  perm ≡ₚ seq 0 (nrows a) → nrows b = nrows a → (2 <= nrows a)%nat →
  ∃ itrain itest,
    train_test_split perm (VArr a) (VArr b)
    = inr (VArr (take_rows itrain a), VArr (take_rows itest a),
           VArr (take_rows itrain b), VArr (take_rows itest b)) ∧
    length itest = ((nrows a + 3) / 4)%nat ∧
    length itrain = (nrows a - (nrows a + 3) / 4)%nat ∧
    itest ++ itrain = perm ∧
    NoDup (itest ++ itrain) ∧
    ∀ k, (k < nrows a)%nat ↔ k ∈ itest ++ itrain.
Proof.
  intros Hp Hb Hn.
  pose proof (test_size_lt _ Hn) as Ht.
  assert (Hl : length perm = nrows a)
    by (rewrite (Permutation_length Hp); apply length_seq).
  exists (take (nrows a - (nrows a + 3) / 4) (drop ((nrows a + 3) / 4) perm)),
         (take ((nrows a + 3) / 4) perm).
  assert (E : take ((nrows a + 3) / 4) perm
              ++ take (nrows a - (nrows a + 3) / 4) (drop ((nrows a + 3) / 4) perm)
              = perm).
  { rewrite (take_ge (drop _ _)) by (rewrite length_drop; lia).
    apply take_drop. }
  split.
  - unfold train_test_split. rewrite Hb, Nat.eqb_refl. simpl negb. cbv iota.
    destruct (Nat.eqb_spec (nrows a - (nrows a + 3) / 4) 0) as [H|_]; [lia|].
    reflexivity.
  - split; [rewrite length_take; lia|].
    split; [rewrite length_take, length_drop; lia|].
    split; [exact E|]. rewrite E.
    split; [rewrite Hp; apply NoDup_seq|].
    intros k. rewrite Hp, elem_of_seq. lia.
Qed.

Lemma train_test_split_partitions_witness :
  seq 0 4 ≡ₚ seq 0 (nrows (NdArray 4 2 (λ _ _, 1))) ∧
  ∃ itrain itest,
    train_test_split (seq 0 4) (VArr (NdArray 4 2 (λ _ _, 1)))
      (VArr (NdArray 4 3 (λ _ _, 0)))
    = inr (VArr (take_rows itrain (NdArray 4 2 (λ _ _, 1))),
           VArr (take_rows itest (NdArray 4 2 (λ _ _, 1))),
           VArr (take_rows itrain (NdArray 4 3 (λ _ _, 0))),
           VArr (take_rows itest (NdArray 4 3 (λ _ _, 0)))) ∧
    length itest = 1%nat ∧ length itrain = 3%nat.
Proof.
  split; [reflexivity|].
  destruct (train_test_split_partitions (seq 0 4) (NdArray 4 2 (λ _ _, 1))
              (NdArray 4 3 (λ _ _, 0)))
    as (itrain & itest & H1 & H2 & H3 & _);
    [reflexivity | reflexivity | simpl; lia |].
  exists itrain, itest. split; [exact H1|]. split; [exact H2 | exact H3].
Defined.



(** ** One-hot labels: [np.eye(10)[training_labels].T] *)

Lemma py_index_Some n i k :
  py_index n i = Some k →
  (k < n)%nat ∧ (- Z.of_nat n <= i < Z.of_nat n)%Z ∧
  Z.of_nat k = (i mod Z.of_nat n)%Z.
Proof.
  unfold py_index.
  destruct (Z.leb_spec 0 i), (Z.ltb_spec i (Z.of_nat n)); simpl;
    try (destruct (Z.leb_spec (- Z.of_nat n) i), (Z.ltb_spec i 0); simpl);
    intros [= <-]; try lia.
  all: split; [lia|]; split; [lia|];
    first [ rewrite Z.mod_small by lia; lia
          | rewrite <- (Z.mod_add i 1 (Z.of_nat n)) by lia;
            rewrite Z.mod_small by lia; lia ].
Qed.

Lemma py_index_None n i :
  py_index n i = None → ¬ (- Z.of_nat n <= i < Z.of_nat n)%Z.
Proof.
  unfold py_index.
  destruct (Z.leb_spec 0 i), (Z.ltb_spec i (Z.of_nat n)); simpl;
    try (destruct (Z.leb_spec (- Z.of_nat n) i), (Z.ltb_spec i 0); simpl);
    intros [=]; lia.
Qed.

Lemma py_indices_spec n ls :
  match py_indices n ls with
  | Some ks =>
      Forall2 (λ l k, (k < n)%nat ∧ (- Z.of_nat n <= l < Z.of_nat n)%Z
                      ∧ Z.of_nat k = (l mod Z.of_nat n)%Z) ls ks
  | None => Exists (λ l, ¬ (- Z.of_nat n <= l < Z.of_nat n)%Z) ls
  end.
Proof.
  induction ls as [|l ls IH]; simpl.
  - constructor.
  - destruct (py_index n l) as [k|] eqn:E.
    + destruct (py_indices n ls) as [ks|].
      * constructor; [apply py_index_Some, E | exact IH].
      * apply Exists_cons_tl, IH.
    + apply Exists_cons_hd, py_index_None, E.
Qed.

Lemma one_hot_column_sum k :
  (k < 10)%nat → rsum 10 (λ c, if (k =? c)%nat then 1 else 0) = 1.
Proof.
  intros Hk. do 10 (destruct k as [|k]; [simpl; lra|]). lia.
Qed.

(** X5: [np.eye(10)[labels].T] for a 1-D integer array of labels: when every
    label is an index into ten classes (from [-10] to [9], negative ones
    counting from the end) the result is an array with ten rows and one
    column per label, the column of label [l] has a [1] in row [l mod 10]
    and [0] elsewhere, so it sums to 1; when some label is outside, the
    indexing raises [IndexError]. *)
Theorem one_hot_labels (ls : list Z) :
  (Forall (λ l, (-10 <= l < 10)%Z) ls →
   ∃ ks, index_rows (np_eye 10) (VIntVec ls) = inr (VArr (take_rows ks (np_eye 10))) ∧
         attr_T (VArr (take_rows ks (np_eye 10))) = inr (VArr (one_hot ks)) ∧
         nrows (one_hot ks) = 10%nat ∧ ncols (one_hot ks) = length ls ∧
         ∀ j l, ls !! j = Some l →
           (∀ i, (i < 10)%nat →
                 ent (one_hot ks) i j
                 = if (Z.of_nat i =? l mod 10)%Z then 1 else 0) ∧
           rsum 10 (λ i, ent (one_hot ks) i j) = 1) ∧
  (Exists (λ l, ¬ (-10 <= l < 10)%Z) ls →
   index_rows (np_eye 10) (VIntVec ls) = inl IndexError).
Proof.
  pose proof (py_indices_spec 10 ls) as H. simpl index_rows.
  change (nrows (np_eye 10)) with 10%nat.
  destruct (py_indices 10 ls) as [ks|] eqn:E.
  - split.
    + intros _. exists ks. split; [reflexivity|]. split; [reflexivity|].
      split; [reflexivity|].
      split; [simpl; apply (length_py_indices _ _ _ E)|].
      intros j l Hl.
      destruct (Forall2_lookup_l _ _ _ _ _ H Hl) as (k & Hk & K1 & K2 & K3).
      assert (Hn : nth j ks O = k) by (apply nth_lookup_Some with (d := O), Hk).
      split.
      * intros i Hi. unfold one_hot, transpose, take_rows, np_eye.
        cbn [ent]. rewrite Hn.
        change (Z.of_nat 10) with 10%Z in K3.
        destruct (Nat.eqb_spec k i) as [->|Hne].
        -- rewrite K3, Z.eqb_refl. reflexivity.
        -- destruct (Z.eqb_spec (Z.of_nat i) (l mod 10)) as [E'|_];
             [lia | reflexivity].
      * unfold one_hot, transpose, take_rows, np_eye. cbn [ent]. rewrite Hn.
        apply one_hot_column_sum, K1.
    + intros Hex. exfalso. apply Exists_exists in Hex as (l & Hin & Hl).
      apply list_elem_of_lookup in Hin as [j Hj].
      destruct (Forall2_lookup_l _ _ _ _ _ H Hj) as (k & _ & _ & K2 & _).
      apply Hl. exact K2.
  - split; [|reflexivity].
    intros Hall. exfalso. apply Exists_exists in H as (l & Hin & Hl).
    rewrite Forall_forall in Hall. apply Hl, Hall, Hin.
Qed.

Lemma one_hot_labels_witness :
  Forall (λ l, (-10 <= l < 10)%Z) [3%Z; (-1)%Z] ∧
  ∃ ks, index_rows (np_eye 10) (VIntVec [3%Z; (-1)%Z])
        = inr (VArr (take_rows ks (np_eye 10))) ∧
        ncols (one_hot ks) = 2%nat.
Proof.
  assert (H : Forall (λ l, (-10 <= l < 10)%Z) [3%Z; (-1)%Z])
    by (repeat constructor; lia).
  split; [exact H|].
  destruct (proj1 (one_hot_labels [3%Z; (-1)%Z]) H) as (ks & H1 & _ & _ & H2 & _).
  exists ks. split; [exact H1 | exact H2].
Defined.

(** ** The batches a [DataLoader] yields *)

Lemma numel_shape t n : tshape t = [n; 1; 28; 28]%nat → numel t = (n * 784)%nat.
Proof. intros H. unfold numel. rewrite H. cbn [foldr]. lia. Qed.

Lemma pixel_index i j :
  (j < 784)%nat →
  ((i * 784 + j) / 784 = i)%nat ∧ ((i * 784 + j) mod 784 = j)%nat.
Proof.
  intros Hj. split.
  - rewrite Nat.div_add_l by lia. rewrite Nat.div_small by exact Hj. lia.
  - rewrite Nat.add_comm, Nat.Div0.mod_add. apply Nat.mod_small, Hj.
Qed.

Lemma omap_labels (ds : list sample) ks :
  Forall (λ k, (k < length ds)%nat) ks →
  Forall2 (λ k l, ∃ smp, ds !! k = Some smp ∧ l = label smp) ks
          (omap (λ k, label <$> ds !! k) ks).
Proof.
  induction 1 as [|k ks Hk _ IH]; simpl.
  - constructor.
  - destruct (lookup_lt_is_Some_2 ds k Hk) as [smp Hs]. rewrite Hs. simpl.
    constructor; [exists smp; split; [exact Hs | reflexivity] | exact IH].
Qed.

(** X6: The batch collated from the samples [ks] of a dataset: the image tensor
    has shape [(n, 1, 28, 28)] for [n] samples; [view(-1, 784).numpy()]
    turns it into an array with one row per sample and 784 columns, row
    [i] holding the pixels of sample [ks[i]]; the label tensor holds the
    label of sample [ks[i]] at position [i]. *)
Theorem batch_rows_are_images (ds : list sample) (ks : list nat) :
  Forall (λ k, (k < length ds)%nat) ks →
  ∃ t ls,
    collate ds ks = (VTensor t, VIntTensor ls) ∧
    tshape t = [length ks; 1; 28; 28]%nat ∧
    view_numpy 784 (VTensor t) = inr (VArr (batch_data t)) ∧
    nrows (batch_data t) = length ks ∧ ncols (batch_data t) = 784%nat ∧
    length ls = length ks ∧
    ∀ i k smp, ks !! i = Some k → ds !! k = Some smp →
      ls !! i = Some (label smp) ∧
      ∀ j, (j < 784)%nat → ent (batch_data t) i j = pixels smp j.
Proof.
  intros Hks. eexists _, _. split; [reflexivity|].
  split; [reflexivity|].
  pose proof (omap_labels ds ks Hks) as Hl.
  set (t := Tensor [length ks; 1; 28; 28]%nat _).
  assert (Hn : numel t = (length ks * 784)%nat) by (apply numel_shape; reflexivity).
  assert (Hr : nrows (batch_data t) = length ks).
  { unfold batch_data. cbn [nrows]. rewrite Hn. apply Nat.div_mul. lia. }
  split; [apply view_numpy_ok; rewrite Hn; apply Nat.Div0.mod_mul|].
  split; [exact Hr|]. split; [reflexivity|].
  split; [symmetry; apply (Forall2_length _ _ _ Hl)|].
  intros i k smp Hi Hk.
  destruct (Forall2_lookup_l _ _ _ _ _ Hl Hi) as (l & Hli & smp' & Hs & ->).
  rewrite Hk in Hs. injection Hs as <-.
  split; [exact Hli|].
  intros j Hj. unfold batch_data, t. cbn [ent tbuf].
  destruct (pixel_index i j Hj) as [-> ->].
  rewrite (nth_lookup_Some _ _ O _ Hi), Hk. reflexivity.
Qed.

(** A dataset of one white image of class 7, and a dataset of three blank
    images of the classes 1, 2 and 3. *)
Definition one_sample : list sample := [Sample (λ _, 1) 7].
Definition three_samples : list sample :=
  [Sample (λ _, 0) 1; Sample (λ _, 0) 2; Sample (λ _, 0) 3].

Lemma batch_rows_are_images_witness :
  Forall (λ k, (k < length one_sample)%nat) [0%nat] ∧
  ∃ t ls, collate one_sample [0%nat] = (VTensor t, VIntTensor ls) ∧
          nrows (batch_data t) = 1%nat.
Proof.
  assert (H : Forall (λ k, (k < length one_sample)%nat) [0%nat])
    by (repeat constructor).
  split; [exact H|].
  destruct (batch_rows_are_images one_sample [0%nat] H)
    as (t & ls & H1 & _ & _ & H2 & _).
  exists t, ls. split; [exact H1 | exact H2].
Defined.

(** [get_loaders] *)



(** ** One pass over a loader *)

Lemma chunks_concat_aux bs m (ks : list nat) :
  (length ks <= m * bs)%nat →
  concat (map (λ c, take bs (drop (c * bs) ks)) (seq 0 m)) = ks.
Proof.
  revert ks. induction m as [|m IH]; intros ks Hl.
  - simpl in *. destruct ks; [reflexivity | simpl in Hl; lia].
  - change (seq 0 (S m)) with (0%nat :: seq 1 m). rewrite <- seq_shift.
    cbn [map concat]. rewrite map_map.
    change (0 * bs)%nat with 0%nat. rewrite drop_0.
    transitivity (take bs ks ++ drop bs ks); [|apply take_drop].
    f_equal.
    etrans; [|apply (IH (drop bs ks)); rewrite length_drop; lia].
    f_equal. apply map_ext. intros c.
    rewrite drop_drop. reflexivity.
Qed.

Lemma chunks_bound bs n :
  (0 < bs)%nat → (n <= (n + bs - 1) / bs * bs)%nat.
Proof.
  intros Hb.
  pose proof (Nat.div_mod_eq (n + bs - 1) bs) as E.
  pose proof (Nat.mod_upper_bound (n + bs - 1) bs ltac:(lia)) as U.
  lia.
Qed.

Lemma chunks_concat bs ks : (0 < bs)%nat → concat (chunks bs ks) = ks.
Proof.
  intros Hb. unfold chunks. apply chunks_concat_aux, chunks_bound, Hb.
Qed.

Lemma chunks_start bs n c :
  (0 < bs)%nat → (c < (n + bs - 1) / bs)%nat → (c * bs < n)%nat.
Proof.
  intros Hb Hc.
  pose proof (Nat.Div0.mul_div_le (n + bs - 1) bs) as U.
  nia.
Qed.

Lemma chunks_sizes bs ks :
  (0 < bs)%nat →
  Forall (λ c, (0 < length c <= bs)%nat) (chunks bs ks).
Proof.
  intros Hb. unfold chunks. apply Forall_forall. intros c Hc.
  apply list_elem_of_fmap in Hc as (i & -> & Hi).
  apply elem_of_seq in Hi.
  pose proof (chunks_start bs (length ks) i Hb ltac:(lia)).
  rewrite length_take, length_drop. lia.
Qed.

(** The sampling order of a pass, and what [iterate] returns in terms of
    its chunks. *)
Definition pass_order (ds : list sample) (sh : bool) (perm : list nat)
    : list nat :=
  if sh then perm else seq 0 (length ds).

Lemma pass_order_perm ds sh perm :
  (sh = true → perm ≡ₚ seq 0 (length ds)) →
  pass_order ds sh perm ≡ₚ seq 0 (length ds).
Proof.
  intros Hp. unfold pass_order.
  destruct sh; [apply Hp; reflexivity | reflexivity].
Qed.

Lemma iterate_chunks ds bs sh perm :
  (0 < bs)%Z → (sh = true → perm ≡ₚ seq 0 (length ds)) →
  iterate perm (VLoader (Loader ds bs sh))
  = inr (map (collate ds) (chunks (Z.to_nat bs) (pass_order ds sh perm))) ∧
  Forall (Forall (λ k, (k < length ds)%nat))
         (chunks (Z.to_nat bs) (pass_order ds sh perm)).
Proof.
  intros Hb Hp. split; [reflexivity|].
  apply Forall_forall. intros c Hin. apply Forall_forall. intros k Hk.
  assert (Hk' : k ∈ concat (chunks (Z.to_nat bs) (pass_order ds sh perm)))
    by (apply list_elem_of_In, in_concat; exists c;
        split; apply list_elem_of_In; assumption).
  rewrite chunks_concat, (pass_order_perm ds sh perm Hp) in Hk' by lia.
  apply elem_of_seq in Hk'. lia.
Qed.

(** X8: One pass over a loader with a positive batch size ([perm] being the
    order a shuffling loader draws, a permutation of the sample indices):
    the batches are collated from consecutive chunks of the order, a
    loader that does not shuffle takes the samples in their order, every
    sample index is in exactly one batch, the number of batches is
    [ceil(n / batch_size)], and no batch is empty or larger than the batch
    size. *)
Theorem loader_pass_covers_dataset (ds : list sample) (bs : Z) (sh : bool)
    (perm : list nat) :
  (0 < bs)%Z → (sh = true → perm ≡ₚ seq 0 (length ds)) →
  ∃ order cs,
    iterate perm (VLoader (Loader ds bs sh)) = inr (map (collate ds) cs) ∧
    order = (if sh then perm else seq 0 (length ds)) ∧
    concat cs = order ∧
    concat cs ≡ₚ seq 0 (length ds) ∧
    length cs = ((length ds + Z.to_nat bs - 1) / Z.to_nat bs)%nat ∧
    Forall (λ c, (0 < length c <= Z.to_nat bs)%nat) cs ∧
    Forall (Forall (λ k, (k < length ds)%nat)) cs.
Proof.
  intros Hb Hp.
  destruct (iterate_chunks ds bs sh perm Hb Hp) as [Hit Hin].
  pose proof (pass_order_perm ds sh perm Hp) as Ho.
  exists (pass_order ds sh perm), (chunks (Z.to_nat bs) (pass_order ds sh perm)).
  assert (Hc : concat (chunks (Z.to_nat bs) (pass_order ds sh perm))
               = pass_order ds sh perm)
    by (apply chunks_concat; lia).
  split; [exact Hit|]. split; [reflexivity|]. split; [exact Hc|].
  split; [rewrite Hc; exact Ho|].
  split.
  { unfold chunks. rewrite length_map, length_seq.
    rewrite (Permutation_length Ho), length_seq. reflexivity. }
  split; [apply chunks_sizes; lia | exact Hin].
Qed.

Lemma loader_pass_covers_dataset_witness :
  (0 < 2)%Z ∧
  [2; 0; 1]%nat ≡ₚ seq 0 (length three_samples) ∧
  ∃ cs, iterate [2; 0; 1]%nat
          (VLoader (Loader three_samples 2 true))
        = inr (map (collate three_samples) cs) ∧
        length cs = 2%nat.
Proof.
  assert (Hp : [2; 0; 1]%nat ≡ₚ seq 0 3).
  { simpl. etrans; [apply Permutation_cons_append|]. reflexivity. }
  split; [lia|]. split; [exact Hp|].
  destruct (loader_pass_covers_dataset
              three_samples
              2 true [2; 0; 1]%nat ltac:(lia) (λ _, Hp))
    as (order & cs & H1 & _ & _ & _ & H2 & _).
  exists cs. split; [exact H1 | exact H2].
Defined.

(** ** The non-linear training loop on a dataset of labelled images *)

(** Every label of the dataset is one of the ten classes. *)
Definition labelled (ds : list sample) : Prop :=
  Forall (λ smp, (0 <= label smp < 10)%Z) ds.

Lemma py_indices_classes ls :
  Forall (λ l, (0 <= l < 10)%Z) ls → ∃ ks, py_indices 10 ls = Some ks.
Proof.
  induction 1 as [|l ls Hl _ (ks & IH)]; simpl.
  - exists []. reflexivity.
  - rewrite IH. unfold py_index.
    destruct (Z.leb_spec 0 l); [|lia].
    destruct (Z.ltb_spec l (Z.of_nat 10)); [|lia].
    simpl. eexists. reflexivity.
Qed.

Lemma omap_labels_classes ds ks :
  labelled ds → Forall (λ k, (k < length ds)%nat) ks →
  length (omap (λ k, label <$> ds !! k) ks) = length ks ∧
  Forall (λ l, (0 <= l < 10)%Z) (omap (λ k, label <$> ds !! k) ks).
Proof.
  intros Hd. induction 1 as [|k ks Hk _ [IH1 IH2]]; simpl.
  - split; [reflexivity | constructor].
  - destruct (lookup_lt_is_Some_2 ds k Hk) as [smp Hs]. rewrite Hs. simpl.
    split; [f_equal; exact IH1|].
    constructor; [|exact IH2].
    apply (Forall_lookup_1 _ _ _ _ Hd Hs).
Qed.

(** A batch collated from samples of a labelled dataset is a batch the loop
    body can run on. *)
Lemma collate_good ds ks :
  labelled ds → Forall (λ k, (k < length ds)%nat) ks →
  ∃ t ls ks', collate ds ks = (VTensor t, VIntTensor ls) ∧
              good_batch t ls ks' ∧
              nrows (batch_data t) = length ks.
Proof.
  intros Hd Hks.
  destruct (omap_labels_classes ds ks Hd Hks) as [L1 L2].
  destruct (py_indices_classes _ L2) as (ks' & Hks').
  eexists _, _, ks'. split; [reflexivity|].
  set (t := Tensor [length ks; 1; 28; 28]%nat _).
  assert (Hn : numel t = (length ks * 784)%nat) by (apply numel_shape; reflexivity).
  assert (Hr : (numel t / 784 = length ks)%nat)
    by (rewrite Hn; apply Nat.div_mul; lia).
  split; [|exact Hr].
  split.
  - rewrite Hn. apply Nat.Div0.mod_mul.
  - exact Hks'.
  - rewrite Hr, (length_py_indices _ _ _ Hks'). exact L1.
Qed.

Lemma nonlinear_ready_step s w0 w b dW0 dW l sz t ls ks :
  nonlinear_ready s w0 w b dW0 dW l sz → good_batch t ls ks →
  nonlinear_ready (after_nonlinear_batch b w0 w t ls ks dW0 dW l (VInt sz) s)
    w0 w b
    (acc_add dW0 (nl_term_W0 b w0 w (batch_data t) (one_hot ks)))
    (acc_add dW (nl_term_W w0 w (batch_data t) (one_hot ks)))
    (loss_add l (half_sq_norm (nl_error w0 w (batch_data t) (one_hot ks))))
    (sz + Z.of_nat (nrows (batch_data t))).
Proof.
  intros [R1 R2 R3 R4 R5 R6 R7 R8 R9 R10 R11] Hg.
  pose proof R8 as [F1 F2 F3 F4 F5].
  split; unfold after_nonlinear_batch; try lookup.
  - apply acc_add_ok; [exact R9 | shapes | shapes].
  - apply acc_add_ok; [exact R10 | shapes | shapes].
  - apply loss_add_ok, R11.
Qed.

Lemma nonlinear_batch_loop ds cs :
  labelled ds → Forall (Forall (λ k, (k < length ds)%nat)) cs →
  ∀ s w0 w b dW0 dW l sz,
    nonlinear_ready s w0 w b dW0 dW l sz →
    ∃ s' dW0' dW' l',
      exec (for_each (map (collate ds) cs) nonlinear_batch) s s' ∧
      nonlinear_ready s' w0 w b dW0' dW' l'
        (sz + Z.of_nat (length (concat cs))) ∧
      stdout s' = stdout s.
Proof.
  intros Hd. induction 1 as [|c cs Hc _ IH]; intros s w0 w b dW0 dW l sz Hr.
  - exists s, dW0, dW, l. split; [reflexivity|]. split; [|reflexivity].
    simpl. rewrite Z.add_0_r. exact Hr.
  - destruct (collate_good ds c Hd Hc) as (t & ls & ks & E & Hg & Hn).
    pose proof (nonlinear_batch_ready_exec _ _ _ _ _ _ _ _ _ _ _ Hr Hg) as Hex.
    pose proof (nonlinear_ready_step _ _ _ _ _ _ _ _ _ _ _ Hr Hg) as Hr'.
    destruct (IH _ _ _ _ _ _ _ _ Hr')
      as (s' & dW0' & dW' & l' & Hex' & Hr'' & Hout).
    exists s', dW0', dW', l'. split; [|split].
    + cbn [map for_each]. rewrite E. eapply exec_seq; [exact Hex | exact Hex'].
    + cbn [concat]. rewrite length_app, Nat2Z.inj_add, Z.add_assoc, <- Hn.
      exact Hr''.
    + rewrite Hout. reflexivity.
Qed.

Lemma preserves_nonlinear_loop x (l : list (val * val)) :
  x ∉ ["training_data"; "training_labels"; "h"; "y"; "e"; "loss"; "delta_BP";
       "delta_FA"; "one_y"; "one_h"; "delta_W"; "delta_W0"; "size"] →
  preserves x (for_each l nonlinear_batch).
Proof.
  intros Hx. rewrite !not_elem_of_cons in Hx.
  apply preserves_for_each. intros batch. unfold nonlinear_batch.
  repeat lazymatch goal with
  | |- preserves _ (store _ _) => apply preserves_store; tauto
  | |- preserves _ (Assign _ _) => apply preserves_Assign; [tauto|]
  | |- _ => preserves_step
  end.
Qed.

(** The state an epoch ends in: the weights after the update, the report
    printed. *)
Definition nl_rate (n : Z) : R := 1 / 10 / IZR n.

Section NonlinearEpoch.
Variables (ds : list sample) (perm : list nat) (s : state).
Variables (w0 w b : ndarray) (k : Z).
Hypothesis Hds : labelled ds.
Hypothesis Hne : ds ≠ [].
Hypothesis Hperm : perm ≡ₚ seq 0 (length ds).
Hypothesis Heta : globals s !! "eta" = Some (VFloat (1 / 10)).
Hypothesis Hld : globals s !! "trainloader" = Some (VLoader (Loader ds 20 true)).
Hypothesis Hepoch : globals s !! "epoch" = Some (VInt k).
Hypothesis HW0 : globals s !! "W0" = Some (VArr w0).
Hypothesis HW : globals s !! "W" = Some (VArr w).
Hypothesis HB : globals s !! "B" = Some (VArr b).
Hypothesis Hfits : fits2 w0 w b.

Lemma nonlinear_epoch_exec :
  ∃ s' dW0 dW l,
    exec (nonlinear_epoch perm) s s' ∧
    acc_ok (nrows w0) (ncols w0) dW0 ∧ acc_ok (nrows w) (ncols w) dW ∧
    loss_ok l ∧
    globals s' !! "delta_W0" = Some dW0 ∧
    globals s' !! "delta_W" = Some dW ∧
    globals s' !! "loss" = Some l ∧
    globals s' !! "size" = Some (VInt (Z.of_nat (length ds))) ∧
    globals s' !! "W"
    = Some (VArr (updated w (scaled (nl_rate (Z.of_nat (length ds))) dW))) ∧
    globals s' !! "W0"
    = Some (VArr (updated w0 (scaled (nl_rate (Z.of_nat (length ds))) dW0))) ∧
    globals s' !! "eta" = Some (VFloat (1 / 10)) ∧
    globals s' !! "trainloader" = Some (VLoader (Loader ds 20 true)) ∧
    globals s' !! "epoch" = Some (VInt k) ∧
    globals s' !! "B" = Some (VArr b) ∧
    stdout s' = stdout s ++ report 10 k l.
Proof using All.
  set (s1 := rebind "size" (VInt 0) (rebind "loss" (VInt 0)
               (rebind "delta_W" (VInt 0) (rebind "delta_W0" (VInt 0) s)))).
  assert (Hr1 : nonlinear_ready s1 w0 w b (VInt 0) (VInt 0) (VInt 0) 0).
  { split; unfold s1; try lookup; try exact Hfits; left; reflexivity. }
  destruct (iterate_chunks ds 20 true perm ltac:(lia) (λ _, Hperm))
    as [Hit Hin].
  set (cs := chunks (Z.to_nat 20) (pass_order ds true perm)) in *.
  destruct (nonlinear_batch_loop ds cs Hds Hin _ _ _ _ _ _ _ _ Hr1)
    as (s2 & dW0 & dW & l & Hex2 & Hr2 & Hout2).
  assert (Hsz : (0 + Z.of_nat (length (concat cs)) = Z.of_nat (length ds))%Z).
  { unfold cs. rewrite chunks_concat by lia.
    change (pass_order ds true perm) with perm.
    rewrite (Permutation_length Hperm), length_seq. lia. }
  rewrite Hsz in Hr2. destruct Hr2 as [R1 R2 R3 R4 R5 R6 R7 R8 R9 R10 R11].
  assert (Hfr : ∀ y v, y ∉ ["training_data"; "training_labels"; "h"; "y"; "e";
                 "loss"; "delta_BP"; "delta_FA"; "one_y"; "one_h"; "delta_W";
                 "delta_W0"; "size"] →
               globals s !! y = Some v → globals s2 !! y = Some v).
  { intros y v Hy Hv.
    rewrite (exec_preserves y _ s1 s2 (preserves_nonlinear_loop y _ Hy) Hex2).
    rewrite !not_elem_of_cons in Hy. unfold s1.
    rewrite !lookup_rebind_ne by (intros <-; tauto). exact Hv. }
  assert (Heta2 : globals s2 !! "eta" = Some (VFloat (1 / 10)))
    by (apply Hfr; [not_in_list | exact Heta]).
  assert (Hep2 : globals s2 !! "epoch" = Some (VInt k))
    by (apply Hfr; [not_in_list | exact Hepoch]).
  assert (Hld2 : globals s2 !! "trainloader" = Some (VLoader (Loader ds 20 true)))
    by (apply Hfr; [not_in_list | exact Hld]).
  assert (Hn0 : (Z.of_nat (length ds) =? 0)%Z = false).
  { apply Z.eqb_neq. destruct ds; [contradiction | simpl; lia]. }
  set (n := Z.of_nat (length ds)) in *.
  set (s3 := rebind "W0" (VArr (updated w0 (scaled (nl_rate n) dW0)))
               (rebind "W" (VArr (updated w (scaled (nl_rate n) dW))) s2)).
  assert (Hrate : ∀ s', globals s' !! "eta" = Some (VFloat (1 / 10)) →
                        globals s' !! "size" = Some (VInt n) →
                        evals (Div (Var "eta") (Var "size")) s' (VFloat (nl_rate n))).
  { intros s' He Hs. eapply evals_op2; [apply evals_Var, He | apply evals_Var, Hs|].
    simpl. rewrite Hn0. reflexivity. }
  exists (printed (report 10 k l) s3), dW0, dW, l.
  split.
  { unfold nonlinear_epoch.
    do 4 (eapply exec_seq; [apply exec_store|]). fold s1.
    eapply exec_seq.
    { unfold nonlinear_batches, exec.
      rewrite (exec_bind_evals _ _ s1 (VLoader (Loader ds 20 true)))
        by (apply evals_Var; unfold s1; lookup).
      rewrite (exec_bind_evals _ _ s1 (VInt k))
        by (apply evals_Var; unfold s1; lookup).
      rewrite run_bind, Hit, run_lift_inr. exact Hex2. }
    eapply exec_seq.
    { unfold nonlinear_update. eapply exec_seq.
      - apply exec_Assign. eapply evals_op2; [apply evals_Var, R2 | |].
        + eapply evals_op2; [apply Hrate; assumption | apply evals_Var, R5 |].
          eapply py_mul_scaled, R10.
        + apply py_add_updated, R10.
      - apply exec_Assign. eapply evals_op2; [apply evals_Var; lookup | |].
        + eapply evals_op2; [apply Hrate; lookup | apply evals_Var; lookup |].
          eapply py_mul_scaled, R9.
        + apply py_add_updated, R9. }
    fold s3. unfold nonlinear_report.
    apply report_exec; [discriminate | unfold s3; lookup | unfold s3; lookup]. }
  split; [exact R9|]. split; [exact R10|]. split; [exact R11|].
  unfold printed, s3; cbn [globals stdout].
  split; [lookup|]. split; [lookup|]. split; [lookup|]. split; [lookup|].
  split; [lookup|]. split; [lookup|]. split; [lookup|]. split; [lookup|].
  split; [lookup|]. split; [lookup|].
  rewrite !stdout_rebind, Hout2. reflexivity.
Qed.
End NonlinearEpoch.

Lemma fits2_shape w0 w b w0' w' :
  nrows w0' = nrows w0 → ncols w0' = ncols w0 →
  nrows w' = nrows w → ncols w' = ncols w →
  fits2 w0 w b → fits2 w0' w' b.
Proof. intros E1 E2 E3 E4 [F1 F2 F3 F4 F5]. split; congruence. Qed.

(** How many of the first [n] epochs print a report when every [p]-th
    does. *)
Fixpoint reported_every (p : Z) (n : nat) : nat :=
  match n with
  | O => O
  | S k => (reported_every p k + if (Z.of_nat k mod p =? 0)%Z then 1 else 0)%nat
  end.

Lemma length_report p k l :
  length (report p k l) = (if (k mod p =? 0)%Z then 2 else 0)%nat.
Proof. unfold report. destruct (k mod p =? 0)%Z; reflexivity. Qed.

Section NonlinearEpochs.
Variables (ds : list sample) (shuffles : nat → list nat) (s : state).
Variables (w0 w b : ndarray).
Hypothesis Hds : labelled ds.
Hypothesis Hne : ds ≠ [].
Hypothesis Hperm : ∀ k, shuffles k ≡ₚ seq 0 (length ds).
Hypothesis Heta : globals s !! "eta" = Some (VFloat (1 / 10)).
Hypothesis Hld : globals s !! "trainloader" = Some (VLoader (Loader ds 20 true)).
Hypothesis HW0 : globals s !! "W0" = Some (VArr w0).
Hypothesis HW : globals s !! "W" = Some (VArr w).
Hypothesis HB : globals s !! "B" = Some (VArr b).
Hypothesis Hfits : fits2 w0 w b.

Lemma nonlinear_epochs_exec n :
  ∃ s' w0' w',
    exec (nonlinear_epochs shuffles n) s s' ∧
    globals s' !! "W0" = Some (VArr w0') ∧
    globals s' !! "W" = Some (VArr w') ∧
    nrows w0' = nrows w0 ∧ ncols w0' = ncols w0 ∧
    nrows w' = nrows w ∧ ncols w' = ncols w ∧
    globals s' !! "eta" = Some (VFloat (1 / 10)) ∧
    globals s' !! "trainloader" = Some (VLoader (Loader ds 20 true)) ∧
    globals s' !! "B" = Some (VArr b) ∧
    length (stdout s') = (length (stdout s) + 2 * reported_every 10 n)%nat ∧
    ∀ k, n = S k →
         globals s' !! "epoch" = Some (VInt (Z.of_nat k)) ∧
         globals s' !! "size" = Some (VInt (Z.of_nat (length ds))).
Proof using All.
  induction n as [|n IH].
  - exists s, w0, w. repeat split; try assumption; try discriminate.
    simpl. lia.
  - destruct IH as (sn & wn0 & wn & Hex & I1 & I2 & S1 & S2 & S3 & S4 & I3 & I4
                    & I5 & I6 & _).
    destruct (nonlinear_epoch_exec ds (shuffles n)
                (rebind "epoch" (VInt (Z.of_nat n)) sn) wn0 wn b (Z.of_nat n)
                Hds Hne (Hperm n))
      as (s' & dW0 & dW & l & Hex' & O1 & O2 & O3 & J1 & J2 & J3 & J4 & J5 & J6
          & J7 & J8 & J9 & J10 & J11); try lookup.
    { apply (fits2_shape w0 w b); assumption. }
    destruct (updated_shape wn (scaled (nl_rate (Z.of_nat (length ds))) dW))
      as [U1 U2].
    destruct (updated_shape wn0 (scaled (nl_rate (Z.of_nat (length ds))) dW0))
      as [U3 U4].
    eexists s', _, _. split; [|split; [exact J6|split; [exact J5|]]].
    + unfold exec, nonlinear_epochs. rewrite seq_S, for_each_app, run_bind.
      unfold exec, nonlinear_epochs in Hex. rewrite Hex. simpl.
      rewrite run_bind, run_bind, run_store. unfold exec in Hex'. rewrite Hex'.
      reflexivity.
    + split; [congruence|]. split; [congruence|]. split; [congruence|].
      split; [congruence|].
      split; [exact J7|]. split; [exact J8|]. split; [exact J10|].
      split.
      * rewrite J11, length_app, length_report, stdout_rebind, I6.
        simpl reported_every. destruct (Z.of_nat n mod 10 =? 0)%Z; lia.
      * intros k [= <-]. split; [exact J9 | exact J4].
Qed.
End NonlinearEpochs.

Definition after_make_loaders (w : datasets) (s : state) : state :=
  rebind "testloader" (VLoader (Loader (mnist_test w) 20 false))
  (rebind "trainloader" (VLoader (Loader (mnist_train w) 20 true)) s).

Lemma make_loaders_exec w s :
  globals s !! "batch_size" = Some (VInt 20) →
  exec (make_loaders w) s (after_make_loaders w s).
Proof.
  intros H. unfold make_loaders, exec.
  rewrite (exec_bind_evals _ _ s (VInt 20)) by (apply evals_Var, H).
  reflexivity.
Qed.

Definition after_nonlinear_setup (w : datasets) (d : draws) (s : state) : state :=
  after_make_loaders w (after_weights_init2 d (after_hyperparameters2 s)).

Lemma nonlinear_setup_exec w d s :
  exec (nonlinear_setup w d) s (after_nonlinear_setup w d s).
Proof.
  unfold nonlinear_setup.
  eapply exec_seq; [apply hyperparameters2_exec|].
  eapply exec_seq; [apply weights_init2_exec|].
  apply make_loaders_exec.
  unfold after_weights_init2, after_hyperparameters2. lookup.
Qed.

Lemma reported_every_10_1000 : reported_every 10 1000 = 100%nat.
Proof. vm_compute. reflexivity. Qed.

Lemma nonlinear_run_epochs w d shuffles n :
  labelled (mnist_train w) → mnist_train w ≠ [] →
  (∀ k, shuffles k ≡ₚ seq 0 (length (mnist_train w))) →
  ∃ s' w0 w1,
    exec (nonlinear_epochs shuffles n) (after_nonlinear_setup w d fresh) s' ∧
    globals s' !! "W0" = Some (VArr w0) ∧
    globals s' !! "W" = Some (VArr w1) ∧
    nrows w0 = 1000%nat ∧ ncols w0 = 784%nat ∧
    nrows w1 = 10%nat ∧ ncols w1 = 1000%nat ∧
    length (stdout s') = (2 * reported_every 10 n)%nat ∧
    ∀ k, n = S k →
         globals s' !! "epoch" = Some (VInt (Z.of_nat k)) ∧
         globals s' !! "size"
         = Some (VInt (Z.of_nat (length (mnist_train w)))).
Proof.
  intros Hds Hne Hperm.
  destruct (nonlinear_epochs_exec (mnist_train w) shuffles
              (after_nonlinear_setup w d fresh)
              (NdArray 1000 784 (draw_W0 d)) (NdArray 10 1000 (draw_W d))
              (NdArray 1000 10 (draw_B d)) Hds Hne Hperm)
    with (n := n)
    as (s' & w0 & w1 & Hex & I1 & I2 & S1 & S2 & S3 & S4 & _ & _ & _ & I6 & I7);
    try (unfold after_nonlinear_setup, after_make_loaders, after_weights_init2,
           after_hyperparameters2; lookup).
  { split; reflexivity. }
  exists s', w0, w1.
  split; [exact Hex|]. split; [exact I1|]. split; [exact I2|].
  split; [exact S1|]. split; [exact S2|]. split; [exact S3|].
  split; [exact S4|]. split; [exact I6 | exact I7].
Qed.

(** X10: On a non-empty training set of images whose labels are class indices,
    with a permutation for every shuffle, the non-linear experiment
    returns after any number of epochs [n]: [W0] and [W] are bound to
    arrays of the shapes they were drawn with, [size] is the number of
    training samples, and every tenth epoch has printed its two lines.
    The whole experiment is the setup followed by 1000 epochs: it returns
    with [epoch = 999] and 200 lines printed. *)
Theorem nonlinear_training_returns (w : datasets) (d : draws)
    (shuffles : nat → list nat) :
  labelled (mnist_train w) → mnist_train w ≠ [] →
  (∀ k, shuffles k ≡ₚ seq 0 (length (mnist_train w))) →
  (∀ n, ∃ s' w0 w1,
     exec (nonlinear_setup w d;; nonlinear_epochs shuffles n) fresh s' ∧
     globals s' !! "W0" = Some (VArr w0) ∧
     globals s' !! "W" = Some (VArr w1) ∧
     nrows w0 = 1000%nat ∧ ncols w0 = 784%nat ∧
     nrows w1 = 10%nat ∧ ncols w1 = 1000%nat ∧
     length (stdout s') = (2 * reported_every 10 n)%nat ∧
     ∀ k, n = S k →
          globals s' !! "epoch" = Some (VInt (Z.of_nat k)) ∧
          globals s' !! "size"
          = Some (VInt (Z.of_nat (length (mnist_train w))))) ∧
  ∃ s', run (nonlinear_experiment w d shuffles) fresh = Ok tt s' ∧
        globals s' !! "epoch" = Some (VInt 999) ∧
        globals s' !! "size" = Some (VInt (Z.of_nat (length (mnist_train w)))) ∧
        length (stdout s') = 200%nat.
Proof.
  intros Hds Hne Hperm. split.
  - intros n.
    destruct (nonlinear_run_epochs w d shuffles n Hds Hne Hperm)
      as (s' & w0 & w1 & Hex & H).
    exists s', w0, w1. split; [|exact H].
    eapply exec_seq; [apply nonlinear_setup_exec | exact Hex].
  - destruct (nonlinear_run_epochs w d shuffles 1000 Hds Hne Hperm)
      as (s' & w0 & w1 & Hex & _ & _ & _ & _ & _ & _ & Hout & Hlast).
    exists s'. split.
    + unfold nonlinear_experiment. rewrite run_bind.
      pose proof (nonlinear_setup_exec w d fresh) as Hset.
      unfold exec in Hset. rewrite Hset.
      unfold nonlinear_training. rewrite run_bind.
      rewrite (run_op1 py_range _ _ (VInt 1000))
        by (apply evals_Var;
            unfold after_nonlinear_setup, after_make_loaders,
              after_weights_init2, after_hyperparameters2; lookup).
      exact Hex.
    + destruct (Hlast 999%nat eq_refl) as [H1 H2].
      split; [exact H1|]. split; [exact H2|].
      rewrite Hout, reported_every_10_1000. reflexivity.
Qed.

Lemma nonlinear_training_returns_witness :
  labelled one_sample ∧ one_sample ≠ [] ∧
  (∀ k : nat, [0%nat] ≡ₚ seq 0 (length one_sample)) ∧
  ∃ s', run (nonlinear_experiment (Datasets one_sample [] [] [])
               zero_weight_draws (λ _, [0%nat])) fresh = Ok tt s'.
Proof.
  assert (H1 : labelled one_sample) by (repeat constructor; simpl; lia).
  assert (H2 : one_sample ≠ []) by discriminate.
  assert (H3 : ∀ k : nat, [0%nat] ≡ₚ seq 0 (length one_sample))
    by (intros; reflexivity).
  split; [exact H1|]. split; [exact H2|]. split; [exact H3|].
  destruct (nonlinear_training_returns (Datasets one_sample [] [] [])
              zero_weight_draws (λ _, [0%nat]) H1 H2 H3) as (_ & s' & H & _).
  exists s'. exact H.
Defined.

(** ** The run with zero weights, in numbers *)

Lemma rsum_const n c : rsum n (λ _, c) = INR n * c.
Proof.
  induction n as [|n IH]; [simpl; lra|].
  change (rsum (S n) (λ _, c)) with (rsum n (λ _, c) + c).
  rewrite IH, S_INR. lra.
Qed.

Lemma sum_entries_nonneg e : 0 <= sum_entries (λ t, t * t) e.
Proof.
  unfold sum_entries. apply rsum_nonneg. intros i. apply rsum_nonneg.
  intros j. apply Rle_0_sqr.
Qed.

(** [0.5 * np.square(np.linalg.norm(e))] is half the sum of the squares of
    the entries of [e]. *)
Lemma half_sq_norm_sum e : half_sq_norm e = 1 / 2 * sum_entries (λ t, t * t) e.
Proof.
  unfold half_sq_norm. rewrite sqrt_sqrt by apply sum_entries_nonneg.
  reflexivity.
Qed.

Lemma half_sq_norm_const e c :
  (∀ i j, ent e i j = c) →
  half_sq_norm e = 1 / 2 * (INR (nrows e) * (INR (ncols e) * (c * c))).
Proof.
  intros H. rewrite half_sq_norm_sum. unfold sum_entries.
  rewrite (rsum_ext _ _ (λ _, INR (ncols e) * (c * c))).
  - rewrite rsum_const. reflexivity.
  - intros i. rewrite (rsum_ext _ _ (λ _, c * c)).
    + apply rsum_const.
    + intros j. rewrite H. reflexivity.
Qed.

Lemma zero_run_labels i j : ent (y_train_of zero_weight_draws) i j = 15.
Proof.
  change (ent (y_train_of zero_weight_draws) i j) with (rsum 30 (λ _, 1 / 2 * 1)).
  rewrite rsum_const, INR_IZR_INZ.
  cbv [Z.of_nat Pos.of_succ_nat Pos.succ]. lra.
Qed.

Lemma zero_run_batch_loss w0 st :
  half_sq_norm (error w0 (W_of zero_weight_draws)
                 (slice_cols st (st + 25) (x_train_of zero_weight_draws))
                 (slice_cols st (st + 25) (y_train_of zero_weight_draws)))
  = 28125.
Proof.
  rewrite (half_sq_norm_const _ 15).
  - change (nrows (error _ _ _ _)) with 10%nat.
    change (ncols (error w0 (W_of zero_weight_draws)
                     (slice_cols st (st + 25) (x_train_of zero_weight_draws))
                     (slice_cols st (st + 25) (y_train_of zero_weight_draws))))
      with (st + 25 - st)%nat.
    replace (st + 25 - st)%nat with 25%nat by lia.
    rewrite !INR_IZR_INZ. cbv [Z.of_nat Pos.of_succ_nat Pos.succ]. lra.
  - intros i j. rewrite error_zero_ent by (intros a b; reflexivity).
    apply zero_run_labels.
Qed.

(** X11: In the run of the linear experiment with [T = 0.5], [x_data = 1] and
    [W0 = W = 0] (identity shuffle) every label is 15, every batch
    contributes [0.5 * 10 * 25 * 15^2 = 28125] to the loss, and the loss of
    epoch 0 and of epoch 1 is 84375. *)
Theorem zero_weight_run_loss :
  (∀ i j, ent (y_train_of zero_weight_draws) i j = 15) ∧
  loss_of_epoch zero_weight_draws 0 = Some (VFloat 84375) ∧
  loss_of_epoch zero_weight_draws 1 = Some (VFloat 84375).
Proof.
  split; [apply zero_run_labels|].
  assert (E0 : linear_loss zero_weight_draws 0 = VFloat 84375).
  { unfold linear_loss, loss_at. rewrite epoch_loss_sum.
    cbn [weights_at fst snd linear_config batches cfg_xs cfg_ys thirds zip
         zip_with loss_sum foldl loss_add].
    pose proof (zero_run_batch_loss (W0_of zero_weight_draws) 0) as H1.
    pose proof (zero_run_batch_loss (W0_of zero_weight_draws) 25) as H2.
    pose proof (zero_run_batch_loss (W0_of zero_weight_draws) 50) as H3.
    cbn [Nat.add] in H1, H2, H3.
    rewrite H1, H2, H3. f_equal. lra. }
  split.
  - rewrite (loss_of_epoch_eq _ 0 zero_weight_draws_valid). f_equal. exact E0.
  - rewrite (loss_of_epoch_eq _ 1 zero_weight_draws_valid). f_equal.
    unfold linear_loss.
    rewrite loss_at_zero by (intros i j; reflexivity). exact E0.
Qed.

(** ** The shapes of the weights *)

(** X12: After any number of epochs of the linear experiment [W0] is bound to a
    20 x 30 array, [W] to a 10 x 20 array and [B] to the drawn 20 x 10
    array: training changes the entries of the weights, never their
    shapes. *)
Theorem weights_keep_their_shape (d : draws) (n : nat) :
  valid_perm d →
  ∃ s w0 w,
    exec (linear_setup d;; linear_epochs n) fresh s ∧
    globals s !! "W0" = Some (VArr w0) ∧ nrows w0 = 20%nat ∧ ncols w0 = 30%nat ∧
    globals s !! "W" = Some (VArr w) ∧ nrows w = 10%nat ∧ ncols w = 20%nat ∧
    globals s !! "B" = Some (VArr (NdArray 20 10 (draw_B d))).
Proof.
  intros Hp.
  destruct (linear_run_epochs d n Hp) as (s & Hex & Hconf & J1 & J2 & _).
  destruct (weights_at_shape (linear_config d) (W0_of d) (W_of d) n)
    as (S1 & S2 & S3 & S4).
  exists s, (linear_weights d n).1, (linear_weights d n).2.
  split; [exact Hex|]. split; [exact J1|]. split; [exact S1|].
  split; [exact S2|]. split; [exact J2|]. split; [exact S3|].
  split; [exact S4|]. apply (conf_B _ _ Hconf).
Qed.

Lemma weights_keep_their_shape_witness :
  valid_perm zero_weight_draws ∧
  ∃ s w0, exec (linear_setup zero_weight_draws;; linear_epochs 5) fresh s ∧
          globals s !! "W0" = Some (VArr w0) ∧ nrows w0 = 20%nat.
Proof.
  split; [apply zero_weight_draws_valid|].
  destruct (weights_keep_their_shape zero_weight_draws 5 zero_weight_draws_valid)
    as (s & w0 & w & H1 & H2 & H3 & _).
  exists s, w0. split; [exact H1|]. split; [exact H2 | exact H3].
Defined.

(** ** The test cell *)

Lemma preserves_linear_test x :
  x ∉ ["h"; "y"; "e"; "test_error"] → preserves x linear_test.
Proof.
  intros Hx. rewrite !not_elem_of_cons in Hx. unfold linear_test.
  repeat lazymatch goal with
  | |- preserves _ (Assign _ _) => apply preserves_Assign; [tauto|]
  | |- _ => preserves_step
  end.
Qed.

(** X13: The test cell rebinds [h], [y], [e] and [test_error] and no other name
    (the trained weights and the data stay as they are).  Run after the
    setup and [n] epochs of training it returns, and [test_error] is half
    the sum over the 10 x 25 entries of the squared difference between
    [y_test] and [W @ (W0 @ x_test)], for the weights the training ended
    with. *)
Theorem test_error_of_trained_network (d : draws) (n : nat) :
  (∀ x, x ∉ ["h"; "y"; "e"; "test_error"] → preserves x linear_test) ∧
  (valid_perm d →
   ∃ s1 s2 w0 w xt yt,
     exec (linear_setup d;; linear_epochs n) fresh s1 ∧
     exec linear_test s1 s2 ∧
     globals s1 !! "W0" = Some (VArr w0) ∧ globals s2 !! "W0" = Some (VArr w0) ∧
     globals s1 !! "W" = Some (VArr w) ∧ globals s2 !! "W" = Some (VArr w) ∧
     globals s2 !! "x_test" = Some (VArr xt) ∧
     globals s2 !! "y_test" = Some (VArr yt) ∧
     globals s2 !! "y" = Some (VArr (mm w (mm w0 xt))) ∧
     globals s2 !! "test_error"
     = Some (VFloat (1 / 2 * sum_f_R0 (λ i, sum_f_R0 (λ j,
         (ent yt i j - ent (mm w (mm w0 xt)) i j)
         * (ent yt i j - ent (mm w (mm w0 xt)) i j)) 24) 9))).
Proof.
  split; [apply preserves_linear_test|].
  intros Hp.
  destruct (linear_epochs_then_test d n Hp) as (s1 & Hex & Htest & J1 & J2 & _).
  destruct (linear_epochs_keeps_test n _ _ Hex) as [K1 K2].
  destruct (linear_setup_test d fresh) as [T1 T2].
  rewrite T1 in K1. rewrite T2 in K2.
  eexists s1, _, _, _, (x_test_of d), (y_test_of d).
  split; [eapply exec_seq; [apply linear_setup_exec, Hp | exact Hex]|].
  split; [exact Htest|].
  unfold after_linear_test.
  split; [exact J1|]. split; [lookup|]. split; [exact J2|]. split; [lookup|].
  split; [lookup|]. split; [lookup|]. split; [lookup|].
  rewrite lookup_rebind_eq. do 2 f_equal.
  rewrite half_sq_norm_sum. f_equal. unfold sum_entries.
  change (nrows (error _ _ _ _)) with (nrows (y_test_of d)).
  change (ncols (error (linear_weights d n).1 (linear_weights d n).2
                   (x_test_of d) (y_test_of d)))
    with (ncols (y_test_of d)).
  change (nrows (y_test_of d)) with 10%nat.
  assert (Hc : ncols (y_test_of d) = 25%nat) by apply (test_idx_length d Hp).
  rewrite Hc, rsum_sum_f_R0.
  apply sum_f_R0_ext. intros i Hi. rewrite rsum_sum_f_R0.
  apply sum_f_R0_ext. intros j Hj.
  destruct (weights_at_shape (linear_config d) (W0_of d) (W_of d) n)
    as (S1 & S2 & S3 & S4).
  assert (E : ent (error (linear_weights d n).1 (linear_weights d n).2
                     (x_test_of d) (y_test_of d)) i j
              = ent (y_test_of d) i j
                - ent (mm (linear_weights d n).2
                         (mm (linear_weights d n).1 (x_test_of d))) i j).
  { unfold error, output, hidden. apply zip_array_ent.
    - change (nrows (y_test_of d)) with 10%nat. lia.
    - rewrite Hc. lia.
    - rewrite (proj1 (shape_mm _ _)). unfold linear_weights. rewrite S3.
      change (nrows (W_of d)) with 10%nat. lia.
    - rewrite (proj2 (shape_mm _ _)), (proj2 (shape_mm _ _)).
      change (ncols (x_test_of d)) with (length (test_idx d)).
      rewrite (test_idx_length d Hp). lia. }
  rewrite E. reflexivity.
Qed.

Lemma test_error_of_trained_network_witness :
  valid_perm zero_weight_draws ∧
  ∃ s1 s2, exec (linear_setup zero_weight_draws;; linear_epochs 2) fresh s1 ∧
           exec linear_test s1 s2.
Proof.
  split; [apply zero_weight_draws_valid|].
  destruct (proj2 (test_error_of_trained_network zero_weight_draws 2)
              zero_weight_draws_valid)
    as (s1 & s2 & w0 & w & xt & yt & H1 & H2 & _).
  exists s1, s2. split; [exact H1 | exact H2].
Defined.

(** ** [sigma] at zero *)

Lemma logistic_0 : logistic 0 = 1 / 2.
Proof. unfold logistic. rewrite Ropp_0, exp_0. lra. Qed.

(** X14: [sigma(0)] is [0.5], for the float and for the integer zero; so under
    hidden weights that are all zero every hidden activation of a
    non-linear batch is [0.5] and every derivative factor [h * (1 - h)] is
    [0.25], whatever the images are. *)
Theorem sigma_of_zero :
  sigma (VFloat 0) = inr (VFloat (1 / 2)) ∧
  sigma (VInt 0) = inr (VFloat (1 / 2)) ∧
  (∀ w0 x, (∀ i j, ent w0 i j = 0) →
     ∀ i j, ent (nl_hidden w0 x) i j = 1 / 2 ∧
            ((i < nrows w0)%nat → (j < nrows x)%nat →
             ent (deriv (nl_hidden w0 x)) i j = 1 / 4)) ∧
  ∃ s' h, exec (nonlinear_batch (VTensor blank_image, VIntTensor [3%Z]))
               (nonlinear_start zero_weight_draws) s' ∧
          globals s' !! "h" = Some (VArr h) ∧
          nrows h = 1000%nat ∧ ncols h = 1%nat ∧
          ∀ i j, ent h i j = 1 / 2.
Proof.
  assert (H0 : ∀ w0 x, (∀ i j, ent w0 i j = 0) →
                 ∀ i j, ent (nl_hidden w0 x) i j = 1 / 2).
  { intros w0 x Hw i j. unfold nl_hidden. rewrite sigma_array_ent.
    rewrite (mm_zero_l _ _ Hw). apply logistic_0. }
  split; [rewrite sigma_float, logistic_0; reflexivity|].
  split.
  { unfold sigma. simpl. change (- 0)%Z with 0%Z.
    destruct (Req_dec_T (1 + exp 0) 0) as [E|_].
    - pose proof (exp_pos 0). lra.
    - rewrite exp_0. apply f_equal, f_equal. lra. }
  split.
  { intros w0 x Hw i j. split; [apply H0, Hw|].
    intros Hi Hj.
    rewrite deriv_ent
      by (unfold nl_hidden; cbn [nrows ncols sigma_array map_array mm transpose];
          assumption).
    rewrite (H0 w0 x Hw). lra. }
  exists (after_nonlinear_batch (NdArray 1000 10 (λ _ _, 1 / 4))
            (NdArray 1000 784 (λ _ _, 0)) (NdArray 10 1000 (λ _ _, 0))
            blank_image [3%Z] [3%nat] (VInt 0) (VInt 0) (VInt 0) (VInt 0)
            (nonlinear_start zero_weight_draws)),
         (nl_hidden (NdArray 1000 784 (λ _ _, 0)) (batch_data blank_image)).
  split.
  { apply nonlinear_batch_ready_exec;
      [apply (nonlinear_start_ready zero_weight_draws) | apply blank_image_good]. }
  split; [unfold after_nonlinear_batch; lookup|].
  split; [reflexivity|]. split; [reflexivity|].
  apply H0. intros i j. reflexivity.
Qed.

(** ** What the linear training prints *)

Lemma reported_spec n : reported n = ((n + 99) / 100)%nat.
Proof.
  induction n as [|n IH]; [reflexivity|].
  cbn [reported]. rewrite IH.
  pose proof (Nat.div_mod_eq (n + 99)%nat 100%nat) as E1.
  pose proof (Nat.mod_upper_bound (n + 99)%nat 100%nat ltac:(lia)) as U1.
  pose proof (Nat.div_mod_eq (S n + 99)%nat 100%nat) as E2.
  pose proof (Nat.mod_upper_bound (S n + 99)%nat 100%nat ltac:(lia)) as U2.
  pose proof (Nat.div_mod_eq n 100%nat) as E3.
  pose proof (Nat.mod_upper_bound n 100%nat ltac:(lia)) as U3.
  assert (Hz : (Z.of_nat n mod 100 = Z.of_nat (n mod 100))%Z)
    by (rewrite Nat2Z.inj_mod; reflexivity).
  destruct (Z.eqb_spec (Z.of_nat n mod 100) 0) as [H|H]; lia.
Qed.

Lemma reports_lookup c w0 w n q :
  (100 * q < n)%nat →
  reports c w0 w n !! (2 * q)%nat
  = Some (Line "      Epoch " (VInt (Z.of_nat (100 * q)))) ∧
  reports c w0 w n !! (2 * q + 1)%nat
  = Some (Line "      Current loss: " (loss_at c w0 w (100 * q))).
Proof.
  induction n as [|n IH]; intros Hq; [lia|].
  cbn [reports].
  destruct (Nat.eq_dec (100 * q)%nat n) as [E|E].
  - subst n.
    assert (Hl : length (reports c w0 w (100 * q)) = (2 * q)%nat).
    { rewrite length_reports, reported_spec.
      pose proof (Nat.div_mod_eq (100 * q + 99)%nat 100%nat).
      pose proof (Nat.mod_upper_bound (100 * q + 99)%nat 100%nat ltac:(lia)). lia. }
    assert (Hm : (Z.of_nat (100 * q) mod 100 =? 0)%Z = true).
    { apply Z.eqb_eq. rewrite Nat2Z.inj_mul, Z.mul_comm.
      apply Z.mod_mul. lia. }
    unfold report. rewrite Hm.
    split.
    + rewrite lookup_app_r by lia. rewrite Hl, Nat.sub_diag. reflexivity.
    + rewrite lookup_app_r by lia.
      replace (2 * q + 1 - length (reports c w0 w (100 * q)))%nat with 1%nat
        by lia.
      reflexivity.
  - destruct (IH ltac:(lia)) as [I1 I2].
    split; apply lookup_app_l_Some; assumption.
Qed.

(** X15: The lines the linear training cell prints: for [q = 0, ..., 9], line
    [2 q] is the epoch number [100 q] and line [2 q + 1] the value [loss]
    had at the end of epoch [100 q]. *)
Theorem linear_training_reports (d : draws) :
  valid_perm d →
  ∃ s, exec (linear_setup d;; linear_epochs 1000) fresh s ∧
       length (stdout s) = 20%nat ∧
       ∀ q, (q < 10)%nat →
         stdout s !! (2 * q)%nat
         = Some (Line "      Epoch " (VInt (Z.of_nat (100 * q)))) ∧
         ∃ l, loss_of_epoch d (100 * q) = Some l ∧
              stdout s !! (2 * q + 1)%nat
              = Some (Line "      Current loss: " l).
Proof.
  intros Hp.
  destruct (linear_run_epochs d 1000 Hp) as (s & Hex & _ & _ & _ & Hout & _).
  exists s. split; [exact Hex|]. rewrite Hout.
  split; [rewrite length_reports, reported_1000; reflexivity|].
  intros q Hq.
  destruct (reports_lookup (linear_config d) (W0_of d) (W_of d) 1000 q
              ltac:(lia)) as [H1 H2].
  split; [exact H1|].
  exists (linear_loss d (100 * q)).
  split; [apply loss_of_epoch_eq, Hp | exact H2].
Qed.

Lemma linear_training_reports_witness :
  valid_perm zero_weight_draws ∧
  ∃ s, exec (linear_setup zero_weight_draws;; linear_epochs 1000) fresh s ∧
       stdout s !! 0%nat = Some (Line "      Epoch " (VInt 0)).
Proof.
  split; [apply zero_weight_draws_valid|].
  destruct (linear_training_reports zero_weight_draws zero_weight_draws_valid)
    as (s & H1 & _ & H2).
  exists s. split; [exact H1|]. apply (proj1 (H2 0%nat ltac:(lia))).
Defined.

(** ** [np.split] returns the array in pieces *)

Lemma list_sum_section_sizes total parts :
  (0 < parts)%nat → list_sum (section_sizes total parts) = total.
Proof.
  intros Hp. unfold section_sizes.
  rewrite list_sum_app, !list_sum_repeat.
  pose proof (Nat.div_mod_eq total parts) as E.
  pose proof (Nat.mod_upper_bound total parts ltac:(lia)) as U.
  nia.
Qed.

Lemma length_section_sizes total parts :
  (0 < parts)%nat → length (section_sizes total parts) = parts.
Proof.
  intros Hp. unfold section_sizes. rewrite length_app, !repeat_length.
  pose proof (Nat.mod_upper_bound total parts ltac:(lia)). lia.
Qed.

Lemma length_cut_cols st sizes a : length (cut_cols st sizes a) = length sizes.
Proof.
  revert st. induction sizes as [|sz rest IH]; intros st; simpl;
    [reflexivity | rewrite IH; reflexivity].
Qed.

(** X2: Whenever [np.split(a, sections, axis=1)] returns, for an integer or a
    float [sections], it returns [int(sections)] arrays, each with the
    rows of [a], and their concatenation in order is [a]: no column is
    lost, repeated or moved. *)
Theorem np_split_round_trip (a : ndarray) (sections : val) (l : list ndarray) :
  np_split (VArr a) sections = inr (VArrs l) →
  ∃ k, py_int sections = inr k ∧ (0 < k)%Z ∧
       length l = Z.to_nat k ∧
       Forall (λ p, nrows p = nrows a) l ∧
       same_array (hstack (nrows a) l) a.
Proof.
  unfold np_split.
  destruct (py_mod (VInt (Z.of_nat (ncols a))) sections) as [e|r]; [discriminate|].
  destruct (py_truth r) as [e|[|]]; try discriminate.
  unfold array_split.
  destruct (py_int sections) as [e|k]; [discriminate|].
  destruct (Z.leb_spec k 0) as [H|H]; [discriminate|].
  intros [= <-]. exists k. split; [reflexivity|]. split; [exact H|].
  assert (Hk : (0 < Z.to_nat k)%nat) by lia.
  split; [rewrite length_cut_cols; apply length_section_sizes, Hk|].
  destruct (hstack_cut_cols a (section_sizes (ncols a) (Z.to_nat k)) 0)
    as (H1 & H2 & H3).
  rewrite (list_sum_section_sizes _ _ Hk) in H2, H3.
  split.
  - generalize (section_sizes (ncols a) (Z.to_nat k)) 0%nat.
    intros sizes. induction sizes as [|sz rest IH]; intros st; simpl;
      constructor; [reflexivity | apply IH].
  - split; [exact H1|]. split; [exact H2|].
    intros i j _ Hj. rewrite H2 in Hj. apply H3, Hj.
Qed.

Lemma np_split_round_trip_witness :
  ∃ l, np_split (VArr (NdArray 2 6 (λ _ j, INR j))) (VInt 3) = inr (VArrs l) ∧
       length l = 3%nat.
Proof.
  eexists. split; [reflexivity|].
  destruct (np_split_round_trip (NdArray 2 6 (λ _ j, INR j)) (VInt 3) _ eq_refl)
    as (k & Hk & _ & Hl & _).
  injection Hk as <-. exact Hl.
Defined.

(** ** Batches the loop body cannot take *)

(** X9: A batch that does not hold whole images stops the loop body with
    [RuntimeError] at [view(-1, 784)]; a batch with a label that is no
    class index stops it with [IndexError] at [np.eye(10)[...]].  In both
    cases only [training_data] and [training_labels] have been rebound:
    the weights and the accumulators are as they were. *)
Theorem malformed_batch_raises (s : state) (t : tensor) (ls : list Z) :
  ((numel t mod 784 ≠ 0)%nat →
   run (nonlinear_batch (VTensor t, VIntTensor ls)) s
   = Raise RuntimeError
       (rebind "training_labels" (VIntTensor ls)
          (rebind "training_data" (VTensor t) s))) ∧
  ((numel t mod 784 = 0)%nat → Exists (λ l, ¬ (-10 <= l < 10)%Z) ls →
   ∃ s', run (nonlinear_batch (VTensor t, VIntTensor ls)) s
         = Raise IndexError s' ∧
         globals s' !! "training_data" = Some (VArr (batch_data t)) ∧
         globals s' !! "training_labels" = Some (VIntVec ls) ∧
         ∀ x, x ≠ "training_data" → x ≠ "training_labels" →
              globals s' !! x = globals s !! x).
Proof.
  split.
  - intros Hn. unfold nonlinear_batch. cbn [fst snd].
    rewrite run_bind, run_store, run_bind, run_store, run_bind.
    rewrite (run_op1 (view_numpy 784) _ _ (VTensor t)) by ev_var.
    unfold view_numpy.
    destruct (Nat.eqb_spec (numel t mod 784) 0) as [E|_]; [contradiction|].
    reflexivity.
  - intros Hn Hex.
    assert (Hi : py_indices 10 ls = None).
    { pose proof (py_indices_spec 10 ls) as H.
      destruct (py_indices 10 ls) as [ks|]; [|reflexivity].
      exfalso. apply Exists_exists in Hex as (l & Hin & Hl).
      apply list_elem_of_lookup in Hin as [j Hj].
      destruct (Forall2_lookup_l _ _ _ _ _ H Hj) as (k & _ & _ & K & _).
      apply Hl, K. }
    eexists. split; [|split; [|split]].
    + unfold nonlinear_batch. cbn [fst snd].
      rewrite run_bind, run_store, run_bind, run_store.
      rewrite (exec_bind_evals _ _ _ (VArr (batch_data t)))
        by (eapply evals_op1; [ev_var | apply view_numpy_ok, Hn]).
      rewrite (exec_bind_evals _ _ _ (VIntVec ls))
        by (eapply evals_op1; [ev_var | reflexivity]).
      rewrite run_bind, run_store, run_bind, run_store.
      rewrite run_bind.
      rewrite (exec_Assign "training_labels" _ _ (VIntVec ls))
        by (eapply evals_op1; [ev_var | reflexivity]).
      rewrite run_bind. unfold Assign at 1. rewrite run_bind.
      unfold op1 at 1. rewrite run_bind.
      rewrite (run_op1 (index_rows (np_eye 10)) _ _ (VIntVec ls)) by ev_var.
      simpl index_rows. change (nrows (np_eye 10)) with 10%nat.
      rewrite Hi. reflexivity.
    + lookup.
    + lookup.
    + intros x H1 H2.
      rewrite !lookup_rebind_ne by (intros <-; contradiction). reflexivity.
Qed.

Lemma malformed_batch_raises_witness :
  (numel blank_image mod 784 = 0)%nat ∧
  Exists (λ l, ¬ (-10 <= l < 10)%Z) [10%Z] ∧
  ∃ s', run (nonlinear_batch (VTensor blank_image, VIntTensor [10%Z])) fresh
        = Raise IndexError s'.
Proof.
  assert (H : Exists (λ l, ¬ (-10 <= l < 10)%Z) [10%Z])
    by (constructor; lia).
  split; [reflexivity|]. split; [exact H|].
  destruct (proj2 (malformed_batch_raises fresh blank_image [10%Z]) eq_refl H)
    as (s' & H1 & _).
  exists s'. exact H1.
Defined.
